(** * NewareNDAx: decoding Neware [.ndax] archives

    A shallow embedding of [NewareNDA/NewareNDAx.py] and the properties of
    its record decoders, block scanners, table assembly and version routing.

    Conventions of the embedding:
    - a byte buffer ([bytes], an [mmap]) is a [list byte];
    - a Python exception is a value of [pyexc], a function that may raise
      returns a [result];
    - Python [int] is [Z]; Python [float] is an abstract type [F] with the
      operations of the class [PyFloat] (an IEEE binary64 instance built on
      the standard library's [SpecFloat] is given in [Module Binary64]);
    - the lookup tables of [NewareNDA.dicts] are finite maps held in the
      class [Dicts];
    - a pandas table is a list of rows, a missing cell ([NaN]) is [None]. *)

From Stdlib Require Import ZArith List Lia Bool String Ascii.
From Stdlib.Strings Require Import Byte.
From Stdlib Require Import SpecFloat.
From stdpp Require Import base option list gmap strings sorting.

Local Open Scope Z_scope.

(* ================================================================== *)
(** * Part I: the embedding                                            *)
(* ================================================================== *)

(** ** Exceptions and results *)

Inductive pyexc : Type :=
  | StructError          (* struct.error *)
  | KeyError             (* missing dict key, missing archive member *)
  | ValueError           (* datetime(), mmap.seek, mmap of an empty file, int() *)
  | IndexError           (* str index, Series.iat *)
  | TypeError
  | IntCastingNaNError   (* astype(int) of a column holding NaN *)
  | NotImplementedError (msg : string)
  | FuelExhausted.       (* no Python error: a loop ran out of fuel *)

Inductive result (A : Type) : Type :=
  | Ok (a : A)
  | Raise (e : pyexc).
Arguments Ok {A} a.
Arguments Raise {A} e.

#[global] Instance result_ret : MRet result := fun A a => Ok a.
#[global] Instance result_bind : MBind result := fun A B f m =>
  match m with Ok a => f a | Raise e => Raise e end.
#[global] Instance result_fmap : FMap result := fun A B f m =>
  match m with Ok a => Ok (f a) | Raise e => Raise e end.

Definition is_Ok {A} (r : result A) : bool :=
  match r with Ok _ => true | Raise _ => false end.

(** [d[k]] on a Python dict. *)
Definition dict_get {V} (d : gmap Z V) (k : Z) : result V :=
  match d !! k with Some v => Ok v | None => Raise KeyError end.

(** ** Bytes and slices *)

Definition byte_val (b : byte) : Z := Z.of_N (Byte.to_N b).

(** Python's index normalisation for slices: a negative index counts from
    the end, and the result is clamped to [0, len]. *)
Definition clamp_index (len i : Z) : Z :=
  let j := if i <? 0 then i + len else i in
  Z.max 0 (Z.min len j).

(** [l[start:stop]] *)
Definition py_slice {A} (start stop : Z) (l : list A) : list A :=
  let len := Z.of_nat (length l) in
  let a := clamp_index len start in
  let b := clamp_index len stop in
  take (Z.to_nat (b - a)) (drop (Z.to_nat a) l).

(** ** Numbers *)

(** The operations on Python floats used by the module. *)
Class PyFloat (F : Type) := {
  float_of_int : Z -> F;        (* float(n), the implicit int -> float conversion *)
  int_truediv : Z -> Z -> F;    (* n / m on two ints *)
  float_add : F -> F -> F;
  float_sub : F -> F -> F;
  float_mul : F -> F -> F;
  float_div : F -> F -> F;
  float_of_f32 : Z -> F;        (* the binary32 value with the given 32 bits *)
  float_to_int : F -> option Z  (* truncation; None on NaN and infinities *)
}.

(** A Python number: the multiplier table holds ints and floats alike. *)
Inductive pynum (F : Type) : Type :=
  | PInt (n : Z)
  | PFloat (f : F).
Arguments PInt {F} n.
Arguments PFloat {F} f.

Section Numbers.
Context {F : Type} `{PyFloat F}.

  (** [n * x] for an int [n] *)
Definition py_int_mul (n : Z) (x : pynum F) : pynum F :=
    match x with
    | PInt m => PInt (n * m)
    | PFloat f => PFloat (float_mul (float_of_int n) f)
    end.

  (** [x / k] for a positive int literal [k] *)
Definition py_truediv (x : pynum F) (k : positive) : F :=
    match x with
    | PInt n => int_truediv n (Zpos k)
    | PFloat f => float_div f (float_of_int (Zpos k))
    end.
End Numbers.

(** ** The [struct] module (little-endian, standard sizes) *)

Inductive pyval (F : Type) : Type :=
  | VInt (n : Z)
  | VFloat (f : F)
  | VBytes (bs : list byte).
Arguments VInt {F} n.
Arguments VFloat {F} f.
Arguments VBytes {F} bs.

Inductive fmt_item : Type :=
  | FmtInt (signed : bool) (size : nat)
  | FmtFloat
  | FmtBytes (n : nat).

(** Unsigned little-endian integer, accumulated from the most significant
    byte down as [x = (x << 8) | byte]. *)
Definition lu_uint (bs : list byte) : Z :=
  foldr (fun b x => Z.lor (Z.shiftl x 8) (byte_val b)) 0 bs.

(** Signed little-endian integer: the unsigned value, sign-extended by
    [x |= -(x & (1 << (8*size - 1)))]. *)
Definition lu_int (bs : list byte) : Z :=
  let x := lu_uint bs in
  Z.lor x (- (Z.land x (Z.shiftl 1 (8 * Z.of_nat (length bs) - 1)))).

Definition fmt_code (c : ascii) : option fmt_item :=
  if Ascii.eqb c "b" then Some (FmtInt true 1)
  else if Ascii.eqb c "B" then Some (FmtInt false 1)
  else if Ascii.eqb c "h" then Some (FmtInt true 2)
  else if Ascii.eqb c "H" then Some (FmtInt false 2)
  else if Ascii.eqb c "i" then Some (FmtInt true 4)
  else if Ascii.eqb c "I" then Some (FmtInt false 4)
  else if Ascii.eqb c "q" then Some (FmtInt true 8)
  else if Ascii.eqb c "Q" then Some (FmtInt false 8)
  else if Ascii.eqb c "f" then Some FmtFloat
  else None.

(** The value of a decimal digit character. *)
Definition digit_of_ascii (c : ascii) : option nat :=
  let n := nat_of_ascii c in
  if ((48 <=? n) && (n <=? 57))%nat then Some (n - 48)%nat else None.

Fixpoint parse_items (cs : list ascii) (count : option nat) : option (list fmt_item) :=
  match cs with
  | [] => match count with None => Some [] | Some _ => None end
  | c :: cs' =>
      match digit_of_ascii c with
      | Some d => parse_items cs' (Some (10 * default 0 count + d)%nat)
      | None =>
          let n := default 1%nat count in
          items ← (if Ascii.eqb c "s" then Some [FmtBytes n]
                   else replicate n <$> fmt_code c);
          rest ← parse_items cs' None;
          Some (items ++ rest)
      end
  end.

Definition parse_format (fmt : string) : option (list fmt_item) :=
  match list_ascii_of_string fmt with
  | c :: cs => if Ascii.eqb c "<" then parse_items cs None else None
  | [] => None
  end.

Definition item_size (it : fmt_item) : nat :=
  match it with
  | FmtInt _ n => n
  | FmtFloat => 4
  | FmtBytes n => n
  end.

Definition calcsize (items : list fmt_item) : nat :=
  foldr (fun it n => (item_size it + n)%nat) 0%nat items.

Section Struct.
Context {F : Type} `{PyFloat F}.

Definition unpack_item (it : fmt_item) (bs : list byte) : pyval F :=
    match it with
    | FmtInt true _ => VInt (lu_int bs)
    | FmtInt false _ => VInt (lu_uint bs)
    | FmtFloat => VFloat (float_of_f32 (lu_uint bs))
    | FmtBytes _ => VBytes bs
    end.

Fixpoint unpack_items (items : list fmt_item) (buf : list byte) : list (pyval F) :=
    match items with
    | [] => []
    | it :: its =>
        unpack_item it (take (item_size it) buf)
          :: unpack_items its (drop (item_size it) buf)
    end.

  (** [struct.unpack(fmt, buf)]: the buffer must have exactly the size of
      the format. *)
Definition struct_unpack (fmt : string) (buf : list byte) : result (list (pyval F)) :=
    match parse_format fmt with
    | None => Raise StructError
    | Some items =>
        if (length buf =? calcsize items)%nat
        then Ok (unpack_items items buf)
        else Raise StructError
    end.

Fixpoint unpack_chunks (n : nat) (size : nat) (items : list fmt_item)
      (buf : list byte) : list (list (pyval F)) :=
    match n with
    | O => []
    | S n' => unpack_items items (take size buf)
                :: unpack_chunks n' size items (drop size buf)
    end.

  (** [struct.iter_unpack(fmt, buf)]: the size checks are made when the
      iterator is created, before any record is produced. *)
Definition struct_iter_unpack (fmt : string) (buf : list byte)
      : result (list (list (pyval F))) :=
    match parse_format fmt with
    | None => Raise StructError
    | Some items =>
        let size := calcsize items in
        if (size =? 0)%nat then Raise StructError
        else if (length buf mod size =? 0)%nat
        then Ok (unpack_chunks (length buf / size) size items buf)
        else Raise StructError
    end.

  (** Destructuring assignments [[a, b] = ...] and tuple indexing [i[k]]. *)
Definition ints1 (vs : list (pyval F)) : result Z :=
    match vs with [VInt a] => Ok a | _ => Raise TypeError end.
Definition ints2 (vs : list (pyval F)) : result (Z * Z) :=
    match vs with [VInt a; VInt b] => Ok (a, b) | _ => Raise TypeError end.
Definition ints6 (vs : list (pyval F)) : result (Z * Z * Z * Z * Z * Z) :=
    match vs with
    | [VInt a; VInt b; VInt c; VInt d; VInt e; VInt f] => Ok (a, b, c, d, e, f)
    | _ => Raise TypeError
    end.
Definition item_int (vs : list (pyval F)) (k : nat) : result Z :=
    match vs !! k with
    | Some (VInt n) => Ok n
    | Some _ => Raise TypeError
    | None => Raise IndexError
    end.
Definition item_float (vs : list (pyval F)) (k : nat) : result F :=
    match vs !! k with
    | Some (VFloat f) => Ok f
    | Some _ => Raise TypeError
    | None => Raise IndexError
    end.
End Struct.

(** ** [datetime] *)

Record datetime : Type := mk_datetime {
  dt_year : Z; dt_month : Z; dt_day : Z;
  dt_hour : Z; dt_minute : Z; dt_second : Z
}.

Definition is_leap (y : Z) : bool :=
  (y mod 4 =? 0) && (negb (y mod 100 =? 0) || (y mod 400 =? 0)).

Definition days_in_month (y m : Z) : Z :=
  if (m =? 2) && is_leap y then 29
  else nth (Z.to_nat m) [0; 31; 28; 31; 30; 31; 30; 31; 31; 30; 31; 30; 31] 0.

Definition valid_date (Y M D h m s : Z) : bool :=
  (1 <=? Y) && (Y <=? 9999) && (1 <=? M) && (M <=? 12)
  && (1 <=? D) && (D <=? days_in_month Y M)
  && (0 <=? h) && (h <=? 23) && (0 <=? m) && (m <=? 59)
  && (0 <=? s) && (s <=? 59).

(** [datetime(Y, M, D, h, m, s)] *)
Definition py_datetime (Y M D h m s : Z) : result datetime :=
  if valid_date Y M D h m s then Ok (mk_datetime Y M D h m s)
  else Raise ValueError.

(** ** Legacy record decoders *)

(** One row of the legacy main table, in the order of [rec_columns]. *)
Record MainRecord (F State : Type) : Type := mk_MainRecord {
  rec_Index : Z;
  rec_Cycle : Z;
  rec_Step : Z;
  rec_Status : State;
  rec_Time : F;
  rec_Voltage : F;
  rec_Current : pynum F;
  rec_Charge_Capacity : F;
  rec_Discharge_Capacity : F;
  rec_Charge_Energy : F;
  rec_Discharge_Energy : F;
  rec_Timestamp : datetime
}.
Arguments mk_MainRecord {F State}.
Arguments rec_Index {F State}.
Arguments rec_Cycle {F State}.
Arguments rec_Step {F State}.
Arguments rec_Status {F State}.
Arguments rec_Time {F State}.
Arguments rec_Voltage {F State}.
Arguments rec_Current {F State}.
Arguments rec_Charge_Capacity {F State}.
Arguments rec_Discharge_Capacity {F State}.
Arguments rec_Charge_Energy {F State}.
Arguments rec_Discharge_Energy {F State}.
Arguments rec_Timestamp {F State}.

(** ** The tables of [NewareNDA.dicts]

    The module [NewareNDA.dicts] supplies the status table, the multiplier
    table and the column types; they are parameters of the development.
    [dtype_cast] is the effect of [df.astype(dtype=dtype_dict)] on one row. *)

Class Dicts (F State : Type) := {
  state_dict : gmap Z State;
  multiplier_dict : gmap Z (pynum F);
  dtype_cast : MainRecord F State -> MainRecord F State
}.

Section Decoders.
Context {F State : Type} `{PyFloat F} `{Dicts F State}.

(** Helper function for interpreting an ndc byte string *)
Definition _bytes_to_list_ndc (bytes : list byte) : result (MainRecord F State) :=
  '(Index, Cycle) ← struct_unpack "<II" (py_slice 8 16 bytes) ≫= ints2;
  Step ← struct_unpack "<B" (py_slice 16 17 bytes) ≫= ints1;
  Status ← struct_unpack "<B" (py_slice 17 18 bytes) ≫= ints1;
  Time ← struct_unpack "<Q" (py_slice 23 31 bytes) ≫= ints1;
  '(Voltage, Current) ← struct_unpack "<ii" (py_slice 31 39 bytes) ≫= ints2;
  '(Charge_capacity, Discharge_capacity) ←
     struct_unpack "<qq" (py_slice 43 59 bytes) ≫= ints2;
  '(Charge_energy, Discharge_energy) ←
     struct_unpack "<qq" (py_slice 59 75 bytes) ≫= ints2;
  '(Y, M, D, h, m, s) ← struct_unpack "<HBBBBB" (py_slice 75 82 bytes) ≫= ints6;
  Range ← struct_unpack "<i" (py_slice 82 86 bytes) ≫= ints1;
  multiplier ← dict_get multiplier_dict Range;
  state ← dict_get state_dict Status;
  timestamp ← py_datetime Y M D h m s;
  mret (mk_MainRecord
    Index
    (Cycle + 1)
    Step
    state
    (int_truediv Time 1000)
    (int_truediv Voltage 10000)
    (py_int_mul Current multiplier)
    (py_truediv (py_int_mul Charge_capacity multiplier) 3600)
    (py_truediv (py_int_mul Discharge_capacity multiplier) 3600)
    (py_truediv (py_int_mul Charge_energy multiplier) 3600)
    (py_truediv (py_int_mul Discharge_energy multiplier) 3600)
    timestamp).

(** Helper functions for interpreting auxiliary records; the result is the
    Python list [[Index, Aux, V/10000, T/10]], with [t/10] appended for the
    0x74 variant. *)
Definition _aux_bytes_65_to_list_ndc (bytes : list byte) : result (list (pynum F)) :=
  Aux ← struct_unpack "<B" (py_slice 3 4 bytes) ≫= ints1;
  Index ← struct_unpack "<I" (py_slice 8 12 bytes) ≫= ints1;
  T ← struct_unpack "<h" (py_slice 41 43 bytes) ≫= ints1;
  V ← struct_unpack "<i" (py_slice 31 35 bytes) ≫= ints1;
  mret [PInt Index; PInt Aux; PFloat (int_truediv V 10000); PFloat (int_truediv T 10)].

Definition _aux_bytes_74_to_list_ndc (bytes : list byte) : result (list (pynum F)) :=
  Aux ← struct_unpack "<B" (py_slice 3 4 bytes) ≫= ints1;
  Index ← struct_unpack "<I" (py_slice 8 12 bytes) ≫= ints1;
  V ← struct_unpack "<i" (py_slice 31 35 bytes) ≫= ints1;
  '(T, t) ← struct_unpack "<hh" (py_slice 41 45 bytes) ≫= ints2;
  mret [PInt Index; PInt Aux; PFloat (int_truediv V 10000);
        PFloat (int_truediv T 10); PFloat (int_truediv t 10)].

End Decoders.

(** ** Memory-mapped files *)

(** [mmap.mmap(f.fileno(), 0, access=mmap.ACCESS_READ)]: an empty file
    cannot be mapped. *)
Definition mmap_open (file : list byte) : result (list byte) :=
  match file with
  | [] => Raise ValueError
  | _ => Ok file
  end.

(** [mm.seek(pos)]: seeking past the end is an error. *)
Definition mmap_seek (mm : list byte) (pos : nat) : result nat :=
  if (pos <=? length mm)%nat then Ok pos else Raise ValueError.

(** [mm.read(n)] at position [pos]: at most [n] bytes, fewer at the end;
    the position advances by the number of bytes read. *)
Definition mmap_read (mm : list byte) (pos n : nat) : list byte :=
  take n (drop pos mm).

(** [for x in xs: <body>], where the body appends rows to the output list
    or raises. *)
Fixpoint for_each {A R} (xs : list A) (body : A -> result (list R)) : result (list R) :=
  match xs with
  | [] => Ok []
  | x :: xs' =>
      rows ← body x;
      rest ← for_each xs' body;
      mret (rows ++ rest)
  end.

(** ** Fixed-block readers (format revision 8) *)

Definition record_len : nat := 4096.
Definition header : nat := 4096.

(** The loop of the three fixed-block readers,
    [while mm.tell() < mm_size: bytes = mm.read(record_len); <body>],
    where [body] gives the rows appended to [rec] for one block. *)
Fixpoint read_records {R} (body : list byte -> result (list R))
    (fuel : nat) (mm : list byte) (pos : nat) (rec : list R) : result (list R) :=
  if (pos <? length mm)%nat then
    match fuel with
    | O => Raise FuelExhausted
    | S fuel' =>
        let bytes := mmap_read mm pos record_len in
        rows ← body bytes;
        read_records body fuel' mm (pos + length bytes) (rec ++ rows)
    end
  else Ok rec.

(** Rows of the three tables of the fixed-block format. *)
Record SampleRow (F : Type) : Type := mk_SampleRow {
  smp_Voltage : F;
  smp_Current : F;
  smp_Index : Z
}.
Arguments mk_SampleRow {F}.
Arguments smp_Voltage {F}.
Arguments smp_Current {F}.
Arguments smp_Index {F}.

Record RunInfoRow (F : Type) : Type := mk_RunInfoRow {
  ri_Time : F;
  ri_Timestamp : Z;
  ri_Step : Z;
  ri_Index : Z
}.
Arguments mk_RunInfoRow {F}.
Arguments ri_Time {F}.
Arguments ri_Timestamp {F}.
Arguments ri_Step {F}.
Arguments ri_Index {F}.

Record StepRow (State : Type) : Type := mk_StepRow {
  st_Cycle : Z;
  st_Step_Index : Z;
  st_Status : State;
  st_Step : Z
}.
Arguments mk_StepRow {State}.
Arguments st_Cycle {State}.
Arguments st_Step_Index {State}.
Arguments st_Status {State}.
Arguments st_Step {State}.

(** Modelled from the spec: [NewareNDA.NewareNDA._count_changes] is not
    part of the sources at hand. Following the specification, it turns a
    column of raw step values into a step-occurrence counter that starts at
    1 and increments exactly when the raw value changes from the previous
    record. *)
Fixpoint count_changes_from (prev : Z) (count : Z) (raw : list Z) : list Z :=
  match raw with
  | [] => []
  | x :: rest =>
      let count' := if x =? prev then count else count + 1 in
      count' :: count_changes_from x count' rest
  end.

Definition _count_changes (raw : list Z) : list Z :=
  match raw with
  | [] => []
  | x :: rest => 1 :: count_changes_from x 1 rest
  end.

Section FixedBlock.
Context {F State : Type} `{PyFloat F} `{Dicts F State}.

(** The body of the block loop of [read_ndc_8]. *)
Definition ndc8_rows (bytes : list byte) : result (list (F * F)) :=
  items ← struct_iter_unpack "<ff" (py_slice 132 (-4) bytes);
  for_each items (fun i =>
    v ← item_float i 0;
    c ← item_float i 1;
    mret [(float_div v (float_of_int 10000), c)]).

Definition read_ndc_8 (file : list byte) : result (list (SampleRow F)) :=
  mm ← mmap_open file;
  pos ← mmap_seek mm header;
  rec ← read_records ndc8_rows (length mm) mm pos [];
  (* df = pd.DataFrame(rec, ...); df['Index'] = df.index + 1 *)
  mret (imap (fun i '(v, c) => mk_SampleRow v c (Z.of_nat i + 1)) rec).

(** The body of the block loop of [read_data_runInfo_ndc8]. *)
Definition runInfo_rows (bytes : list byte) : result (list (RunInfoRow F)) :=
  items ← struct_iter_unpack "<i29siii2s" (py_slice 132 (-63) bytes);
  for_each items (fun i =>
    Time ← item_int i 0;
    Timestamp ← item_int i 2;
    Step ← item_int i 3;
    Index ← item_int i 4;
    mret (if Index =? 0 then []
          else [mk_RunInfoRow (int_truediv Time 1000) Timestamp Step Index])).

(** [df['Step'] = values] *)
Definition set_Step (df : list (RunInfoRow F)) (values : list Z) : list (RunInfoRow F) :=
  zip_with (fun r s => mk_RunInfoRow (ri_Time r) (ri_Timestamp r) s (ri_Index r))
           df values.

Definition read_data_runInfo_ndc8 (file : list byte) : result (list (RunInfoRow F)) :=
  mm ← mmap_open file;
  pos ← mmap_seek mm header;
  rec ← read_records runInfo_rows (length mm) mm pos [];
  mret (set_Step rec (_count_changes (ri_Step <$> rec))).

(** The body of the block loop of [read_data_step_ndc8]. *)
Definition step_rows (bytes : list byte) : result (list (Z * Z * State)) :=
  items ← struct_iter_unpack "<ii16sb12s" (py_slice 132 (-5) bytes);
  for_each items (fun i =>
    Cycle ← item_int i 0;
    Step_Index ← item_int i 1;
    Status ← item_int i 3;
    if Step_Index =? 0 then mret []
    else state ← dict_get state_dict Status;
         mret [(Cycle + 1, Step_Index, state)]).

Definition read_data_step_ndc8 (file : list byte) : result (list (StepRow State)) :=
  mm ← mmap_open file;
  pos ← mmap_seek mm header;
  rec ← read_records step_rows (length mm) mm pos [];
  (* df = pd.DataFrame(rec, ...); df['Step'] = df.index + 1 *)
  mret (imap (fun i '(cycle, step_index, status) =>
                mk_StepRow cycle step_index status (Z.of_nat i + 1)) rec).

End FixedBlock.

(** The blocks a fixed-block reader visits, in closed form: block [i] is
    the (at most) [record_len] bytes at offset [pos + i * record_len]. *)
Definition n_blocks (mm : list byte) (pos : nat) : nat :=
  ((length mm - pos + (record_len - 1)) / record_len)%nat.

Definition blocks_from (mm : list byte) (pos : nat) : list (list byte) :=
  (fun i => take record_len (drop (pos + i * record_len) mm)) <$> seq 0 (n_blocks mm pos).

(** The first [n] whole blocks after the header. *)
Definition whole_blocks (file : list byte) (n : nat) : list (list byte) :=
  (fun i => take record_len (drop (header + i * record_len) file)) <$> seq 0 n.

(** What it means for [out] to be the change counter of [raw]: same
    length, the first count is 1, and each later count is the previous one,
    incremented exactly when the raw value differs from the previous raw
    value. *)
Definition change_counter (raw out : list Z) : Prop :=
  length out = length raw
  /\ (forall x, out !! 0%nat = Some x -> x = 1)
  /\ (forall i a b x y,
        raw !! i = Some a -> raw !! S i = Some b ->
        out !! i = Some x -> out !! S i = Some y ->
        y = if b =? a then x else x + 1).

(** ** The legacy reader *)

#[global] Instance byte_eq_dec : EqDecision byte := Byte.byte_eq_dec.

(** [mm.find(needle, start)]: the lowest position at or after [start] where
    [needle] occurs, [None] for -1. A start beyond the end of the map is
    clamped to the end (so that the empty needle is found there). *)
Fixpoint find_in (needle hay : list byte) (pos : nat) : option nat :=
  if bool_decide (take (length needle) hay = needle) then Some pos
  else match hay with
       | [] => None
       | _ :: hay' => find_in needle hay' (S pos)
       end.

Definition mmap_find (mm needle : list byte) (start : nat) : option nat :=
  let start := Nat.min start (length mm) in
  find_in needle (drop start mm) start.

(** A pandas table with named columns, rows as lists of cells. *)
Record DataFrame (A : Type) : Type := mk_DataFrame {
  df_columns : list string;
  df_rows : list (list (option A))
}.
Arguments mk_DataFrame {A}.
Arguments df_columns {A}.
Arguments df_rows {A}.

(** [pd.DataFrame([])] *)
Definition empty_DataFrame {A} : DataFrame A := mk_DataFrame [] [].

(** [pd.DataFrame(data, columns=columns)] for a list of lists: the width of
    the data is the length of its longest row, shorter rows are padded with
    missing cells, and a width different from the number of columns is an
    error; with no rows the table has the given columns. *)
Definition pd_DataFrame {A} (data : list (list A)) (columns : list string)
    : result (DataFrame A) :=
  match data with
  | [] => Ok (mk_DataFrame columns [])
  | _ =>
      let width := foldr (fun row w => Nat.max (length row) w) 0%nat data in
      if (width =? length columns)%nat
      then Ok (mk_DataFrame columns
                 ((fun row => (Some <$> row) ++ replicate (width - length row) None)
                    <$> data))
      else Raise ValueError
  end.

(** The main table while it is assembled: rows with their index labels. *)
Abbreviation MainFrame F State := (list (nat * MainRecord F State)).

Section Legacy.
Context {F State : Type} `{PyFloat F} `{Dicts F State}.

(** [pd.DataFrame(output, columns=rec_columns)]: labels 0, 1, 2, ... *)
Definition main_DataFrame (output : list (MainRecord F State)) : MainFrame F State :=
  imap (fun i r => (i, r)) output.

(** [df.drop_duplicates(subset='Index')]: a row is kept when no earlier row
    has its Index. *)
Fixpoint drop_duplicates_from (seen : gset Z) (df : MainFrame F State) : MainFrame F State :=
  match df with
  | [] => []
  | (l, r) :: rest =>
      if bool_decide (rec_Index r ∈ seen) then drop_duplicates_from seen rest
      else (l, r) :: drop_duplicates_from ({[ rec_Index r ]} ∪ seen) rest
  end.

Definition drop_duplicates (df : MainFrame F State) : MainFrame F State := drop_duplicates_from ∅ df.

(** [df['Index'].is_monotonic_increasing]: each value is at most the next. *)
Fixpoint is_monotonic_increasing (xs : list Z) : bool :=
  match xs with
  | x :: ((y :: _) as rest) => (x <=? y) && is_monotonic_increasing rest
  | _ => true
  end.

Definition Index_le (a b : nat * MainRecord F State) : Prop :=
  rec_Index a.2 <= rec_Index b.2.

#[global] Instance Index_le_dec : RelDecision Index_le.
Proof. intros a b. unfold Index_le. apply _. Defined.

(** [df.sort_values('Index')]: rows in ascending order of Index. (The rows
    have distinct Index values when this is called, so the order does not
    depend on the sorting algorithm.) *)
Definition sort_values (df : MainFrame F State) : MainFrame F State := merge_sort Index_le df.

(** [df.reset_index(drop=True)] *)
Definition reset_index (df : MainFrame F State) : MainFrame F State :=
  imap (fun i lr => (i, lr.2)) df.

(** Lines 192-198 of [read_ndc]: create the table, drop duplicate indices,
    sort by Index if needed, and renumber the rows. *)
Definition assemble_main (output : list (MainRecord F State)) : MainFrame F State :=
  let df := main_DataFrame output in
  let df := drop_duplicates df in
  let df := if is_monotonic_increasing ((fun lr => rec_Index lr.2) <$> df)
            then df else sort_values df in
  reset_index df.

(** One iteration of the scanning loop of [read_ndc]: the record at
    [header] is decoded according to its first byte. An unknown type byte
    only logs a warning. *)
Definition read_ndc_record (bytes : list byte)
    (output : list (MainRecord F State)) (aux : list (list (pynum F)))
    : result (list (MainRecord F State) * list (list (pynum F))) :=
  if bool_decide (py_slice 0 1 bytes = ["U"%byte]) then
    r ← _bytes_to_list_ndc bytes; mret (output ++ [r], aux)
  else if bool_decide (py_slice 0 1 bytes = ["e"%byte]) then
    a ← _aux_bytes_65_to_list_ndc bytes; mret (output, aux ++ [a])
  else if bool_decide (py_slice 0 1 bytes = ["t"%byte]) then
    a ← _aux_bytes_74_to_list_ndc bytes; mret (output, aux ++ [a])
  else mret (output, aux).

(** [while header != -1: ...; header = mm.find(identifier, header + record_len)] *)
Fixpoint read_ndc_loop (fuel : nat) (mm identifier : list byte) (header : option nat)
    (output : list (MainRecord F State)) (aux : list (list (pynum F)))
    : result (list (MainRecord F State) * list (list (pynum F))) :=
  match header with
  | None => Ok (output, aux)
  | Some pos =>
      match fuel with
      | O => Raise FuelExhausted
      | S fuel' =>
          pos ← mmap_seek mm pos;
          let bytes := mmap_read mm pos 94 in
          '(output', aux') ← read_ndc_record bytes output aux;
          read_ndc_loop fuel' mm identifier (mmap_find mm identifier (pos + 94))
                        output' aux'
      end
  end.

(** Function to read electrochemical data from a Neware ndc binary file.
    The loop is given as many iterations as the file has bytes, which is
    enough whenever the identifier is not empty. *)
Definition read_ndc (file : list byte)
    : result (MainFrame F State * DataFrame (pynum F)) :=
  mm ← mmap_open file;
  let identifier := py_slice 517 525 mm in
  '(output, aux) ← read_ndc_loop (length mm) mm identifier (Some 517%nat) [] [];
  let df := assemble_main output in
  let df := (fun lr => (lr.1, dtype_cast lr.2)) <$> df in
  aux_df ← (if bool_decide (py_slice 0 1 identifier = ["e"%byte]) then
              pd_DataFrame aux ["Index"; "Aux"; "V"; "T"]%string
            else if bool_decide (py_slice 0 1 identifier = ["t"%byte]) then
              pd_DataFrame aux ["Index"; "Aux"; "V"; "T"; "t"]%string
            else Ok empty_DataFrame);
  mret (df, aux_df).

End Legacy.

(** The positions of the records scanned by [read_ndc]: the first record
    is at offset 517, the next one at the next occurrence of the identifier
    at least one record length further. *)
Inductive scanned (mm : list byte) : nat -> Prop :=
  | scanned_first : scanned mm 517
  | scanned_next (p q : nat) :
      scanned mm p ->
      mmap_find mm (py_slice 517 525 mm) (p + 94) = Some q ->
      scanned mm q.

(** The leading type byte of the record at position [p], as the slice
    [bytes[0:1]]. *)
Definition type_byte (mm : list byte) (p : nat) : list byte :=
  py_slice 0 1 (mmap_read mm p 94).

(** Invariant of the scanning loop of [read_ndc]: the shape of the
    auxiliary rows collected so far, given the first byte [tb] of the
    identifier. *)
Definition aux_inv {F} (tb : list byte) (aux : list (list (pynum F))) : Prop :=
  (tb = ["e"%byte] -> Forall (fun r => length r = 4%nat) aux)
  /\ (tb = ["t"%byte] -> Forall (fun r => length r = 5%nat) aux)
  /\ (tb <> ["e"%byte] -> tb <> ["t"%byte] -> aux = []).

(** A result that is not the out-of-fuel artefact of the embedding. *)
Definition fuel_safe {A} (r : result A) : Prop := r <> Raise FuelExhausted.

(** ** Merging the fixed-block tables *)

(** A cell of a float column after interpolation: a value taken over from
    the input column, or a value computed by the interpolation. (An int32
    or int64 column that receives NaNs becomes a float64 column; its
    integer values stay exact and are represented as such.) *)
Inductive cell (A F : Type) : Type :=
  | Exact (a : A)
  | Approx (f : F).
Arguments Exact {A F} a.
Arguments Approx {A F} f.

(** [Series.ffill()]: a missing cell takes the last value before it. *)
Fixpoint ffill_from {A} (last : option A) (xs : list (option A)) : list (option A) :=
  match xs with
  | [] => []
  | Some x :: rest => Some x :: ffill_from (Some x) rest
  | None :: rest => last :: ffill_from last rest
  end.

Definition ffill {A} (xs : list (option A)) : list (option A) := ffill_from None xs.

(** The first valid cell of a column: its position and value. *)
Fixpoint next_valid {A} (xs : list (option A)) : option (nat * A) :=
  match xs with
  | [] => None
  | Some x :: _ => Some (0%nat, x)
  | None :: rest => (fun '(d, x) => (S d, x)) <$> next_valid rest
  end.

Section Interpolate.
Context {A F : Type} `{PyFloat F} (to_float : A -> F).

(** The value at distance [d] from the left neighbour [y0] when the right
    neighbour [y1] is at distance [n]: [slope * (x - x0) + y0] with
    [slope = (y1 - y0) / (x1 - x0)]. *)
Definition lerp (y0 y1 : A) (d n : nat) : F :=
  float_add
    (float_mul
       (float_div (float_sub (to_float y1) (to_float y0)) (float_of_int (Z.of_nat n)))
       (float_of_int (Z.of_nat d)))
    (to_float y0).

(** [Series.interpolate(method='linear')] with the default forward
    direction: rows are equally spaced; a missing cell between two valid
    cells is interpolated, missing cells after the last valid cell take its
    value, missing cells before the first valid cell stay missing.
    [prev] is the last valid cell before the current position and its
    distance. *)
Fixpoint interpolate_from (prev : option (nat * A)) (xs : list (option A))
    : list (option (cell A F)) :=
  match xs with
  | [] => []
  | Some x :: rest => Some (Exact x) :: interpolate_from (Some (1%nat, x)) rest
  | None :: rest =>
      match prev with
      | None => None :: interpolate_from None rest
      | Some (d, y0) =>
          Some (match next_valid rest with
                | None => Exact y0
                | Some (d', y1) => Approx (lerp y0 y1 d (d + S d'))
                end)
            :: interpolate_from (Some (S d, y0)) rest
      end
  end.

Definition interpolate (xs : list (option A)) : list (option (cell A F)) :=
  interpolate_from None xs.

End Interpolate.

(** What the platform supplies: reading the attributes [SvrVer] and
    [CurrClientVer] of [VersionInfo.xml], and the local-time conversion
    [datetime.fromtimestamp]. *)
Class Platform := {
  xml_versions : list byte -> result (string * string);
  fromtimestamp : Z -> datetime
}.

(** The pandas pivot of the legacy auxiliary table and its join onto the
    main table (lines 76-78 of [read_ndax]). *)
Class AuxJoin (F State : Type) := {
  joined_table : Type;
  pivot_join : MainFrame F State -> DataFrame (pynum F) -> result joined_table
}.

(** A row of the main-sample table joined with the run-info table. *)
Record JoinedRow (F : Type) : Type := mk_JoinedRow {
  j_Voltage : F;
  j_Current : F;
  j_Index : Z;
  j_Time : option F;
  j_Timestamp : option Z;
  j_Step : option Z
}.
Arguments mk_JoinedRow {F}.
Arguments j_Voltage {F}.
Arguments j_Current {F}.
Arguments j_Index {F}.
Arguments j_Time {F}.
Arguments j_Timestamp {F}.
Arguments j_Step {F}.

(** A row of the table returned for format revision 8. *)
Record Ndc8Row (F State : Type) : Type := mk_Ndc8Row {
  n8_Voltage : F;
  n8_Current : F;
  n8_Index : Z;
  n8_Time : option F;
  n8_Timestamp : datetime;
  n8_Step : option Z;
  n8_Cycle : option Z;
  n8_Step_Index : option Z;
  n8_Status : option State
}.
Arguments mk_Ndc8Row {F State}.
Arguments n8_Voltage {F State}.
Arguments n8_Current {F State}.
Arguments n8_Index {F State}.
Arguments n8_Time {F State}.
Arguments n8_Timestamp {F State}.
Arguments n8_Step {F State}.
Arguments n8_Cycle {F State}.
Arguments n8_Step_Index {F State}.
Arguments n8_Status {F State}.

(** A row before the step table is joined. *)
Record FilledRow (F : Type) : Type := mk_FilledRow {
  f_Voltage : F;
  f_Current : F;
  f_Index : Z;
  f_Time : option F;
  f_Timestamp : datetime;
  f_Step : option Z
}.
Arguments mk_FilledRow {F}.
Arguments f_Voltage {F}.
Arguments f_Current {F}.
Arguments f_Index {F}.
Arguments f_Time {F}.
Arguments f_Timestamp {F}.
Arguments f_Step {F}.

Section Merge.
Context {F State : Type} `{PyFloat F} `{Platform}.

(** [series.iat[-1]] *)
Definition iat_last (xs : list Z) : result Z :=
  match last xs with
  | Some x => Ok x
  | None => Raise IndexError
  end.

(** [data_df.merge(runInfo_df, how='left', on='Index')]: every left row, in
    order, once per matching right row, or once with missing cells. *)
Definition merge_runInfo_left (data_df : list (SampleRow F))
    (runInfo_df : list (RunInfoRow F)) : list (JoinedRow F) :=
  data_df ≫= fun l =>
    match List.filter (fun r => ri_Index r =? smp_Index l) runInfo_df with
    | [] => [mk_JoinedRow (smp_Voltage l) (smp_Current l) (smp_Index l) None None None]
    | matches =>
        (fun r => mk_JoinedRow (smp_Voltage l) (smp_Current l) (smp_Index l)
                    (Some (ri_Time r)) (Some (ri_Timestamp r)) (Some (ri_Step r)))
          <$> matches
    end.

(** [.astype(int)] on the interpolated Timestamp column: a missing cell
    cannot be converted. *)
Definition astype_int (c : option (cell Z F)) : result Z :=
  match c with
  | Some (Exact z) => Ok z
  | Some (Approx f) =>
      match float_to_int f with
      | Some z => Ok z
      | None => Raise IntCastingNaNError
      end
  | None => Raise IntCastingNaNError
  end.

Fixpoint astype_int_column (cs : list (option (cell Z F))) : result (list Z) :=
  match cs with
  | [] => Ok []
  | c :: rest =>
      z ← astype_int c;
      zs ← astype_int_column rest;
      mret (z :: zs)
  end.

Definition cell_float (c : cell F F) : F :=
  match c with
  | Exact f => f
  | Approx f => f
  end.

(** [.map(datetime.fromtimestamp)] *)
Definition map_fromtimestamp (seconds : list Z) : list datetime :=
  fromtimestamp <$> seconds.

(** The joined table with its Step, Time and Timestamp columns replaced. *)
Definition fill_rows (data_df : list (JoinedRow F)) (Step : list (option Z))
    (Time : list (option F)) (Timestamp : list datetime) : list (FilledRow F) :=
  zip_with (fun '(r, step, time) ts =>
              mk_FilledRow (j_Voltage r) (j_Current r) (j_Index r) time ts step)
    (zip (zip data_df Step) Time) Timestamp.

(** Lines 52-59 of [read_ndax]: truncate the main samples at the last
    run-info Index, join the run-info records, and fill in missing data.
    The [inplace=True] calls on [data_df['Step']] and [data_df['Time']]
    update the columns of [data_df] itself. *)
Definition merge_runInfo (data_df : list (SampleRow F))
    (runInfo_df : list (RunInfoRow F)) : result (list (FilledRow F)) :=
  last_index ← iat_last (ri_Index <$> runInfo_df);
  let data_df := List.filter (fun r => smp_Index r <=? last_index) data_df in
  let data_df := merge_runInfo_left data_df runInfo_df in
  let Step := ffill (j_Step <$> data_df) in
  let Time := fmap (M := option) cell_float <$> interpolate id (j_Time <$> data_df) in
  seconds ← astype_int_column (interpolate float_of_int (j_Timestamp <$> data_df));
  let Timestamp := map_fromtimestamp seconds in
  mret (fill_rows data_df Step Time Timestamp).

(** [data_df.merge(step_df, how='left', on='Step')] *)
Definition merge_step_left (data_df : list (FilledRow F))
    (step_df : list (StepRow State)) : list (Ndc8Row F State) :=
  data_df ≫= fun l =>
    let row c i s := mk_Ndc8Row (f_Voltage l) (f_Current l) (f_Index l) (f_Time l)
                       (f_Timestamp l) (f_Step l) c i s in
    match List.filter (fun r => bool_decide (Some (st_Step r) = f_Step l)) step_df with
    | [] => [row None None None]
    | matches =>
        (fun r => row (Some (st_Cycle r)) (Some (st_Step_Index r)) (Some (st_Status r)))
          <$> matches
    end.

End Merge.

(** ** The archive and [read_ndax] *)

(** A zip archive: its members in [namelist()] order. *)
Abbreviation Archive := (list (string * list byte)).

(** A computation that extracts archive members into the temporary
    directory: the state is the list of member names extracted so far. *)
Definition io (A : Type) : Type := list string -> result A * list string.

#[global] Instance io_ret : MRet io := fun A a tmpdir => (Ok a, tmpdir).
#[global] Instance io_bind : MBind io := fun A B f m tmpdir =>
  match m tmpdir with
  | (Ok a, tmpdir') => f a tmpdir'
  | (Raise e, tmpdir') => (Raise e, tmpdir')
  end.

Definition lift {A} (r : result A) : io A := fun tmpdir => (r, tmpdir).

(** [zf.extract(name, path=tmpdir)], giving the content of the extracted
    file; a name that is not in the archive is a [KeyError]. (When a name
    occurs twice, the archive directory holds the last member.) *)
Definition zf_extract (zf : Archive) (name : string) : io (list byte) :=
  fun tmpdir =>
    match List.find (fun m => String.eqb m.1 name) (reverse zf) with
    | Some m => (Ok m.2, tmpdir ++ [name])
    | None => (Raise KeyError, tmpdir)
    end.

(** [s[i]] on a string *)
Definition str_index (s : string) (i : nat) : result ascii :=
  match String.get i s with
  | Some c => Ok c
  | None => Raise IndexError
  end.

(** [int(c)] on a one-character string. Of the characters below 256 only
    0 to 9 are decimal digits; any other one is a [ValueError]. *)
Definition py_int_char (c : ascii) : result Z :=
  match digit_of_ascii c with
  | Some d => Ok (Z.of_nat d)
  | None => Raise ValueError
  end.

(** [re.search(".*_([0-9]+)[.]ndc", f)]: the name contains an underscore,
    one or more digits and [.ndc]. *)
Fixpoint skip_digits (cs : list ascii) : list ascii :=
  match cs with
  | c :: rest =>
      match digit_of_ascii c with
      | Some _ => skip_digits rest
      | None => cs
      end
  | [] => []
  end.

Definition digits_dot_ndc (cs : list ascii) : bool :=
  match cs with
  | c :: rest =>
      match digit_of_ascii c with
      | Some _ =>
          bool_decide (take 4 (skip_digits rest) = list_ascii_of_string ".ndc")
      | None => false
      end
  | [] => false
  end.

Fixpoint search_aux_name (cs : list ascii) : bool :=
  match cs with
  | [] => false
  | c :: rest =>
      (Ascii.eqb c "_" && digits_dot_ndc rest) || search_aux_name rest
  end.

Definition aux_name_match (f : string) : bool :=
  search_aux_name (list_ascii_of_string f).

(** [pd.concat([a, b], ignore_index=True)]: the columns of both tables in
    order of appearance, cells of absent columns missing. *)
Definition reindex_row {A} (cols_from cols_to : list string) (row : list (option A))
    : list (option A) :=
  (fun c => match list_find (fun c' => String.eqb c' c = true) cols_from with
            | Some (i, _) => mjoin (row !! i)
            | None => None
            end) <$> cols_to.

Definition pd_concat {A} (a b : DataFrame A) : DataFrame A :=
  let cols := df_columns a
              ++ List.filter (fun c => negb (existsb (String.eqb c) (df_columns a)))
                             (df_columns b) in
  mk_DataFrame cols
    ((reindex_row (df_columns a) cols <$> df_rows a)
     ++ (reindex_row (df_columns b) cols <$> df_rows b)).

(** [df.empty]: no rows or no columns. *)
Definition df_empty {A} (d : DataFrame A) : bool :=
  match df_rows d, df_columns d with
  | [], _ | _, [] => true
  | _, _ => false
  end.

(** The table returned by [read_ndax]. *)
Inductive ndax_table (F State : Type) `{AuxJoin F State} : Type :=
  | TableNdc8 (rows : list (Ndc8Row F State))
  | TableLegacy (df : MainFrame F State)
  | TableLegacyAux (joined : joined_table).
Arguments TableNdc8 {F State _} rows.
Arguments TableLegacy {F State _} df.
Arguments TableLegacyAux {F State _} joined.

Section ReadNdax.
Context {F State : Type} `{PyFloat F} `{Dicts F State} `{Platform} `{AuxJoin F State}.

(** The fixed-block path, lines 48-63. *)
Definition read_ndax_ndc8 (zf : Archive) (data_file : list byte)
    : io (ndax_table F State) :=
  data_df ← lift (read_ndc_8 data_file);
  runInfo_file ← zf_extract zf "data_runInfo.ndc";
  runInfo_df ← lift (read_data_runInfo_ndc8 runInfo_file);
  data_df ← lift (merge_runInfo data_df runInfo_df);
  step_file ← zf_extract zf "data_step.ndc";
  step_df ← lift (read_data_step_ndc8 step_file);
  mret (TableNdc8 (merge_step_left data_df step_df)).

(** [for f in zf.namelist(): ...] collecting the auxiliary tables *)
Fixpoint read_aux_files (zf : Archive) (names : list string)
    (aux_df : DataFrame (pynum F)) : io (DataFrame (pynum F)) :=
  match names with
  | [] => mret aux_df
  | f :: rest =>
      if aux_name_match f then
        aux_file ← zf_extract zf f;
        '(_, aux) ← lift (read_ndc (State := State) aux_file);
        read_aux_files zf rest (pd_concat aux_df aux)
      else read_aux_files zf rest aux_df
  end.

(** The legacy path, lines 65-78. *)
Definition read_ndax_legacy (zf : Archive) (data_file : list byte)
    : io (ndax_table F State) :=
  '(data_df, _) ← lift (read_ndc data_file);
  aux_df ← read_aux_files zf (fst <$> zf) empty_DataFrame;
  if df_empty aux_df then mret (TableLegacy data_df)
  else joined ← lift (pivot_join data_df aux_df);
       mret (TableLegacyAux joined).

(** Function to read electrochemical data from a Neware ndax binary file. *)
Definition read_ndax (zf : Archive) : io (ndax_table F State) :=
  version_info ← zf_extract zf "VersionInfo.xml";
  '(server, client) ← lift (xml_versions version_info);
  revision ← lift (str_index server 14 ≫= py_int_char);
  if 8 <? revision then
    lift (Raise (NotImplementedError (server ++ " is not yet supported!")))
  else
    data_file ← zf_extract zf "data.ndc";
    if 7 <? revision then read_ndax_ndc8 zf data_file
    else read_ndax_legacy zf data_file.

End ReadNdax.

(** ** What forward fill and linear interpolation mean

    The positional reading of the two fill operations, against which the
    column functions are checked. *)

(** [out] is [xs] forward-filled: a valid cell is kept, a missing cell
    takes the value of the previous row of [out] (the first row has no
    previous row and stays missing). *)
Definition forward_filled {A} (xs out : list (option A)) : Prop :=
  length out = length xs
  /\ forall k x, xs !! k = Some x ->
       out !! k = Some match x with
                       | Some v => Some v
                       | None => match k with
                                 | O => None
                                 | S k' => default None (out !! k')
                                 end
                       end.

(** Cells [i] and [j] of [xs] hold the values [a] and [b] and every cell
    between them is missing. *)
Definition bracketed {A} (xs : list (option A)) (i j : nat) (a b : A) : Prop :=
  (i < j)%nat /\ xs !! i = Some (Some a) /\ xs !! j = Some (Some b)
  /\ forall k, (i < k < j)%nat -> xs !! k = Some None.

(** [out] is [xs] linearly interpolated: valid cells are kept; a missing
    cell between two bracketing valid cells lies on the line through them,
    rows being equally spaced; missing cells after the last valid cell take
    its value; missing cells before the first valid cell stay missing. *)
Definition linearly_interpolated {A F} `{PyFloat F} (to_float : A -> F)
    (xs : list (option A)) (out : list (option (cell A F))) : Prop :=
  length out = length xs
  /\ (forall k a, xs !! k = Some (Some a) -> out !! k = Some (Some (Exact a)))
  /\ (forall i j a b k, bracketed xs i j a b -> (i < k < j)%nat ->
        out !! k = Some (Some (Approx (lerp to_float a b (k - i) (j - i)))))
  /\ (forall i a k, xs !! i = Some (Some a) -> (i < k < length xs)%nat ->
        (forall k', (i < k' < length xs)%nat -> xs !! k' = Some None) ->
        out !! k = Some (Some (Exact a)))
  /\ (forall k, (k < length xs)%nat ->
        (forall k', (k' <= k)%nat -> xs !! k' = Some None) ->
        out !! k = Some None).

(** The last valid cell before position [k] and its distance from [k],
    starting from [prev] at position 0. *)
Fixpoint prev_at {A} (prev : option (nat * A)) (xs : list (option A)) (k : nat)
    : option (nat * A) :=
  match k, xs with
  | O, _ => prev
  | S k', Some x :: rest => prev_at (Some (1%nat, x)) rest k'
  | S k', None :: rest => prev_at ((fun '(d, y) => (S d, y)) <$> prev) rest k'
  | S _, [] => prev
  end.

(** ** Reading the layout table

    The arithmetic reading of a field "uN@off" or "iN@off" of the layout
    table: byte [k] of the field has weight [256^k], and a signed field is
    in two's complement. *)

Fixpoint le_unsigned (bs : list byte) : Z :=
  match bs with
  | [] => 0
  | b :: bs' => byte_val b + 256 * le_unsigned bs'
  end.

Definition le_signed (bs : list byte) : Z :=
  let u := le_unsigned bs in
  let w := 8 * Z.of_nat (length bs) in
  if u <? 2 ^ (w - 1) then u else u - 2 ^ w.

(** The [width] bytes of [bs] starting at byte offset [off]. *)
Definition field (off width : nat) (bs : list byte) : list byte :=
  take width (drop off bs).

Definition u_at (off width : nat) (bs : list byte) : Z := le_unsigned (field off width bs).
Definition i_at (off width : nat) (bs : list byte) : Z := le_signed (field off width bs).

(** ** Building a legacy main record

    The inverse direction of the layout table, used to build synthetic
    slices: [le_bytes w z] is the [w]-byte little-endian two's complement
    representation of [z]. *)

Definition byte_of_Z (z : Z) : byte :=
  default "000"%byte (Byte.of_N (Z.to_N (z mod 256))).

Fixpoint le_bytes (w : nat) (z : Z) : list byte :=
  match w with
  | O => []
  | S w' => byte_of_Z z :: le_bytes w' (z / 256)
  end.

Definition zeros (n : nat) : list byte := replicate n "000"%byte.

Definition encode_main_record
    (Index Cycle Step Status Time Voltage Current
     Charge_capacity Discharge_capacity Charge_energy Discharge_energy
     Y M D h m s Range : Z) : list byte :=
  le_bytes 1 85 ++ zeros 7
  ++ le_bytes 4 Index ++ le_bytes 4 Cycle ++ le_bytes 1 Step ++ le_bytes 1 Status
  ++ zeros 5
  ++ le_bytes 8 Time ++ le_bytes 4 Voltage ++ le_bytes 4 Current
  ++ zeros 4
  ++ le_bytes 8 Charge_capacity ++ le_bytes 8 Discharge_capacity
  ++ le_bytes 8 Charge_energy ++ le_bytes 8 Discharge_energy
  ++ le_bytes 2 Y ++ le_bytes 1 M ++ le_bytes 1 D
  ++ le_bytes 1 h ++ le_bytes 1 m ++ le_bytes 1 s
  ++ le_bytes 4 Range
  ++ zeros 8.

(** ** An IEEE binary64 instance of [PyFloat] *)

Module Binary64.

Definition prec : Z := 53.
Definition emax : Z := 1024.

(** [float(n)]: the nearest binary64 value, ties to even. *)
Definition of_int (n : Z) : spec_float := binary_normalize prec emax n 0 false.

(** An integer as an exact (not normalised) significand with exponent 0. *)
Definition exact (n : Z) : spec_float :=
  match n with
  | Z0 => S754_zero false
  | Zpos p => S754_finite false p 0
  | Zneg p => S754_finite true p 0
  end.

(** [n / m] on ints: the correctly rounded quotient. *)
Definition truediv (n m : Z) : spec_float := SFdiv prec emax (exact n) (exact m).

Definition of_f32 (bits : Z) : spec_float :=
  let s := Z.testbit bits 31 in
  let e := Z.land (Z.shiftr bits 23) 255 in
  let m := Z.land bits (2 ^ 23 - 1) in
  if e =? 255 then (if m =? 0 then S754_infinity s else S754_nan)
  else if e =? 0 then binary_normalize prec emax (if s then - m else m) (-149) s
  else binary_normalize prec emax
         (if s then - (m + 2 ^ 23) else m + 2 ^ 23) (e - 150) s.

Definition to_int (x : spec_float) : option Z :=
  match x with
  | S754_zero _ => Some 0
  | S754_finite s m e =>
      let v := if 0 <=? e then Zpos m * 2 ^ e else Zpos m / 2 ^ (- e) in
      Some (if s then - v else v)
  | _ => None
  end.

#[export] Instance binary64 : PyFloat spec_float := {|
  float_of_int := of_int;
  int_truediv := truediv;
  float_add := SFadd prec emax;
  float_sub := SFsub prec emax;
  float_mul := SFmul prec emax;
  float_div := SFdiv prec emax;
  float_of_f32 := of_f32;
  float_to_int := to_int
|}.

End Binary64.

(** ** Sample tables

    A small instance of [Dicts] over binary64 floats, with states named by
    strings; it is used to run the decoders on concrete buffers. *)

Module Sample.
Import Binary64.

#[export] Instance sample_dicts : Dicts spec_float string := {|
  state_dict := {[ 1 := "CC_Chg"%string; 2 := "CC_DChg"%string; 4 := "Rest"%string ]};
  multiplier_dict := {[ 0 := PInt 1; 1 := PFloat (truediv 1 1000) ]};
  dtype_cast := fun r => r
|}.

(** One main record: Index 1, raw cycle 0, step 1, status 1, 1000 ms,
    raw voltage 36000, raw current 500, range 0, on 2023-01-02 03:04:05. *)
Definition main_slice : list byte :=
  encode_main_record 1 0 1 1 1000 36000 500 7200 0 3600 0 2023 1 2 3 4 5 0.

(** One run-info sub-record (47 bytes): time, a 29-byte field, timestamp,
    step, index, and a 2-byte field. *)
Definition encode_runInfo (Time Timestamp Step Index : Z) : list byte :=
  le_bytes 4 Time ++ zeros 29 ++ le_bytes 4 Timestamp
  ++ le_bytes 4 Step ++ le_bytes 4 Index ++ zeros 2.

(** A run-info file: the header, then one block whose payload holds six
    records with raw steps 5, 5, 5, 7, 7, 9 followed by zero padding. *)
Definition runInfo_file : list byte :=
  zeros 4096
  ++ zeros 132
  ++ encode_runInfo 0 1700000000 5 1
  ++ encode_runInfo 1000 1700000001 5 2
  ++ encode_runInfo 2000 1700000002 5 3
  ++ encode_runInfo 3000 1700000003 7 4
  ++ encode_runInfo 4000 1700000004 7 5
  ++ encode_runInfo 5000 1700000005 9 6
  ++ zeros (3901 - 6 * 47)
  ++ zeros 63.

(** A step file: the header and one block of zero bytes, that is 107
    sub-records with step index 0 and status byte 0. *)
Definition padding_step_file : list byte := zeros 4096 ++ zeros 4096.

(** One variant-A auxiliary record (94 bytes): type byte 0x65, channel at
    offset 3, index at 8, voltage at 31, temperature at 41. *)
Definition encode_aux_65 (Aux Index V T : Z) : list byte :=
  le_bytes 1 101 ++ zeros 2 ++ le_bytes 1 Aux ++ zeros 4
  ++ le_bytes 4 Index ++ zeros 19 ++ le_bytes 4 V ++ zeros 6
  ++ le_bytes 2 T ++ zeros 51.

(** A legacy auxiliary-channel file: the 517-byte header and two
    variant-A records of channel 1. *)
Definition aux_file : list byte :=
  zeros 517 ++ encode_aux_65 1 1 36000 250 ++ encode_aux_65 1 2 36010 251.

(** Seconds since the epoch as a calendar date and time, in UTC. *)
Definition utc_fromtimestamp (t : Z) : datetime :=
  let days := t / 86400 in
  let secs := t mod 86400 in
  let z := days + 719468 in
  let era := z / 146097 in
  let doe := z - era * 146097 in
  let yoe := (doe - doe / 1460 + doe / 36524 - doe / 146096) / 365 in
  let doy := doe - (365 * yoe + yoe / 4 - yoe / 100) in
  let mp := (5 * doy + 2) / 153 in
  let d := doy - (153 * mp + 2) / 5 + 1 in
  let m := if mp <? 10 then mp + 3 else mp - 9 in
  let y := yoe + era * 400 + (if m <=? 2 then 1 else 0) in
  mk_datetime y m d (secs / 3600) (secs mod 3600 / 60) (secs mod 60).

(** A platform in the UTC time zone, on which the sample archives store
    the [SvrVer] attribute itself as the content of [VersionInfo.xml]. *)
#[export] Instance sample_platform : Platform := {|
  xml_versions := fun content =>
    Ok (string_of_list_ascii (ascii_of_byte <$> content), ""%string);
  fromtimestamp := utc_fromtimestamp
|}.

(** A stand-in for the pivot and join: both tables side by side. *)
#[export] Instance sample_aux_join : AuxJoin spec_float string := {|
  joined_table := MainFrame spec_float string * DataFrame (pynum spec_float);
  pivot_join := fun df aux_df => Ok (df, aux_df)
|}.

Definition bytes_of_string (s : string) : list byte :=
  byte_of_ascii <$> list_ascii_of_string s.

(** An archive of format revision 9: only the version information is
    ever read. *)
Definition archive_rev9 : Archive :=
  [("VersionInfo.xml"%string, bytes_of_string "BTSServer(R3)-9.0.0.1(2024.01.01)(R3)");
   ("data.ndc"%string, zeros 600)].

(** Ten main samples with Index 1..10. *)
Definition samples_1_10 : list (SampleRow spec_float) :=
  (fun i => mk_SampleRow (truediv 36000 10000) (of_int 500) i) <$> seqZ 1 10.

(** Run-info records (time in s, timestamp, step, index) at the indices
    1, 5, 8 and at the indices 2, 5, 8. *)
Definition runInfo_1_5_8 : list (RunInfoRow spec_float) :=
  [mk_RunInfoRow (of_int 0) 1700000000 1 1;
   mk_RunInfoRow (of_int 40) 1700000040 1 5;
   mk_RunInfoRow (of_int 70) 1700000070 2 8].

Definition runInfo_2_5_8 : list (RunInfoRow spec_float) :=
  [mk_RunInfoRow (of_int 10) 1700000010 1 2;
   mk_RunInfoRow (of_int 40) 1700000040 1 5;
   mk_RunInfoRow (of_int 70) 1700000070 2 8].

Definition steps_1_2 : list (StepRow string) :=
  [mk_StepRow 1 1 "CC_Chg" 1; mk_StepRow 1 2 "Rest" 2]%string.


End Sample.

(** ** Closed forms used in Part III *)

Section ScanRecords.
Context {F State : Type} `{PyFloat F} `{Dicts F State}.

(** The scanning loop of [read_ndc] over records that follow each other
    without a gap: each record in turn is decoded according to its first
    byte. *)
Fixpoint scan_records (recs : list (list byte))
    (output : list (MainRecord F State)) (aux : list (list (pynum F)))
    : result (list (MainRecord F State) * list (list (pynum F))) :=
  match recs with
  | [] => Ok (output, aux)
  | r :: rest =>
      '(output', aux') ← read_ndc_record r output aux;
      scan_records rest output' aux'
  end.

End ScanRecords.

(** The record that the scan finds in the bytes [tail] that follow the
    last whole record, fewer than a record length: the bytes from the
    first occurrence of the identifier on, if there is one. *)
Definition tail_record (ident tail : list byte) : list (list byte) :=
  match find_in ident tail 0 with
  | Some k => [drop k tail]
  | None => []
  end.

(** The [j]-th sub-record of [size] bytes of block [i] of a fixed-block
    file: the first block follows the 4096-byte header, and the payload of
    a block starts 132 bytes into the block. *)
Definition sub_record (size i j : nat) (file : list byte) : list byte :=
  field (header + i * record_len + 132 + j * size) size file.

(** The sub-records of the first [k] blocks, [per] to the block, in file
    order. *)
Definition sub_records (size per k : nat) (file : list byte) : list (list byte) :=
  i ← seq 0 k; (fun j => sub_record size i j file) <$> seq 0 per.

Section SubRecords.
Context {F State : Type} `{PyFloat F} `{Dicts F State}.

(** What the three fixed-block readers make of one sub-record, with the
    fields at their offsets in the sub-record. *)
Definition sample_of (sub : list byte) : F * F :=
  (float_div (float_of_f32 (u_at 0 4 sub)) (float_of_int 10000),
   float_of_f32 (u_at 4 4 sub)).

Definition runInfo_of (sub : list byte) : list (RunInfoRow F) :=
  if i_at 41 4 sub =? 0 then []
  else [mk_RunInfoRow (int_truediv (i_at 0 4 sub) 1000)
          (i_at 33 4 sub) (i_at 37 4 sub) (i_at 41 4 sub)].

Definition step_of (sub : list byte) : result (list (Z * Z * State)) :=
  if i_at 4 4 sub =? 0 then Ok []
  else state ← dict_get state_dict (i_at 24 1 sub);
       Ok [(i_at 0 4 sub + 1, i_at 4 4 sub, state)].

End SubRecords.

(** ** Sample files
    Small files and tables on which the statements of Part III are run. *)

Module SampleFiles.
Import Binary64 Sample.

(** A second main record: Index 2, one second after [main_slice]. *)
Definition main_slice_2 : list byte :=
  encode_main_record 2 0 1 1 2000 36010 500 7200 0 3600 0 2023 1 2 3 4 6 0.

(** A legacy main-data file: the header and two main records, followed
    by [tail]. *)
Definition main_file_with (tail : list byte) : list byte :=
  zeros 517 ++ concat [main_slice; main_slice_2] ++ tail.

Definition main_file : list byte := main_file_with [].

(** The two records of a legacy auxiliary-channel file. *)
Definition aux_record_1 : list byte := encode_aux_65 1 1 36000 250.
Definition aux_record_2 : list byte := encode_aux_65 1 2 36010 251.

(** A fixed-block file: the header and one block, all zero bytes. *)
Definition zero_block_file : list byte := zeros 4096 ++ zeros 4096.

(** One step sub-record (37 bytes): cycle, step index, a 16-byte field,
    the status byte and a 12-byte field. *)
Definition encode_step (Cycle Step_Index Status : Z) : list byte :=
  le_bytes 4 Cycle ++ le_bytes 4 Step_Index ++ zeros 16
  ++ le_bytes 1 Status ++ zeros 12.

(** A step file: the header, then one block whose payload holds two steps
    (a charge and a rest) followed by zero padding. *)
Definition step_file : list byte :=
  zeros 4096
  ++ zeros 132
  ++ encode_step 0 1 1
  ++ encode_step 0 2 4
  ++ zeros (3959 - 2 * 37)
  ++ zeros 5.

(** Run-info records at the indices 1, 2 and 3. *)
Definition runInfo_1_2_3 : list (RunInfoRow spec_float) :=
  [mk_RunInfoRow (of_int 0) 1700000000 1 1;
   mk_RunInfoRow (of_int 10) 1700000010 1 2;
   mk_RunInfoRow (of_int 20) 1700000020 2 3].

(** Two rows of a merged table, with Step 2 and Step 5. *)
Definition filled_2_5 : list (FilledRow spec_float) :=
  [mk_FilledRow (of_int 3) (of_int 500) 1 (Some (of_int 0))
     (utc_fromtimestamp 1700000000) (Some 2);
   mk_FilledRow (of_int 3) (of_int 500) 2 (Some (of_int 10))
     (utc_fromtimestamp 1700000010) (Some 5)].

(** The sample tables with a column type cast that stores the Index
    column as an unsigned 32-bit integer. *)
Definition uint32_dicts : Dicts spec_float string := {|
  state_dict := state_dict;
  multiplier_dict := multiplier_dict;
  dtype_cast := fun r =>
    mk_MainRecord (rec_Index r mod 2 ^ 32) (rec_Cycle r) (rec_Step r) (rec_Status r)
      (rec_Time r) (rec_Voltage r) (rec_Current r)
      (rec_Charge_Capacity r) (rec_Discharge_Capacity r)
      (rec_Charge_Energy r) (rec_Discharge_Energy r) (rec_Timestamp r)
|}.

(** A legacy archive (format revision 7) without auxiliary files. *)
Definition legacy_archive : Archive :=
  [("VersionInfo.xml"%string, bytes_of_string "BTSServer(R3)-7.6.0.1(2020.01.01)(R3)");
   ("data.ndc"%string, main_file)].

End SampleFiles.

(* ================================================================== *)
(** * Part II: properties                                              *)
(* ================================================================== *)

(** ** Little-endian integers *)

Lemma byte_val_range (b : byte) : 0 <= byte_val b < 256.
Proof.
  unfold byte_val. pose proof (Byte.to_N_bounded b). lia.
Qed.

Lemma testbit_above (x n i : Z) :
  0 <= x < 2 ^ n -> n <= i -> Z.testbit x i = false.
Proof.
  intros Hx Hi.
  destruct (Z.eq_dec x 0) as [-> | Hnz]; [apply Z.bits_0 |].
  apply Z.bits_above_log2; [lia |].
  assert (Z.log2 x < n) by (apply Z.log2_lt_pow2; lia). lia.
Qed.

Lemma land_shiftl_low (x b n : Z) :
  0 <= n -> 0 <= b < 2 ^ n -> Z.land (Z.shiftl x n) b = 0.
Proof.
  intros Hn Hb. apply Z.bits_inj'. intros k Hk.
  rewrite Z.land_spec, Z.bits_0.
  destruct (Z.lt_ge_cases k n) as [Hlt | Hge].
  - rewrite Z.shiftl_spec_low by assumption. reflexivity.
  - rewrite (testbit_above b n k) by lia. apply andb_false_r.
Qed.

Lemma lor_shiftl_add (x b n : Z) :
  0 <= n -> 0 <= b < 2 ^ n -> Z.lor (Z.shiftl x n) b = x * 2 ^ n + b.
Proof.
  intros Hn Hb.
  rewrite <- Z.lxor_lor by (apply land_shiftl_low; assumption).
  rewrite <- Z.add_nocarry_lxor by (apply land_shiftl_low; assumption).
  rewrite Z.shiftl_mul_pow2 by assumption. reflexivity.
Qed.

Lemma le_unsigned_range (bs : list byte) :
  0 <= le_unsigned bs < 2 ^ (8 * Z.of_nat (length bs)).
Proof.
  induction bs as [| b bs IH]; cbn [le_unsigned length].
  - change (2 ^ (8 * Z.of_nat 0)) with 1. lia.
  - pose proof (byte_val_range b).
    replace (8 * Z.of_nat (S (length bs))) with (8 + 8 * Z.of_nat (length bs)) by lia.
    rewrite Z.pow_add_r by lia. change (2 ^ 8) with 256. lia.
Qed.

(** The shift-and-or accumulation computes the positional value. *)
Lemma lu_uint_le_unsigned (bs : list byte) : lu_uint bs = le_unsigned bs.
Proof.
  unfold lu_uint. induction bs as [| b bs IH]; cbn [foldr le_unsigned].
  - reflexivity.
  - rewrite IH. pose proof (byte_val_range b).
    rewrite lor_shiftl_add by lia. change (2 ^ 8) with 256. lia.
Qed.

Lemma testbit_opp_pow2 (k i : Z) :
  0 <= k -> 0 <= i -> Z.testbit (- 2 ^ k) i = (k <=? i).
Proof.
  intros Hk Hi.
  replace (- 2 ^ k) with (Z.lnot (Z.ones k)).
  2:{ rewrite Z.ones_equiv. unfold Z.lnot. lia. }
  rewrite Z.lnot_spec by assumption.
  destruct (Z.leb_spec k i).
  - rewrite Z.ones_spec_high by lia. reflexivity.
  - rewrite Z.ones_spec_low by lia. reflexivity.
Qed.

(** The or-based sign extension is two's complement. *)
Lemma sign_extend_spec (x w : Z) :
  0 < w -> 0 <= x < 2 ^ w ->
  Z.lor x (- (Z.land x (Z.shiftl 1 (w - 1)))) =
  if x <? 2 ^ (w - 1) then x else x - 2 ^ w.
Proof.
  intros Hw Hx.
  rewrite Z.shiftl_1_l.
  assert (Hp : 2 ^ w = 2 * 2 ^ (w - 1)).
  { replace w with (1 + (w - 1)) at 1 by lia. rewrite Z.pow_add_r by lia. reflexivity. }
  destruct (Z.ltb_spec x (2 ^ (w - 1))) as [Hlt | Hge].
  - replace (Z.land x (2 ^ (w - 1))) with 0; [apply Z.lor_0_r |].
    symmetry. apply Z.bits_inj'. intros i Hi.
    rewrite Z.land_spec, Z.bits_0.
    destruct (Z.eq_dec i (w - 1)) as [-> | Hne].
    + rewrite (testbit_above x (w - 1) (w - 1)) by lia. reflexivity.
    + rewrite Z.pow2_bits_false by lia. apply andb_false_r.
  - apply Z.bits_inj'. intros i Hi.
    assert (Hbit : Z.testbit x (w - 1) = true).
    { replace x with ((x - 2 ^ (w - 1)) + 1 * 2 ^ (w - 1)) by lia.
      rewrite Z.testbit_eqb; [| lia].
      rewrite Z.div_add by lia.
      rewrite Z.div_small by lia. reflexivity. }
    replace (Z.land x (2 ^ (w - 1))) with (2 ^ (w - 1)).
    2:{ apply Z.bits_inj'. intros j Hj. rewrite Z.land_spec.
        destruct (Z.eq_dec j (w - 1)) as [-> | Hne].
        - rewrite Hbit, Z.pow2_bits_true by lia. reflexivity.
        - rewrite Z.pow2_bits_false by lia. symmetry. apply andb_false_r. }
    rewrite Z.lor_spec, testbit_opp_pow2 by lia.
    replace (x - 2 ^ w) with ((x - 2 ^ (w - 1)) + (- 2 ^ (w - 1))) by lia.
    set (r := x - 2 ^ (w - 1)).
    assert (Hr : 0 <= r < 2 ^ (w - 1)) by (unfold r; lia).
    assert (Hdisj : Z.land r (- 2 ^ (w - 1)) = 0).
    { apply Z.bits_inj'. intros j Hj.
      rewrite Z.land_spec, Z.bits_0, testbit_opp_pow2 by lia.
      destruct (Z.leb_spec (w - 1) j); [| apply andb_false_r].
      rewrite (testbit_above r (w - 1) j) by lia. reflexivity. }
    rewrite (Z.add_nocarry_lxor r) by assumption.
    rewrite Z.lxor_lor by assumption.
    rewrite Z.lor_spec, testbit_opp_pow2 by lia.
    destruct (Z.leb_spec (w - 1) i) as [Hle | Hlt].
    + rewrite !orb_true_r. reflexivity.
    + rewrite !orb_false_r. unfold r.
      replace x with ((x - 2 ^ (w - 1)) + 2 ^ (w - 1)) at 1 by lia.
      fold r.
      rewrite (Z.add_nocarry_lxor r (2 ^ (w - 1))).
      * rewrite Z.lxor_spec, Z.pow2_bits_false by lia. apply xorb_false_r.
      * apply Z.bits_inj'. intros j Hj. rewrite Z.land_spec, Z.bits_0.
        destruct (Z.eq_dec j (w - 1)) as [-> | Hne].
        -- rewrite (testbit_above r (w - 1) (w - 1)) by lia. reflexivity.
        -- rewrite Z.pow2_bits_false by lia. apply andb_false_r.
Qed.

Lemma lu_int_le_signed (bs : list byte) : bs <> [] -> lu_int bs = le_signed bs.
Proof.
  intros Hne. unfold lu_int, le_signed. cbv zeta.
  rewrite lu_uint_le_unsigned.
  apply sign_extend_spec.
  - destruct bs; [congruence | cbn [length]; lia].
  - apply le_unsigned_range.
Qed.

(** ** Slices and fields *)

Lemma py_slice_field {A} (a b : Z) (l : list A) :
  0 <= a <= b -> b <= Z.of_nat (length l) ->
  py_slice a b l = take (Z.to_nat (b - a)) (drop (Z.to_nat a) l).
Proof.
  intros Hab Hb. unfold py_slice, clamp_index. cbv zeta.
  destruct (Z.ltb_spec a 0); [lia |].
  destruct (Z.ltb_spec b 0); [lia |].
  rewrite !Z.max_r, !Z.min_r by lia. reflexivity.
Qed.

Lemma field_length (off w : nat) (bs : list byte) :
  (off + w <= length bs)%nat -> length (field off w bs) = w.
Proof.
  intros Hl. unfold field. rewrite length_take, length_drop. lia.
Qed.

Lemma take_field (off w w' : nat) (bs : list byte) :
  (w' <= w)%nat -> take w' (field off w bs) = field off w' bs.
Proof.
  intros Hw. unfold field. rewrite take_take. f_equal. lia.
Qed.

Lemma drop_field (off w o' : nat) (bs : list byte) :
  (o' <= w)%nat -> drop o' (field off w bs) = field (off + o') (w - o') bs.
Proof.
  intros Hw. unfold field.
  rewrite skipn_firstn_comm. rewrite drop_drop. reflexivity.
Qed.

Lemma lu_uint_field (off w : nat) (bs : list byte) :
  lu_uint (field off w bs) = u_at off w bs.
Proof. apply lu_uint_le_unsigned. Qed.

Lemma lu_int_field (off w : nat) (bs : list byte) :
  (0 < w)%nat -> (off + w <= length bs)%nat ->
  lu_int (field off w bs) = i_at off w bs.
Proof.
  intros Hw Hl. apply lu_int_le_signed.
  intros Hnil. apply (f_equal length) in Hnil.
  rewrite field_length in Hnil by assumption. cbn in Hnil. lia.
Qed.

Section StructFacts.
Context {F : Type} `{PyFloat F}.

Lemma struct_unpack_ok (fmt : string) (items : list fmt_item) (buf : list byte) :
  parse_format fmt = Some items ->
  length buf = calcsize items ->
  struct_unpack (F := F) fmt buf = Ok (unpack_items items buf).
Proof.
  intros Hp Hl. unfold struct_unpack. rewrite Hp.
  rewrite (proj2 (Nat.eqb_eq _ _) Hl). reflexivity.
Qed.

Lemma struct_unpack_short (fmt : string) (items : list fmt_item) (buf : list byte) :
  parse_format fmt = Some items ->
  length buf <> calcsize items ->
  struct_unpack (F := F) fmt buf = Raise StructError.
Proof.
  intros Hp Hl. unfold struct_unpack. rewrite Hp.
  rewrite (proj2 (Nat.eqb_neq _ _) Hl). reflexivity.
Qed.

(** Unpacking the slice [bytes[a:b]] of a long enough buffer. *)
Lemma struct_unpack_slice (fmt : string) (items : list fmt_item)
    (a b : Z) (off w : nat) (bytes : list byte) :
  parse_format fmt = Some items ->
  off = Z.to_nat a -> w = Z.to_nat (b - a) ->
  0 <= a <= b -> b <= Z.of_nat (length bytes) ->
  w = calcsize items ->
  struct_unpack (F := F) fmt (py_slice a b bytes)
  = Ok (unpack_items items (field off w bytes)).
Proof.
  intros Hp -> -> Hab Hb Hsz.
  rewrite py_slice_field by assumption.
  apply struct_unpack_ok; [assumption |].
  change (take (Z.to_nat (b - a)) (drop (Z.to_nat a) bytes))
    with (field (Z.to_nat a) (Z.to_nat (b - a)) bytes).
  rewrite field_length by lia. assumption.
Qed.

End StructFacts.

(** Rewrites one [struct.unpack(fmt, bytes[a:b])] of a decoder into the
    fields it reads. *)
Ltac unpack_slice fmt a b :=
  let its := eval vm_compute in (parse_format fmt) in
  let off := eval vm_compute in (Z.to_nat a) in
  let w := eval vm_compute in (Z.to_nat (b - a)) in
  lazymatch its with
  | Some ?items =>
      rewrite (struct_unpack_slice fmt items a b off w)
        by first [reflexivity | lia]
  end.

Ltac fields_norm :=
  cbn [unpack_items unpack_item item_size];
  repeat (rewrite drop_field by lia; cbn [Nat.add Nat.sub]);
  repeat rewrite take_field by lia;
  repeat rewrite lu_uint_field;
  repeat rewrite lu_int_field by lia.

(** ** The legacy main-record decoder *)

Section DecoderFacts.
Context {F State : Type} `{PyFloat F} `{Dicts F State}.

Lemma bytes_to_list_ndc_unfold (bytes : list byte) :
  (86 <= length bytes)%nat ->
  _bytes_to_list_ndc bytes =
    (multiplier ← dict_get multiplier_dict (i_at 82 4 bytes);
     state ← dict_get state_dict (u_at 17 1 bytes);
     timestamp ← py_datetime (u_at 75 2 bytes) (u_at 77 1 bytes)
                   (u_at 78 1 bytes) (u_at 79 1 bytes) (u_at 80 1 bytes)
                   (u_at 81 1 bytes);
     mret (mk_MainRecord
       (u_at 8 4 bytes)
       (u_at 12 4 bytes + 1)
       (u_at 16 1 bytes)
       state
       (int_truediv (u_at 23 8 bytes) 1000)
       (int_truediv (i_at 31 4 bytes) 10000)
       (py_int_mul (i_at 35 4 bytes) multiplier)
       (py_truediv (py_int_mul (i_at 43 8 bytes) multiplier) 3600)
       (py_truediv (py_int_mul (i_at 51 8 bytes) multiplier) 3600)
       (py_truediv (py_int_mul (i_at 59 8 bytes) multiplier) 3600)
       (py_truediv (py_int_mul (i_at 67 8 bytes) multiplier) 3600)
       timestamp)).
Proof.
  intros Hlen. unfold _bytes_to_list_ndc.
  unpack_slice "<II"%string 8 16.
  unpack_slice "<B"%string 16 17.
  unpack_slice "<B"%string 17 18.
  unpack_slice "<Q"%string 23 31.
  unpack_slice "<ii"%string 31 39.
  unpack_slice "<qq"%string 43 59.
  unpack_slice "<qq"%string 59 75.
  unpack_slice "<HBBBBB"%string 75 82.
  unpack_slice "<i"%string 82 86.
  fields_norm. reflexivity.
Qed.

(** C1. For every 94-byte legacy main-record slice whose range code is in
    the multiplier table, whose status code is in the state table and whose
    packed calendar fields form a valid date, the decoder returns a record
    whose fields are the little-endian integers at the offsets of the
    layout table with the documented scale factors applied:
    index u32@8, step u8@16, status looked up from u8@17,
    time = u64@23 / 1000, voltage = i32@31 / 10000,
    current = i32@35 * multiplier, each capacity and energy field
    = i64 * multiplier / 3600 (at offsets 43, 51, 59, 67), and the timestamp
    assembled from the six packed integers at offsets 75..82. (The cycle
    field is the subject of a separate statement.) *)
Theorem bytes_to_list_ndc_layout (bytes : list byte)
    (multiplier : pynum F) (state : State) :
  length bytes = 94%nat ->
  multiplier_dict !! i_at 82 4 bytes = Some multiplier ->
  state_dict !! u_at 17 1 bytes = Some state ->
  valid_date (u_at 75 2 bytes) (u_at 77 1 bytes) (u_at 78 1 bytes)
             (u_at 79 1 bytes) (u_at 80 1 bytes) (u_at 81 1 bytes) = true ->
  exists cycle,
    _bytes_to_list_ndc bytes = Ok (mk_MainRecord
      (u_at 8 4 bytes)
      cycle
      (u_at 16 1 bytes)
      state
      (int_truediv (u_at 23 8 bytes) 1000)
      (int_truediv (i_at 31 4 bytes) 10000)
      (py_int_mul (i_at 35 4 bytes) multiplier)
      (py_truediv (py_int_mul (i_at 43 8 bytes) multiplier) 3600)
      (py_truediv (py_int_mul (i_at 51 8 bytes) multiplier) 3600)
      (py_truediv (py_int_mul (i_at 59 8 bytes) multiplier) 3600)
      (py_truediv (py_int_mul (i_at 67 8 bytes) multiplier) 3600)
      (mk_datetime (u_at 75 2 bytes) (u_at 77 1 bytes) (u_at 78 1 bytes)
                   (u_at 79 1 bytes) (u_at 80 1 bytes) (u_at 81 1 bytes))).
Proof.
  intros Hlen Hm Hs Hd.
  rewrite bytes_to_list_ndc_unfold by lia.
  unfold dict_get, py_datetime. rewrite Hm, Hs. cbn [mbind result_bind].
  rewrite Hd. cbn [mbind result_bind mret result_ret].
  eexists. reflexivity.
Qed.

(** C7 (as amended). For every 94-byte legacy main-record slice, the
    decoded cycle field is the unsigned 32-bit little-endian integer at byte
    offset 12 plus one; the decoder succeeds whenever the range and status
    codes are in their tables and the date is valid. *)
Theorem bytes_to_list_ndc_cycle (bytes : list byte) :
  length bytes = 94%nat ->
  (forall r, _bytes_to_list_ndc bytes = Ok r -> rec_Cycle r = u_at 12 4 bytes + 1)
  /\ (is_Some (multiplier_dict !! i_at 82 4 bytes) ->
      is_Some (state_dict !! u_at 17 1 bytes) ->
      valid_date (u_at 75 2 bytes) (u_at 77 1 bytes) (u_at 78 1 bytes)
                 (u_at 79 1 bytes) (u_at 80 1 bytes) (u_at 81 1 bytes) = true ->
      exists r, _bytes_to_list_ndc bytes = Ok r).
Proof.
  intros Hlen. rewrite bytes_to_list_ndc_unfold by lia.
  unfold dict_get, py_datetime. split.
  - intros r.
    destruct (multiplier_dict !! _); cbn [mbind result_bind]; [| discriminate].
    destruct (state_dict !! _); cbn [mbind result_bind]; [| discriminate].
    destruct (valid_date _ _ _ _ _ _); cbn [mbind result_bind mret result_ret];
      [| discriminate].
    intros [= <-]. reflexivity.
  - intros [m ->] [st ->] ->. cbn [mbind result_bind mret result_ret].
    eexists. reflexivity.
Qed.

End DecoderFacts.

(** *** Synthetic slices decode back to their field values *)

Lemma byte_val_of_Z (z : Z) : byte_val (byte_of_Z z) = z mod 256.
Proof.
  unfold byte_val, byte_of_Z.
  pose proof (Z.mod_pos_bound z 256 ltac:(lia)) as Hr.
  destruct (Byte.of_N (Z.to_N (z mod 256))) as [b |] eqn:Hb.
  - apply Byte.to_of_N in Hb. simpl. rewrite Hb. lia.
  - apply Byte.of_N_None_iff in Hb. lia.
Qed.

Lemma length_le_bytes (w : nat) (z : Z) : length (le_bytes w z) = w.
Proof. revert z. induction w as [| w IH]; intros z; cbn; [| rewrite IH]; reflexivity. Qed.

Lemma le_unsigned_le_bytes (w : nat) (z : Z) :
  le_unsigned (le_bytes w z) = z mod 2 ^ (8 * Z.of_nat w).
Proof.
  revert z. induction w as [| w IH]; intros z; cbn [le_bytes le_unsigned].
  - change (2 ^ (8 * Z.of_nat 0)) with 1. rewrite Z.mod_1_r. reflexivity.
  - rewrite IH, byte_val_of_Z.
    replace (8 * Z.of_nat (S w)) with (8 + 8 * Z.of_nat w) by lia.
    rewrite Z.pow_add_r by lia. change (2 ^ 8) with 256.
    rewrite Z.rem_mul_r by (try apply Z.pow_pos_nonneg; lia). lia.
Qed.

Lemma u_le_bytes (w : nat) (z : Z) :
  0 <= z < 2 ^ (8 * Z.of_nat w) -> le_unsigned (le_bytes w z) = z.
Proof. intros Hz. rewrite le_unsigned_le_bytes. apply Z.mod_small. assumption. Qed.

Lemma i_le_bytes (w : nat) (z : Z) :
  (0 < w)%nat ->
  - 2 ^ (8 * Z.of_nat w - 1) <= z < 2 ^ (8 * Z.of_nat w - 1) ->
  le_signed (le_bytes w z) = z.
Proof.
  intros Hw Hz. unfold le_signed. cbv zeta.
  rewrite le_unsigned_le_bytes, length_le_bytes.
  set (n := 8 * Z.of_nat w) in *.
  assert (Hp : 2 ^ n = 2 * 2 ^ (n - 1)).
  { replace n with (1 + (n - 1)) at 1 by lia.
    rewrite Z.pow_add_r by lia. reflexivity. }
  assert (0 < 2 ^ (n - 1)) by (apply Z.pow_pos_nonneg; lia).
  destruct (Z.lt_ge_cases z 0) as [Hneg | Hpos].
  - replace (z mod 2 ^ n) with (z + 2 ^ n).
    + destruct (Z.ltb_spec (z + 2 ^ n) (2 ^ (n - 1))); lia.
    + apply Z.mod_unique with (-1); lia.
  - rewrite Z.mod_small by lia.
    destruct (Z.ltb_spec z (2 ^ (n - 1))); lia.
Qed.

Lemma days_in_month_le (y m : Z) : days_in_month y m <= 31.
Proof.
  unfold days_in_month. destruct ((m =? 2) && is_leap y); [lia |].
  generalize (Z.to_nat m). intros n.
  do 13 (destruct n as [| n]; [cbn; lia |]).
  cbn. destruct n; lia.
Qed.

Section RoundTrip.
Context {F State : Type} `{PyFloat F} `{Dicts F State}.

Ltac field_is off w v :=
  match goal with
  | |- context [u_at off w ?b] =>
      change (u_at off w b) with (le_unsigned (le_bytes w v));
      rewrite (u_le_bytes w v) by (cbn; lia)
  | |- context [i_at off w ?b] =>
      change (i_at off w b) with (le_signed (le_bytes w v));
      rewrite (i_le_bytes w v) by (cbn; lia)
  end.

(** X6. Round trip. The 94-byte slice that holds given field values in
    little-endian two's complement at the offsets of the layout decodes
    back to those values, whenever each value fits its field, the range
    and the status have table entries and the date is valid: the fields
    do not overlap, and the decoder reads each of them whole. *)
Theorem encode_main_record_decodes
    (Index Cycle Step Status Time Voltage Current
     Charge_capacity Discharge_capacity Charge_energy Discharge_energy
     Y M D h m s Range : Z) (multiplier : pynum F) (state : State) :
  0 <= Index < 2 ^ 32 -> 0 <= Cycle < 2 ^ 32 ->
  0 <= Step < 2 ^ 8 -> 0 <= Status < 2 ^ 8 ->
  0 <= Time < 2 ^ 64 ->
  - 2 ^ 31 <= Voltage < 2 ^ 31 -> - 2 ^ 31 <= Current < 2 ^ 31 ->
  - 2 ^ 63 <= Charge_capacity < 2 ^ 63 -> - 2 ^ 63 <= Discharge_capacity < 2 ^ 63 ->
  - 2 ^ 63 <= Charge_energy < 2 ^ 63 -> - 2 ^ 63 <= Discharge_energy < 2 ^ 63 ->
  - 2 ^ 31 <= Range < 2 ^ 31 ->
  multiplier_dict !! Range = Some multiplier ->
  state_dict !! Status = Some state ->
  valid_date Y M D h m s = true ->
  _bytes_to_list_ndc
    (encode_main_record Index Cycle Step Status Time Voltage Current
       Charge_capacity Discharge_capacity Charge_energy Discharge_energy
       Y M D h m s Range)
  = Ok (mk_MainRecord Index (Cycle + 1) Step state
          (int_truediv Time 1000)
          (int_truediv Voltage 10000)
          (py_int_mul Current multiplier)
          (py_truediv (py_int_mul Charge_capacity multiplier) 3600)
          (py_truediv (py_int_mul Discharge_capacity multiplier) 3600)
          (py_truediv (py_int_mul Charge_energy multiplier) 3600)
          (py_truediv (py_int_mul Discharge_energy multiplier) 3600)
          (mk_datetime Y M D h m s)).
Proof.
  intros HI HC HS HSt HT HV HCu Hcc Hdc Hce Hde HR Hm Hst Hd.
  assert (HY : 0 <= Y < 2 ^ 16 /\ 0 <= M < 2 ^ 8 /\ 0 <= D < 2 ^ 8
               /\ 0 <= h < 2 ^ 8 /\ 0 <= m < 2 ^ 8 /\ 0 <= s < 2 ^ 8).
  { unfold valid_date in Hd.
    repeat (apply andb_prop in Hd; destruct Hd as [Hd ?]).
    pose proof (days_in_month_le Y M). lia. }
  rewrite bytes_to_list_ndc_unfold by (cbn; lia).
  field_is 82%nat 4%nat Range.
  field_is 17%nat 1%nat Status.
  field_is 75%nat 2%nat Y. field_is 77%nat 1%nat M. field_is 78%nat 1%nat D.
  field_is 79%nat 1%nat h. field_is 80%nat 1%nat m. field_is 81%nat 1%nat s.
  field_is 8%nat 4%nat Index. field_is 12%nat 4%nat Cycle.
  field_is 16%nat 1%nat Step. field_is 23%nat 8%nat Time.
  field_is 31%nat 4%nat Voltage. field_is 35%nat 4%nat Current.
  field_is 43%nat 8%nat Charge_capacity. field_is 51%nat 8%nat Discharge_capacity.
  field_is 59%nat 8%nat Charge_energy. field_is 67%nat 8%nat Discharge_energy.
  unfold dict_get, py_datetime. rewrite Hm, Hst. cbn [mbind result_bind].
  rewrite Hd. reflexivity.
Qed.

End RoundTrip.

(** *** The decoder on the sample record *)

Section SampleRecord.
Import Binary64 Sample.

Lemma bytes_to_list_ndc_layout_witness :
  exists cycle,
    _bytes_to_list_ndc main_slice = Ok (mk_MainRecord 1 cycle 1 "CC_Chg"%string
      (int_truediv 1000 1000) (int_truediv 36000 10000) (PInt 500)
      (int_truediv 7200 3600) (int_truediv 0 3600)
      (int_truediv 3600 3600) (int_truediv 0 3600)
      (mk_datetime 2023 1 2 3 4 5)).
Proof.
  apply (bytes_to_list_ndc_layout main_slice (PInt 1) "CC_Chg"%string);
    vm_compute; reflexivity.
Defined.

Lemma bytes_to_list_ndc_cycle_witness :
  (forall r, _bytes_to_list_ndc main_slice = Ok r -> rec_Cycle r = 0 + 1)
  /\ (is_Some (multiplier_dict !! i_at 82 4 main_slice) ->
      is_Some (state_dict !! u_at 17 1 main_slice) ->
      valid_date 2023 1 2 3 4 5 = true ->
      exists r, _bytes_to_list_ndc main_slice = Ok r).
Proof.
  apply (bytes_to_list_ndc_cycle main_slice). reflexivity.
Defined.

(** The sample record stores the raw cycle 0 at offset 12 and decodes to
    cycle 1: the decoded cycle is not the raw integer. *)
Lemma bytes_to_list_ndc_cycle_not_raw :
  length main_slice = 94%nat
  /\ exists r, _bytes_to_list_ndc main_slice = Ok r
               /\ rec_Cycle r <> u_at 12 4 main_slice.
Proof.
  split; [reflexivity |].
  eexists. split; [vm_compute; reflexivity |].
  vm_compute. discriminate.
Qed.

(** The end-to-end example: raw voltage 36000 and raw current 500 with
    range 0 (multiplier 1) decode to the binary64 value nearest to 3.6 and
    to 500, with the status looked up from its raw code. *)
Example main_slice_decodes :
  exists r, _bytes_to_list_ndc main_slice = Ok r
    /\ rec_Index r = 1
    /\ rec_Voltage r = S754_finite false 8106479329266893 (-51)
    /\ rec_Current r = PInt 500
    /\ rec_Status r = "CC_Chg"%string.
Proof. eexists. split; [vm_compute; reflexivity |]. repeat split. Qed.

End SampleRecord.

(** ** The block loop of the fixed-block readers *)

Lemma record_len_pos : (0 < record_len)%nat.
Proof. unfold record_len. lia. Qed.

Lemma length_mmap_read (mm : list byte) (pos n : nat) :
  length (mmap_read mm pos n) = Nat.min n (length mm - pos).
Proof. unfold mmap_read. rewrite length_take, length_drop. reflexivity. Qed.

Lemma n_blocks_done (mm : list byte) (pos : nat) :
  (length mm <= pos)%nat -> n_blocks mm pos = 0%nat.
Proof.
  intros Hle. unfold n_blocks. pose proof record_len_pos.
  replace (length mm - pos)%nat with 0%nat by lia.
  apply Nat.div_small. lia.
Qed.

Lemma n_blocks_step (mm : list byte) (pos : nat) :
  (pos < length mm)%nat ->
  n_blocks mm pos
  = S (n_blocks mm (pos + length (mmap_read mm pos record_len))).
Proof.
  intros Hlt. unfold n_blocks. rewrite length_mmap_read.
  pose proof record_len_pos. generalize dependent record_len. intros L HL.
  destruct (Nat.le_gt_cases L (length mm - pos)) as [Hfull | Hshort].
  - rewrite Nat.min_l by lia.
    replace (length mm - pos + (L - 1))%nat
      with (1 * L + (length mm - (pos + L) + (L - 1)))%nat by lia.
    rewrite Nat.div_add_l by lia. reflexivity.
  - rewrite Nat.min_r by lia.
    replace (length mm - (pos + (length mm - pos)))%nat with 0%nat by lia.
    rewrite (Nat.div_small (0 + (L - 1)) L) by lia.
    replace (length mm - pos + (L - 1))%nat
      with (1 * L + (length mm - pos - 1))%nat by lia.
    rewrite Nat.div_add_l by lia. rewrite Nat.div_small by lia. reflexivity.
Qed.

Lemma blocks_from_done (mm : list byte) (pos : nat) :
  (length mm <= pos)%nat -> blocks_from mm pos = [].
Proof. intros Hle. unfold blocks_from. rewrite n_blocks_done by assumption. reflexivity. Qed.

Lemma blocks_from_step (mm : list byte) (pos : nat) :
  (pos < length mm)%nat ->
  blocks_from mm pos
  = mmap_read mm pos record_len
      :: blocks_from mm (pos + length (mmap_read mm pos record_len)).
Proof.
  intros Hlt. unfold blocks_from at 1.
  rewrite n_blocks_step by assumption.
  cbn [seq fmap list_fmap]. change (0 * record_len)%nat with 0%nat.
  rewrite Nat.add_0_r. f_equal.
  rewrite length_mmap_read.
  destruct (Nat.le_gt_cases record_len (length mm - pos)) as [Hfull | Hshort].
  - rewrite Nat.min_l by lia. unfold blocks_from.
    rewrite <- seq_shift, <- list_fmap_compose.
    apply list_fmap_ext. intros i x _. unfold compose.
    change (S x * record_len)%nat with (record_len + x * record_len)%nat.
    do 2 f_equal. lia.
  - rewrite Nat.min_r by lia.
    rewrite n_blocks_done, blocks_from_done by lia. reflexivity.
Qed.

(** With fuel for every byte, the loop visits exactly the blocks of
    [blocks_from] and never runs out of fuel. *)
Lemma read_records_blocks {R} (body : list byte -> result (list R))
    (fuel : nat) (mm : list byte) (pos : nat) (rec : list R) :
  (length mm - pos <= fuel)%nat ->
  read_records body fuel mm pos rec
  = (rows ← for_each (blocks_from mm pos) body; mret (rec ++ rows)).
Proof.
  revert pos rec. induction fuel as [| fuel IH]; intros pos rec Hfuel.
  - cbn [read_records].
    destruct (Nat.ltb_spec pos (length mm)); [lia |].
    rewrite blocks_from_done by lia. cbn. rewrite app_nil_r. reflexivity.
  - cbn [read_records].
    destruct (Nat.ltb_spec pos (length mm)) as [Hlt | Hge].
    + rewrite blocks_from_step by assumption. cbn [for_each].
      destruct (body (mmap_read mm pos record_len)) as [rows | e];
        cbn [mbind result_bind]; [| reflexivity].
      rewrite IH.
      * destruct (for_each _ body) as [rest | e]; cbn; [| reflexivity].
        rewrite app_assoc. reflexivity.
      * rewrite length_mmap_read. pose proof record_len_pos. lia.
    + rewrite blocks_from_done by lia. cbn. rewrite app_nil_r. reflexivity.
Qed.

(** ** [struct.iter_unpack] and the block payloads *)

Lemma length_py_slice_tail {A} (a c : Z) (l : list A) :
  0 <= a -> 0 < c ->
  length (py_slice a (- c) l) = (length l - Z.to_nat (a + c))%nat.
Proof.
  intros Ha Hc. unfold py_slice, clamp_index. cbv zeta.
  destruct (Z.ltb_spec a 0); [lia |].
  destruct (Z.ltb_spec (- c) 0); [| lia].
  rewrite length_take, length_drop. lia.
Qed.

Lemma for_each_ok {A R} (xs : list A) (body : A -> result (list R)) (g : A -> list R) :
  (forall x, x ∈ xs -> body x = Ok (g x)) ->
  for_each xs body = Ok (concat (g <$> xs)).
Proof.
  induction xs as [| x xs IH]; intros Hb; cbn [for_each fmap list_fmap concat].
  - reflexivity.
  - rewrite Hb by left. cbn [mbind result_bind].
    rewrite IH by (intros y Hy; apply Hb; right; exact Hy).
    reflexivity.
Qed.

Lemma for_each_raise {A R} (xs : list A) (body : A -> result (list R)) (x : A) (e : pyexc) :
  x ∈ xs -> body x = Raise e -> exists e', for_each xs body = Raise e'.
Proof.
  induction xs as [| y ys IH]; intros Hin Hx.
  - inversion Hin.
  - cbn [for_each]. destruct (body y) as [rows | e0] eqn:Hy; cbn [mbind result_bind].
    + apply elem_of_cons in Hin as [-> | Hin]; [congruence |].
      destruct (IH Hin Hx) as [e' ->]. eexists; reflexivity.
    + eexists; reflexivity.
Qed.

Lemma for_each_Ok_inv {A R} (xs : list A) (body : A -> result (list R)) (out : list R) (x : A) :
  for_each xs body = Ok out -> x ∈ xs -> exists rows, body x = Ok rows.
Proof.
  intros Hok Hin. destruct (body x) as [rows | e] eqn:Hx; [eexists; reflexivity |].
  destruct (for_each_raise xs body x e Hin Hx) as [e' He']. congruence.
Qed.

Section IterUnpack.
Context {F : Type} `{PyFloat F}.

Lemma struct_iter_unpack_ok (fmt : string) (items : list fmt_item) (buf : list byte) :
  parse_format fmt = Some items -> calcsize items <> 0%nat ->
  (length buf mod calcsize items = 0)%nat ->
  struct_iter_unpack (F := F) fmt buf
  = Ok (unpack_chunks (length buf / calcsize items) (calcsize items) items buf).
Proof.
  intros Hp Hnz Hm. unfold struct_iter_unpack. rewrite Hp. cbv zeta.
  rewrite (proj2 (Nat.eqb_neq _ _) Hnz), (proj2 (Nat.eqb_eq _ _) Hm).
  reflexivity.
Qed.

Lemma struct_iter_unpack_partial (fmt : string) (items : list fmt_item) (buf : list byte) :
  parse_format fmt = Some items ->
  (length buf mod calcsize items <> 0)%nat ->
  struct_iter_unpack (F := F) fmt buf = Raise StructError.
Proof.
  intros Hp Hm. unfold struct_iter_unpack. rewrite Hp. cbv zeta.
  destruct (calcsize items =? 0)%nat; [reflexivity |].
  rewrite (proj2 (Nat.eqb_neq _ _) Hm). reflexivity.
Qed.

Lemma length_unpack_chunks (n size : nat) (items : list fmt_item) (buf : list byte) :
  length (unpack_chunks (F := F) n size items buf) = n.
Proof.
  revert buf. induction n as [| n IH]; intros buf; cbn; [| rewrite IH]; reflexivity.
Qed.

(** Every tuple produced comes from one whole chunk of [size] bytes lying
    inside the buffer. *)
Lemma unpack_chunks_lookup (n size : nat) (items : list fmt_item) (buf : list byte)
    (i : nat) (r : list (pyval F)) :
  (n * size <= length buf)%nat ->
  unpack_chunks n size items buf !! i = Some r ->
  ((i + 1) * size <= length buf)%nat
  /\ length (take size (drop (i * size) buf)) = size
  /\ r = unpack_items items (take size (drop (i * size) buf)).
Proof.
  revert buf i. induction n as [| n IH]; intros buf i Hlen Hi; [discriminate |].
  cbn [unpack_chunks] in Hi. destruct i as [| i].
  - cbn in Hi. injection Hi as <-. cbn [Nat.mul Nat.add].
    rewrite length_take, length_drop. cbn in Hlen. repeat split; lia.
  - cbn [lookup list_lookup] in Hi. apply IH in Hi.
    2:{ rewrite length_drop. cbn in Hlen. lia. }
    destruct Hi as (Hb & Hl & ->). rewrite length_drop in Hb.
    rewrite drop_drop in *.
    replace (S i * size)%nat with (size + i * size)%nat by lia.
    repeat split; [cbn in Hlen |- *; lia | exact Hl].
Qed.

End IterUnpack.

Lemma for_each_app {A R} (xs ys : list A) (body : A -> result (list R)) :
  for_each (xs ++ ys) body
  = (r1 ← for_each xs body; r2 ← for_each ys body; mret (r1 ++ r2)).
Proof.
  induction xs as [| x xs IH]; cbn [app for_each mbind result_bind].
  - destruct (for_each ys body); reflexivity.
  - destruct (body x) as [rows | e]; cbn [mbind result_bind]; [| reflexivity].
    rewrite IH. destruct (for_each xs body) as [r1 | e]; cbn [mbind result_bind];
      [| reflexivity].
    destruct (for_each ys body) as [r2 | e]; cbn; [| reflexivity].
    rewrite app_assoc. reflexivity.
Qed.


(** If the body yields [m] rows (at most [m] rows) on every element, the
    loop yields [m] rows (at most [m] rows) per element. *)
Lemma for_each_length {A R} (xs : list A) (body : A -> result (list R)) (m : nat) :
  (forall x, x ∈ xs -> exists rows, body x = Ok rows /\ length rows = m) ->
  exists out, for_each xs body = Ok out /\ length out = (m * length xs)%nat.
Proof.
  induction xs as [| x xs IH]; intros Hb; cbn [for_each length].
  - eexists; split; [reflexivity | cbn; lia].
  - destruct (Hb x) as (rows & -> & Hl); [left |].
    destruct IH as (out & -> & Ho); [intros y Hy; apply Hb; right; exact Hy |].
    cbn. eexists; split; [reflexivity |]. rewrite length_app. lia.
Qed.

Lemma for_each_length_le {A R} (xs : list A) (body : A -> result (list R)) (m : nat) :
  (forall x, x ∈ xs -> exists rows, body x = Ok rows /\ (length rows <= m)%nat) ->
  exists out, for_each xs body = Ok out /\ (length out <= m * length xs)%nat.
Proof.
  induction xs as [| x xs IH]; intros Hb; cbn [for_each length].
  - eexists; split; [reflexivity | cbn; lia].
  - destruct (Hb x) as (rows & -> & Hl); [left |].
    destruct IH as (out & -> & Ho); [intros y Hy; apply Hb; right; exact Hy |].
    cbn. eexists; split; [reflexivity |]. rewrite length_app. lia.
Qed.


(** *** The blocks of a file with [n] whole blocks and a tail of [t] bytes *)


Lemma n_blocks_whole (file : list byte) (n : nat) :
  length file = (header + n * record_len)%nat -> n_blocks file header = n.
Proof.
  intros Hlen. unfold n_blocks. rewrite Hlen. pose proof record_len_pos as HL.
  generalize dependent record_len. intros L Hlen HL.
  replace (header + n * L - header + (L - 1))%nat with (n * L + (L - 1))%nat by lia.
  rewrite Nat.div_add_l by lia. rewrite Nat.div_small by lia. lia.
Qed.

Lemma whole_blocks_length (file : list byte) (n : nat) (b : list byte) :
  (header + n * record_len <= length file)%nat ->
  b ∈ whole_blocks file n -> length b = record_len.
Proof.
  intros Hlen Hb. unfold whole_blocks in Hb.
  apply list_elem_of_fmap in Hb as (i & -> & Hi).
  apply elem_of_seq in Hi. rewrite length_take, length_drop.
  generalize dependent record_len. intros L Hlen. nia.
Qed.

Lemma length_whole_blocks (file : list byte) (n : nat) :
  length (whole_blocks file n) = n.
Proof. unfold whole_blocks. rewrite length_fmap, length_seq. reflexivity. Qed.

Lemma blocks_from_whole (file : list byte) (n : nat) :
  length file = (header + n * record_len)%nat ->
  blocks_from file header = whole_blocks file n.
Proof.
  intros Hlen. unfold blocks_from. rewrite (n_blocks_whole file n) by assumption.
  reflexivity.
Qed.


(** ** The fixed-block readers as scans over [blocks_from] *)

Lemma scan_blocks {R} (body : list byte -> result (list R)) (file : list byte) :
  (mm ← mmap_open file;
   pos ← mmap_seek mm header;
   read_records body (length mm) mm pos [])
  = if (header <=? length file)%nat
    then for_each (blocks_from file header) body
    else Raise ValueError.
Proof.
  unfold mmap_open, mmap_seek. destruct file as [| b file]; [reflexivity |].
  cbn [mbind result_bind].
  destruct (header <=? length (b :: file))%nat; cbn [mbind result_bind];
    [| reflexivity].
  rewrite read_records_blocks by lia.
  destruct (for_each _ body); reflexivity.
Qed.

Section FixedBlockFacts.
Context {F State : Type} `{PyFloat F} `{Dicts F State}.

Lemma read_ndc_8_blocks (file : list byte) :
  read_ndc_8 file
  = if (header <=? length file)%nat
    then rec ← for_each (blocks_from file header) ndc8_rows;
         mret (imap (fun i '(v, c) => mk_SampleRow v c (Z.of_nat i + 1)) rec)
    else Raise ValueError.
Proof.
  unfold read_ndc_8.
  pose proof (scan_blocks ndc8_rows file) as Hs.
  unfold mmap_open, mmap_seek in *. destruct file as [| b file]; [reflexivity |].
  cbn [mbind result_bind] in *.
  destruct (header <=? length (b :: file))%nat; cbn [mbind result_bind] in *;
    [| reflexivity].
  rewrite Hs. reflexivity.
Qed.

Lemma read_data_runInfo_ndc8_blocks (file : list byte) :
  read_data_runInfo_ndc8 file
  = if (header <=? length file)%nat
    then rec ← for_each (blocks_from file header) runInfo_rows;
         mret (set_Step rec (_count_changes (ri_Step <$> rec)))
    else Raise ValueError.
Proof.
  unfold read_data_runInfo_ndc8.
  pose proof (scan_blocks runInfo_rows file) as Hs.
  unfold mmap_open, mmap_seek in *. destruct file as [| b file]; [reflexivity |].
  cbn [mbind result_bind] in *.
  destruct (header <=? length (b :: file))%nat; cbn [mbind result_bind] in *;
    [| reflexivity].
  rewrite Hs. reflexivity.
Qed.

Lemma read_data_step_ndc8_blocks (file : list byte) :
  read_data_step_ndc8 file
  = if (header <=? length file)%nat
    then rec ← for_each (blocks_from file header) step_rows;
         mret (imap (fun i '(cycle, step_index, status) =>
                       mk_StepRow cycle step_index status (Z.of_nat i + 1)) rec)
    else Raise ValueError.
Proof.
  unfold read_data_step_ndc8.
  pose proof (scan_blocks step_rows file) as Hs.
  unfold mmap_open, mmap_seek in *. destruct file as [| b file]; [reflexivity |].
  cbn [mbind result_bind] in *.
  destruct (header <=? length (b :: file))%nat; cbn [mbind result_bind] in *;
    [| reflexivity].
  rewrite Hs. reflexivity.
Qed.

(** *** The block bodies *)


Lemma ndc8_rows_whole (bytes : list byte) :
  ((length bytes - 136) mod 8 = 0)%nat ->
  exists rows, ndc8_rows bytes = Ok rows
               /\ length rows = ((length bytes - 136) / 8)%nat.
Proof.
  intros Hm. unfold ndc8_rows.
  rewrite (struct_iter_unpack_ok "<ff" [FmtFloat; FmtFloat]);
    [| reflexivity | cbn; lia
     | rewrite (length_py_slice_tail 132 4) by lia; exact Hm].
  rewrite (length_py_slice_tail 132 4) by lia.
  change (Z.to_nat (132 + 4)) with 136%nat.
  change (calcsize [FmtFloat; FmtFloat]) with 8%nat.
  cbn [mbind result_bind].
  generalize (py_slice 132 (-4) bytes) as buf.
  generalize ((length bytes - 136) / 8)%nat as n. clear.
  induction n as [| n IH]; intros buf; cbn [unpack_chunks for_each].
  - eexists; split; reflexivity.
  - destruct (IH (drop 8 buf)) as (rows & -> & Hl).
    cbn. eexists; split; [reflexivity |]. cbn. rewrite Hl. reflexivity.
Qed.


Lemma runInfo_rows_whole (bytes : list byte) :
  ((length bytes - 195) mod 47 = 0)%nat ->
  exists rows, runInfo_rows bytes = Ok rows
               /\ (length rows <= (length bytes - 195) / 47)%nat.
Proof.
  intros Hm. unfold runInfo_rows.
  rewrite (struct_iter_unpack_ok "<i29siii2s"
             [FmtInt true 4; FmtBytes 29; FmtInt true 4; FmtInt true 4;
              FmtInt true 4; FmtBytes 2]);
    [| reflexivity | cbn; lia
     | rewrite (length_py_slice_tail 132 63) by lia; exact Hm].
  rewrite (length_py_slice_tail 132 63) by lia.
  change (Z.to_nat (132 + 63)) with 195%nat.
  change (calcsize _) with 47%nat.
  cbn [mbind result_bind].
  generalize (py_slice 132 (-63) bytes) as buf.
  generalize ((length bytes - 195) / 47)%nat as n. clear.
  induction n as [| n IH]; intros buf; cbn [unpack_chunks for_each].
  - eexists; split; [reflexivity | cbn; lia].
  - destruct (IH (drop 47 buf)) as (rows & -> & Hl).
    cbn [unpack_items unpack_item item_int lookup list_lookup mbind result_bind
         mret result_ret].
    destruct (lu_int _ =? 0); cbn [app];
      (eexists; split; [reflexivity | cbn; lia]).
Qed.


End FixedBlockFacts.

Section FixedBlockClaims.
Context {F State : Type} `{PyFloat F} `{Dicts F State}.

Lemma ndc8_rows_full (b : list byte) :
  length b = record_len ->
  exists rows, ndc8_rows b = Ok rows /\ length rows = 495%nat.
Proof.
  intros Hl. destruct (ndc8_rows_whole b) as (rows & Hr & Hn).
  - rewrite Hl. reflexivity.
  - exists rows. split; [exact Hr |]. rewrite Hn, Hl. reflexivity.
Qed.

Lemma runInfo_rows_full (b : list byte) :
  length b = record_len ->
  exists rows, runInfo_rows b = Ok rows /\ (length rows <= 83)%nat.
Proof.
  intros Hl. destruct (runInfo_rows_whole b) as (rows & Hr & Hn).
  - rewrite Hl. reflexivity.
  - exists rows. split; [exact Hr |]. rewrite Hl in Hn. exact Hn.
Qed.

Lemma sample_rows_index (rec : list (F * F)) :
  smp_Index <$> imap (fun i '(v, c) => mk_SampleRow v c (Z.of_nat i + 1)) rec
  = seqZ 1 (Z.of_nat (length rec)).
Proof.
  apply list_eq. intros i.
  rewrite list_lookup_fmap, list_lookup_imap.
  destruct (rec !! i) as [[v c] |] eqn:Hi; cbn.
  - apply lookup_lt_Some in Hi. rewrite lookup_seqZ_lt by lia. f_equal. lia.
  - apply lookup_ge_None in Hi. rewrite lookup_seqZ_ge by lia. reflexivity.
Qed.

(** C10. The main-sample reader synthesises the Index column itself: the
    n-th decoded voltage/current pair, in block order, receives Index n
    counting from 1, so the Index values are exactly 1..N; on a file of [k]
    whole blocks after the header the reader returns 495 * k rows. *)
Theorem read_ndc_8_index (file : list byte) :
  (forall df, read_ndc_8 file = Ok df ->
     smp_Index <$> df = seqZ 1 (Z.of_nat (length df))
     /\ exists rec,
          for_each (blocks_from file header) ndc8_rows = Ok rec
          /\ length df = length rec
          /\ forall n v c, rec !! n = Some (v, c) ->
               df !! n = Some (mk_SampleRow v c (Z.of_nat n + 1)))
  /\ (forall k, length file = (header + k * record_len)%nat ->
        exists df, read_ndc_8 file = Ok df /\ length df = (495 * k)%nat).
Proof.
  rewrite read_ndc_8_blocks. split.
  - intros df Hdf.
    destruct (header <=? length file)%nat; [| discriminate].
    destruct (for_each _ ndc8_rows) as [rec | e]; [| discriminate].
    cbn in Hdf. injection Hdf as <-.
    rewrite length_imap. split; [apply sample_rows_index |].
    exists rec. split; [reflexivity |]. split; [reflexivity |].
    intros n v c Hn. rewrite list_lookup_imap, Hn. reflexivity.
  - intros k Hlen.
    rewrite (proj2 (Nat.leb_le _ _)) by lia.
    rewrite (blocks_from_whole file k) by assumption.
    destruct (for_each_length (whole_blocks file k) ndc8_rows 495) as (out & -> & Ho).
    + intros b Hb. apply ndc8_rows_full.
      apply (whole_blocks_length file k); [lia | exact Hb].
    + cbn. eexists; split; [reflexivity |].
      rewrite length_imap, Ho, length_whole_blocks. reflexivity.
Qed.



Lemma length_count_changes_from (prev count : Z) (raw : list Z) :
  length (count_changes_from prev count raw) = length raw.
Proof.
  revert prev count. induction raw as [| x raw IH]; intros prev count; cbn;
    [| rewrite IH]; reflexivity.
Qed.

Lemma length_count_changes (raw : list Z) : length (_count_changes raw) = length raw.
Proof. destruct raw; cbn; [| rewrite length_count_changes_from]; reflexivity. Qed.


Section Trailing.
Variables (file : list byte) (n t : nat).
Hypothesis Hlen : length file = (header + n * record_len + t)%nat.
Hypothesis Ht : (0 < t < record_len)%nat.

Let tail := drop (header + n * record_len) file.






End Trailing.


End FixedBlockClaims.

Section TrailingSample.
Import Binary64 Sample.



End TrailingSample.

(** ** The run-info step counter *)

Lemma count_changes_from_step (prev count : Z) (raw : list Z) (i : nat) (a b x y : Z) :
  (prev :: raw) !! i = Some a -> (prev :: raw) !! S i = Some b ->
  (count :: count_changes_from prev count raw) !! i = Some x ->
  (count :: count_changes_from prev count raw) !! S i = Some y ->
  y = if b =? a then x else x + 1.
Proof.
  revert prev count raw. induction i as [| i IH]; intros prev count raw Ha Hb Hx Hy.
  - destruct raw as [| r raw]; [discriminate |].
    cbn [count_changes_from] in Hy. simplify_eq/=. reflexivity.
  - destruct raw as [| r raw]; [discriminate |].
    cbn [count_changes_from] in Hx, Hy.
    exact (IH r _ raw Ha Hb Hx Hy).
Qed.

Lemma count_changes_spec (raw : list Z) : change_counter raw (_count_changes raw).
Proof.
  split; [apply length_count_changes |]. split.
  - intros x Hx. destruct raw; cbn in Hx; congruence.
  - intros i a b x y Ha Hb Hx Hy. destruct raw as [| r raw]; [discriminate |].
    exact (count_changes_from_step r 1 raw i a b x y Ha Hb Hx Hy).
Qed.

Lemma for_each_Forall {A R} (P : R -> Prop) (xs : list A)
    (body : A -> result (list R)) (out : list R) :
  (forall x rows, body x = Ok rows -> Forall P rows) ->
  for_each xs body = Ok out -> Forall P out.
Proof.
  intros Hb. revert out. induction xs as [| x xs IH]; intros out Hout;
    cbn [for_each] in Hout.
  - injection Hout as <-. constructor.
  - destruct (body x) as [rows |] eqn:Hx; [| discriminate].
    cbn [mbind result_bind] in Hout.
    destruct (for_each xs body) as [rest |]; [| discriminate].
    injection Hout as <-. apply Forall_app. split; [eapply Hb; eassumption |].
    apply IH. reflexivity.
Qed.

Section RunInfoFacts.
Context {F : Type} `{PyFloat F}.

Lemma runInfo_rows_nonpadding (bytes : list byte) (rows : list (RunInfoRow F)) :
  runInfo_rows bytes = Ok rows -> Forall (fun r => ri_Index r <> 0) rows.
Proof.
  unfold runInfo_rows. destruct (struct_iter_unpack _ _) as [items |]; [| discriminate].
  cbn [mbind result_bind]. apply for_each_Forall. intros i out.
  destruct (item_int i 0); [| discriminate].
  destruct (item_int i 2); [| discriminate].
  destruct (item_int i 3); [| discriminate].
  destruct (item_int i 4) as [Index |]; [| discriminate].
  cbn [mbind result_bind mret result_ret].
  destruct (Z.eqb_spec Index 0); intros [= <-]; repeat constructor. assumption.
Qed.

Lemma set_Step_columns (rec : list (RunInfoRow F)) (values : list Z) :
  length values = length rec ->
  ri_Step <$> set_Step rec values = values
  /\ ri_Index <$> set_Step rec values = ri_Index <$> rec
  /\ ri_Time <$> set_Step rec values = ri_Time <$> rec
  /\ ri_Timestamp <$> set_Step rec values = ri_Timestamp <$> rec.
Proof.
  unfold set_Step. revert values.
  induction rec as [| r rec IH]; intros [| v values] Hl; try discriminate.
  - repeat split.
  - cbn in Hl. injection Hl as Hl. destruct (IH values Hl) as (H1 & H2 & H3 & H4).
    cbn. rewrite H1, H2, H3, H4. repeat split.
Qed.

(** C3. The run-info reader replaces the raw Step column of the decoded
    records (zero-index padding dropped) by the change counter of that
    column: it starts at 1 and increments exactly where the raw value
    differs from the previous record's raw value; the other columns are
    kept. The reader returns on every file of whole blocks, and the raw
    sequence 5, 5, 5, 7, 7, 9 becomes 1, 1, 1, 2, 2, 3. *)
Theorem runInfo_step_counter (file : list byte) :
  (forall df, read_data_runInfo_ndc8 file = Ok df ->
     exists rec,
       for_each (blocks_from file header) runInfo_rows = Ok rec
       /\ Forall (fun r => ri_Index r <> 0) rec
       /\ ri_Index <$> df = ri_Index <$> rec
       /\ ri_Time <$> df = ri_Time <$> rec
       /\ ri_Timestamp <$> df = ri_Timestamp <$> rec
       /\ change_counter (ri_Step <$> rec) (ri_Step <$> df))
  /\ (forall k, length file = (header + k * record_len)%nat ->
        exists df, read_data_runInfo_ndc8 file = Ok df)
  /\ _count_changes [5; 5; 5; 7; 7; 9] = [1; 1; 1; 2; 2; 3].
Proof.
  rewrite read_data_runInfo_ndc8_blocks. split; [| split].
  - intros df Hdf.
    destruct (header <=? length file)%nat; [| discriminate].
    destruct (for_each _ runInfo_rows) as [rec |] eqn:Hrec; [| discriminate].
    cbn [mbind result_bind mret result_ret] in Hdf. injection Hdf as <-.
    exists rec. split; [reflexivity |].
    split.
    { eapply for_each_Forall; [| exact Hrec].
      intros b rows. apply runInfo_rows_nonpadding. }
    destruct (set_Step_columns rec (_count_changes (ri_Step <$> rec)))
      as (H1 & H2 & H3 & H4).
    { rewrite length_count_changes, length_fmap. reflexivity. }
    rewrite H1, H2, H3, H4. repeat split; try reflexivity;
      apply count_changes_spec.
  - intros k Hlen.
    rewrite (proj2 (Nat.leb_le _ _)) by lia.
    rewrite (blocks_from_whole file k) by assumption.
    destruct (for_each_length_le (whole_blocks file k) runInfo_rows 83) as (out & -> & Ho).
    + intros b Hb. apply runInfo_rows_full.
      apply (whole_blocks_length file k); [lia | exact Hb].
    + eexists. reflexivity.
  - reflexivity.
Qed.

End RunInfoFacts.

Section RunInfoSample.
Import Binary64 Sample.

(** The same on a file: six records with raw steps 5, 5, 5, 7, 7, 9. *)
Example runInfo_file_steps :
  exists df, read_data_runInfo_ndc8 runInfo_file = Ok df
    /\ ri_Index <$> df = [1; 2; 3; 4; 5; 6]
    /\ ri_Step <$> df = [1; 1; 1; 2; 2; 3].
Proof. eexists. split; [vm_compute; reflexivity |]. split; reflexivity. Qed.

End RunInfoSample.

(** ** Missing table entries *)

Section MissingEntries.
Context {F State : Type} `{PyFloat F} `{Dicts F State}.

Lemma unpack_chunks_nth (n size : nat) (items : list fmt_item) (buf : list byte) (k : nat) :
  (k < n)%nat ->
  unpack_chunks (F := F) n size items buf !! k
  = Some (unpack_items items (take size (drop (k * size) buf))).
Proof.
  revert buf k. induction n as [| n IH]; intros buf k Hk; [lia |].
  destruct k as [| k]; cbn [unpack_chunks lookup list_lookup].
  - reflexivity.
  - rewrite IH by lia. rewrite drop_drop.
    replace (size + k * size)%nat with (S k * size)%nat by lia. reflexivity.
Qed.

(** The loop body of the step reader on one whole 37-byte sub-record. *)
Lemma step_body_unknown_status (sub : list byte) :
  length sub = 37%nat ->
  i_at 4 4 sub <> 0 ->
  state_dict !! i_at 24 1 sub = None ->
  (let i := unpack_items (F := F)
              [FmtInt true 4; FmtInt true 4; FmtBytes 16; FmtInt true 1; FmtBytes 12] sub in
   Cycle ← item_int i 0;
   Step_Index ← item_int i 1;
   Status ← item_int i 3;
   if Step_Index =? 0 then mret []
   else state ← dict_get state_dict Status;
        mret [(Cycle + 1, Step_Index, state)])
  = Raise KeyError.
Proof.
  intros Hl Hsi Hst. cbv zeta.
  cbn [unpack_items unpack_item item_size item_int lookup list_lookup
       mbind result_bind].
  rewrite !drop_drop. cbn [Nat.add].
  change (take 4 (drop 4 sub)) with (field 4 4 sub).
  change (take 1 (drop 24 sub)) with (field 24 1 sub).
  rewrite !lu_int_field by lia.
  destruct (Z.eqb_spec (i_at 4 4 sub) 0); [contradiction |].
  unfold dict_get. rewrite Hst. reflexivity.
Qed.

Lemma step_rows_unknown_status (block : list byte) (k : nat) :
  ((k + 1) * 37 <= length (py_slice 132 (-5) block))%nat ->
  i_at 4 4 (take 37 (drop (k * 37) (py_slice 132 (-5) block))) <> 0 ->
  state_dict !! i_at 24 1 (take 37 (drop (k * 37) (py_slice 132 (-5) block))) = None ->
  exists e, step_rows block = Raise e.
Proof.
  intros Hk Hsi Hst. unfold step_rows.
  set (payload := py_slice 132 (-5) block) in *.
  set (items := [FmtInt true 4; FmtInt true 4; FmtBytes 16; FmtInt true 1; FmtBytes 12]).
  destruct (Nat.eq_dec (length payload mod 37)%nat 0%nat) as [Hm | Hm].
  - rewrite (struct_iter_unpack_ok "<ii16sb12s" items);
      [| reflexivity | cbn; lia | exact Hm].
    change (calcsize items) with 37%nat. cbn [mbind result_bind].
    eapply for_each_raise.
    + eapply list_elem_of_lookup_2. apply (unpack_chunks_nth _ _ _ _ k).
      apply Nat.div_le_lower_bound; lia.
    + apply step_body_unknown_status; [| assumption | assumption].
      rewrite length_take, length_drop. lia.
  - rewrite (struct_iter_unpack_partial "<ii16sb12s" items); [| reflexivity | exact Hm].
    eexists. reflexivity.
Qed.

(** C6. A legacy main record whose range code has no entry in the
    multiplier table, or whose status byte has no entry in the state
    table, is not decoded: the decoder raises [KeyError], no default
    multiplier is substituted, and a record that is decoded carries the
    state the table gives for its status byte and the multiplier the table
    gives for its range code. A fixed-block step record (a sub-record with
    a non-zero step index; one with step index zero is padding, not a
    record) whose status byte has no entry in the state table makes the
    step reader fail. *)
Theorem missing_table_entry_raises :
  (forall bytes, length bytes = 94%nat ->
     multiplier_dict !! i_at 82 4 bytes = None
     \/ state_dict !! u_at 17 1 bytes = None ->
     _bytes_to_list_ndc bytes = Raise KeyError)
  /\ (forall bytes r, length bytes = 94%nat ->
        _bytes_to_list_ndc bytes = Ok r ->
        state_dict !! u_at 17 1 bytes = Some (rec_Status r)
        /\ exists m, multiplier_dict !! i_at 82 4 bytes = Some m
                     /\ rec_Current r = py_int_mul (i_at 35 4 bytes) m)
  /\ (forall file block k,
        block ∈ blocks_from file header ->
        ((k + 1) * 37 <= length (py_slice 132 (-5) block))%nat ->
        i_at 4 4 (take 37 (drop (k * 37) (py_slice 132 (-5) block))) <> 0 ->
        state_dict !! i_at 24 1 (take 37 (drop (k * 37) (py_slice 132 (-5) block)))
          = None ->
        exists e, read_data_step_ndc8 file = Raise e).
Proof.
  split; [| split].
  - intros bytes Hlen Hmiss. rewrite bytes_to_list_ndc_unfold by lia.
    unfold dict_get.
    destruct (multiplier_dict !! _) as [m |] eqn:Hm; [| reflexivity].
    destruct Hmiss as [Hmiss | Hmiss]; [discriminate |].
    rewrite Hmiss. reflexivity.
  - intros bytes r Hlen. rewrite bytes_to_list_ndc_unfold by lia.
    unfold dict_get, py_datetime.
    destruct (multiplier_dict !! _) as [m |]; cbn [mbind result_bind]; [| discriminate].
    destruct (state_dict !! _) as [st |]; cbn [mbind result_bind]; [| discriminate].
    destruct (valid_date _ _ _ _ _ _); cbn [mbind result_bind mret result_ret];
      [| discriminate].
    intros [= <-]. split; [reflexivity |]. exists m. split; reflexivity.
  - intros file block k Hb Hk Hsi Hst.
    rewrite read_data_step_ndc8_blocks.
    destruct (Nat.leb_spec header (length file)) as [Hh | Hh].
    + destruct (step_rows_unknown_status block k Hk Hsi Hst) as [e He].
      destruct (for_each_raise _ step_rows block e Hb He) as [e' ->].
      eexists. reflexivity.
    + rewrite blocks_from_done in Hb by lia. inversion Hb.
Qed.

End MissingEntries.

Section MissingEntriesSample.
Import Binary64 Sample.

(** Padding is not a record: the block of [padding_step_file] holds only
    sub-records with step index 0, which the step reader drops before any
    lookup, and the reader returns the empty table. *)
Lemma padding_status_not_looked_up :
  (exists block,
     block ∈ blocks_from padding_step_file header
     /\ (37 <= length (py_slice 132 (-5) block))%nat
     /\ state_dict (F := spec_float) (State := string)
          !! i_at 24 1 (take 37 (py_slice 132 (-5) block)) = None)
  /\ read_data_step_ndc8 (State := string) padding_step_file = Ok [].
Proof.
  split.
  - exists (zeros 4096). split; [| split].
    + vm_compute. left.
    + vm_compute. lia.
    + vm_compute. reflexivity.
  - vm_compute. reflexivity.
Qed.

End MissingEntriesSample.

(** ** Assembling the legacy main table *)

Lemma StronglySorted_lt_NoDup (xs : list Z) : StronglySorted Z.lt xs -> NoDup xs.
Proof.
  induction 1 as [| x xs Hs IH Hall]; constructor; [| exact IH].
  intros Hx. rewrite Forall_forall in Hall. specialize (Hall x Hx). lia.
Qed.

Section AssembleFacts.
Context {F State : Type} `{PyFloat F} `{Dicts F State}.

Local Abbreviation row_Index := (fun lr : nat * MainRecord F State => rec_Index lr.2).

Lemma drop_duplicates_from_elem (seen : gset Z) (df : MainFrame F State) (lr : nat * MainRecord F State) :
  lr ∈ drop_duplicates_from seen df -> lr ∈ df /\ rec_Index lr.2 ∉ seen.
Proof.
  revert seen. induction df as [| [l r] df IH]; intros seen Hin; cbn in Hin.
  - inversion Hin.
  - case_bool_decide as Hs.
    + apply IH in Hin as [Hin Hn]. split; [right; exact Hin | exact Hn].
    + apply elem_of_cons in Hin as [-> | Hin].
      * split; [left | exact Hs].
      * apply IH in Hin as [Hin Hn]. split; [right; exact Hin | set_solver].
Qed.

Lemma drop_duplicates_from_NoDup (seen : gset Z) (df : MainFrame F State) :
  NoDup (row_Index <$> drop_duplicates_from seen df).
Proof.
  revert seen. induction df as [| [l r] df IH]; intros seen; cbn.
  - constructor.
  - case_bool_decide as Hs; [apply IH |].
    cbn. constructor; [| apply IH].
    intros Hin. apply list_elem_of_fmap in Hin as (lr & Heq & Hin).
    apply drop_duplicates_from_elem in Hin as [_ Hn]. cbn in Heq. set_solver.
Qed.

Lemma drop_duplicates_from_sublist (seen : gset Z) (df : MainFrame F State) :
  sublist (drop_duplicates_from seen df) df.
Proof.
  revert seen. induction df as [| [l r] df IH]; intros seen; cbn.
  - constructor.
  - case_bool_decide; [apply sublist_cons | apply sublist_skip]; apply IH.
Qed.

(** Every Index outside [seen] that occurs in the table survives. *)
Lemma drop_duplicates_from_complete (seen : gset Z) (df : MainFrame F State) (x : Z) :
  x ∈ row_Index <$> df -> x ∉ seen ->
  x ∈ row_Index <$> drop_duplicates_from seen df.
Proof.
  revert seen. induction df as [| [l r] df IH]; intros seen Hin Hn; cbn in *.
  - inversion Hin.
  - case_bool_decide as Hs.
    + apply elem_of_cons in Hin as [-> | Hin]; [contradiction |].
      apply IH; assumption.
    + cbn. destruct (decide (x = rec_Index r)) as [-> | Hne]; [left |].
      right. apply elem_of_cons in Hin as [-> | Hin]; [contradiction |].
      apply IH; [assumption | set_solver].
Qed.

(** A kept row is the first row of the table with its Index: the rows
    before it carry other Index values (or values already seen). *)
Lemma drop_duplicates_from_first (seen : gset Z) (df : MainFrame F State)
    (lr : nat * MainRecord F State) :
  lr ∈ drop_duplicates_from seen df ->
  exists i, df !! i = Some lr
            /\ forall j lr', (j < i)%nat -> df !! j = Some lr' ->
                 rec_Index lr'.2 <> rec_Index lr.2.
Proof.
  revert seen. induction df as [| [l r] df IH]; intros seen Hin; cbn in Hin.
  - inversion Hin.
  - case_bool_decide as Hs.
    + pose proof Hin as Hin'. apply IH in Hin as (i & Hi & Hfirst).
      exists (S i). split; [exact Hi |].
      intros [| j] lr' Hj Hlr'; cbn in Hlr'.
      * injection Hlr' as <-. cbn.
        apply drop_duplicates_from_elem in Hin' as [_ Hn]. congruence.
      * apply (Hfirst j); [lia | exact Hlr'].
    + apply elem_of_cons in Hin as [-> | Hin].
      * exists 0%nat. split; [reflexivity |]. intros j lr' Hj. lia.
      * pose proof Hin as Hin'. apply IH in Hin as (i & Hi & Hfirst).
        exists (S i). split; [exact Hi |].
        intros [| j] lr' Hj Hlr'; cbn in Hlr'.
        -- injection Hlr' as <-. cbn.
           apply drop_duplicates_from_elem in Hin' as [_ Hn]. set_solver.
        -- apply (Hfirst j); [lia | exact Hlr'].
Qed.

Lemma is_monotonic_increasing_Sorted (xs : list Z) :
  is_monotonic_increasing xs = true -> Sorted Z.le xs.
Proof.
  induction xs as [| x [| y xs] IH]; intros Hm.
  - constructor.
  - repeat constructor.
  - cbn [is_monotonic_increasing] in Hm. apply andb_prop in Hm as [Hxy Hm].
    constructor; [apply IH; exact Hm |]. constructor. lia.
Qed.

Lemma StronglySorted_le_NoDup_lt (xs : list Z) :
  StronglySorted Z.le xs -> NoDup xs -> StronglySorted Z.lt xs.
Proof.
  induction 1 as [| x xs Hs IH Hall]; intros Hnd; [constructor |].
  apply NoDup_cons in Hnd as [Hx Hnd]. constructor; [apply IH; exact Hnd |].
  rewrite Forall_forall in *. intros y Hy.
  assert (x <> y) by (intros ->; contradiction). specialize (Hall y Hy). lia.
Qed.

#[local] Instance Index_le_trans : Transitive (Index_le (F := F) (State := State)).
Proof. intros a b c. unfold Index_le. lia. Qed.

#[local] Instance Index_le_total : Total (Index_le (F := F) (State := State)).
Proof. intros a b. unfold Index_le. lia. Qed.

Lemma StronglySorted_fmap_inv {A} (f : A -> Z) (l : list A) :
  StronglySorted Z.lt (f <$> l) -> StronglySorted (fun a b => f a < f b) l.
Proof.
  induction l as [| a l IH]; cbn; intros Hs; [constructor |].
  apply StronglySorted_inv in Hs as [Hs Hall].
  constructor; [apply IH; exact Hs |].
  rewrite Forall_fmap in Hall. exact Hall.
Qed.

Lemma drop_duplicates_from_id (seen : gset Z) (df : MainFrame F State) :
  NoDup (row_Index <$> df) ->
  (forall x, x ∈ row_Index <$> df -> x ∉ seen) ->
  drop_duplicates_from seen df = df.
Proof.
  revert seen. induction df as [| [l r] df IH]; intros seen Hnd Hseen; cbn.
  - reflexivity.
  - cbn in Hnd. apply NoDup_cons in Hnd as [Hr Hnd].
    case_bool_decide as Hs.
    + exfalso. apply (Hseen (rec_Index r)); [left | exact Hs].
    + f_equal. apply IH; [exact Hnd |].
      intros x Hx. specialize (Hseen x (list_elem_of_further _ _ _ Hx)).
      assert (x <> rec_Index r) by (intros ->; contradiction).
      set_solver.
Qed.

Lemma main_DataFrame_rows (output : list (MainRecord F State)) :
  snd <$> main_DataFrame output = output.
Proof.
  unfold main_DataFrame. apply list_eq. intros i.
  rewrite list_lookup_fmap, list_lookup_imap.
  destruct (output !! i); reflexivity.
Qed.

Lemma sort_values_sorted (df : MainFrame F State) :
  NoDup (row_Index <$> df) ->
  StronglySorted Z.lt (row_Index <$> sort_values df).
Proof.
  intros Hnd. apply StronglySorted_le_NoDup_lt.
  - apply (StronglySorted_fmap row_Index Index_le Z.le).
    + intros a b Hab. exact Hab.
    + apply StronglySorted_merge_sort; apply _.
  - unfold sort_values. rewrite merge_sort_Permutation. exact Hnd.
Qed.

Lemma reset_index_rows (df : MainFrame F State) :
  snd <$> reset_index df = snd <$> df.
Proof.
  unfold reset_index. apply list_eq. intros i.
  rewrite !list_lookup_fmap, list_lookup_imap.
  destruct (df !! i); reflexivity.
Qed.

Lemma reset_index_labels (df : MainFrame F State) :
  fst <$> reset_index df = seq 0 (length (reset_index df)).
Proof.
  unfold reset_index. rewrite length_imap. apply list_eq. intros i.
  rewrite list_lookup_fmap, list_lookup_imap.
  destruct (df !! i) as [lr |] eqn:Hi; cbn.
  - apply lookup_lt_Some in Hi. rewrite lookup_seq_lt by lia. reflexivity.
  - apply lookup_ge_None in Hi. rewrite lookup_seq_ge by lia. reflexivity.
Qed.

Lemma row_Index_snd (df : MainFrame F State) :
  row_Index <$> df = rec_Index <$> (snd <$> df).
Proof. rewrite <- list_fmap_compose. reflexivity. Qed.

Lemma main_DataFrame_lookup (output : list (MainRecord F State)) (i : nat)
    (lr : nat * MainRecord F State) :
  main_DataFrame output !! i = Some lr -> output !! i = Some lr.2.
Proof.
  unfold main_DataFrame. rewrite list_lookup_imap.
  destruct (output !! i); cbn; [| discriminate]. intros [= <-]. reflexivity.
Qed.

(** The rows of the assembled table, whatever branch is taken, are the
    rows kept by [drop_duplicates] up to order. *)
Lemma assemble_main_rows (output : list (MainRecord F State)) :
  snd <$> assemble_main output
  ≡ₚ snd <$> drop_duplicates (main_DataFrame output).
Proof.
  unfold assemble_main. cbv zeta. rewrite reset_index_rows.
  destruct (is_monotonic_increasing _); [reflexivity |].
  unfold sort_values. rewrite merge_sort_Permutation. reflexivity.
Qed.

(** The Index column of the assembled table is strictly increasing. *)
Lemma assemble_main_sorted (output : list (MainRecord F State)) :
  StronglySorted Z.lt (row_Index <$> assemble_main output).
Proof.
  set (dd := drop_duplicates (main_DataFrame output)).
  assert (Hnd : NoDup (row_Index <$> dd)) by apply drop_duplicates_from_NoDup.
  unfold assemble_main. cbv zeta. fold dd.
  rewrite row_Index_snd, reset_index_rows, <- row_Index_snd.
  destruct (is_monotonic_increasing _) eqn:Hm.
  - apply StronglySorted_le_NoDup_lt; [| exact Hnd].
    apply Sorted_StronglySorted; [apply _ |].
    apply is_monotonic_increasing_Sorted. exact Hm.
  - apply sort_values_sorted. exact Hnd.
Qed.

(** C5. The assembled legacy main table has unique, strictly increasing
    Index values: of the rows of the scan with the same Index only the
    first is kept, no Index of the scan is lost, the rows are in ascending
    order of Index (in scan order when that is already ascending), and the
    rows are renumbered 0, 1, 2, ... The assembly is a total function: no
    error is raised. *)
Theorem assemble_main_index (output : list (MainRecord F State)) :
  let df := assemble_main output in
  StronglySorted Z.lt (row_Index <$> df)
  /\ NoDup (row_Index <$> df)
  /\ (forall lr, lr ∈ df ->
        exists i, output !! i = Some lr.2
          /\ forall j r', (j < i)%nat -> output !! j = Some r' ->
                rec_Index r' <> rec_Index lr.2)
  /\ (forall r, r ∈ output -> rec_Index r ∈ row_Index <$> df)
  /\ fst <$> df = seq 0 (length df)
  /\ (StronglySorted Z.lt (rec_Index <$> output) -> snd <$> df = output).
Proof.
  cbv zeta.
  set (dd := drop_duplicates (main_DataFrame output)).
  assert (Hnd : NoDup (row_Index <$> dd)) by apply drop_duplicates_from_NoDup.
  assert (Hperm : snd <$> assemble_main output ≡ₚ snd <$> dd)
    by apply assemble_main_rows.
  assert (Hsorted : StronglySorted Z.lt (row_Index <$> assemble_main output))
    by apply assemble_main_sorted.
  split; [exact Hsorted |].
  split.
  { rewrite row_Index_snd, Hperm, <- row_Index_snd. exact Hnd. }
  split.
  { intros lr Hlr.
    assert (Hin : lr.2 ∈ snd <$> dd).
    { rewrite <- Hperm. apply list_elem_of_fmap. exists lr. split; [reflexivity | exact Hlr]. }
    apply list_elem_of_fmap in Hin as (lr0 & Heq & Hin).
    apply drop_duplicates_from_first in Hin as (i & Hi & Hfirst).
    exists i. rewrite Heq. split; [apply main_DataFrame_lookup; exact Hi |].
    intros j r' Hj Hr'.
    apply (Hfirst j (j, r') Hj).
    unfold main_DataFrame. rewrite list_lookup_imap, Hr'. reflexivity. }
  split.
  { intros r Hr. rewrite row_Index_snd, Hperm, <- row_Index_snd.
    apply drop_duplicates_from_complete; [| set_solver].
    apply list_elem_of_lookup in Hr as [i Hi].
    apply list_elem_of_fmap. exists (i, r). split; [reflexivity |].
    apply list_elem_of_lookup. exists i.
    unfold main_DataFrame. rewrite list_lookup_imap, Hi. reflexivity. }
  split; [apply reset_index_labels |].
  intros Hout.
  apply (StronglySorted_unique_strong (fun a b => rec_Index a < rec_Index b)).
  - intros a b Ha Hb Hab Hba. lia.
  - apply StronglySorted_fmap_inv. rewrite <- row_Index_snd. exact Hsorted.
  - apply StronglySorted_fmap_inv. exact Hout.
  - rewrite Hperm. unfold dd, drop_duplicates.
    rewrite drop_duplicates_from_id.
    + rewrite main_DataFrame_rows. reflexivity.
    + rewrite row_Index_snd, main_DataFrame_rows.
      apply StronglySorted_lt_NoDup. exact Hout.
    + intros x _. set_solver.
Qed.

End AssembleFacts.

(** ** The legacy scan *)

Lemma py_slice_take_drop {A} (a b : Z) (l : list A) :
  0 <= a <= b ->
  py_slice a b l = take (Z.to_nat (b - a)) (drop (Z.to_nat a) l).
Proof.
  intros Hab. unfold py_slice, clamp_index. cbv zeta.
  destruct (Z.ltb_spec a 0); [lia |].
  destruct (Z.ltb_spec b 0); [lia |].
  destruct (Z.le_gt_cases (Z.of_nat (length l)) a) as [Hla | Hla].
  - rewrite (drop_ge l (Z.to_nat a)) by lia.
    rewrite drop_ge by lia. rewrite !take_nil. reflexivity.
  - destruct (Z.le_gt_cases b (Z.of_nat (length l))) as [Hlb | Hlb].
    + rewrite !Z.max_r, !Z.min_r by lia. reflexivity.
    + rewrite (Z.min_l _ b), (Z.min_r _ a), !Z.max_r by lia.
      rewrite !take_ge; [reflexivity | |]; rewrite length_drop; lia.
Qed.

Lemma find_in_Some (needle hay : list byte) (pos q : nat) :
  find_in needle hay pos = Some q ->
  (pos <= q)%nat /\ take (length needle) (drop (q - pos) hay) = needle.
Proof.
  revert pos. induction hay as [| b hay IH]; intros pos Hf; cbn [find_in] in Hf.
  - case_bool_decide as Hp; [| discriminate]. injection Hf as <-.
    rewrite Nat.sub_diag. split; [lia | exact Hp].
  - case_bool_decide as Hp.
    + injection Hf as <-. rewrite Nat.sub_diag. split; [lia | exact Hp].
    + apply IH in Hf as [Hle Ht]. split; [lia |].
      replace (q - pos)%nat with (S (q - S pos)) by lia. exact Ht.
Qed.

Lemma mmap_find_Some (mm needle : list byte) (start q : nat) :
  mmap_find mm needle start = Some q ->
  (Nat.min start (length mm) <= q)%nat
  /\ take (length needle) (drop q mm) = needle.
Proof.
  unfold mmap_find. cbv zeta. intros Hf. apply find_in_Some in Hf as [Hle Ht].
  rewrite drop_drop in Ht.
  replace (Nat.min start (length mm) + (q - Nat.min start (length mm)))%nat
    with q in Ht by lia.
  split; assumption.
Qed.

(** A non-empty needle is found inside the map, at or after [start]. *)
Lemma mmap_find_Some_nonempty (mm needle : list byte) (start q : nat) :
  needle <> [] ->
  mmap_find mm needle start = Some q ->
  (start <= q)%nat /\ (q + length needle <= length mm)%nat
  /\ take (length needle) (drop q mm) = needle.
Proof.
  intros Hne Hf. apply mmap_find_Some in Hf as [Hle Ht].
  assert (Hlen : (q + length needle <= length mm)%nat).
  { apply (f_equal length) in Ht. rewrite length_take, length_drop in Ht.
    destruct needle; [contradiction |]. cbn [length] in *. lia. }
  assert (0 < length needle)%nat by (destruct needle; [contradiction | cbn; lia]).
  repeat split; [lia | exact Hlen | exact Ht].
Qed.

Lemma identifier_eq (mm : list byte) : py_slice 517 525 mm = take 8 (drop 517 mm).
Proof. rewrite py_slice_take_drop by lia. reflexivity. Qed.

Lemma first_byte_eq (l : list byte) : py_slice 0 1 l = take 1 l.
Proof. rewrite py_slice_take_drop by lia. reflexivity. Qed.

Lemma identifier_nonempty (mm : list byte) :
  (517 < length mm)%nat <-> py_slice 517 525 mm <> [].
Proof.
  rewrite identifier_eq. split.
  - intros Hl Hnil.
    assert (Hz : length (take 8 (drop 517 mm)) = 0%nat) by (rewrite Hnil; reflexivity).
    rewrite length_take, length_drop in Hz. lia.
  - intros Hne. destruct (Nat.le_gt_cases (length mm) 517) as [Hle | Hgt]; [| exact Hgt].
    exfalso. apply Hne. rewrite drop_ge by lia. reflexivity.
Qed.

Lemma scanned_first_byte (mm : list byte) (p : nat) :
  scanned mm p -> take 1 (drop p mm) = take 1 (drop 517 mm).
Proof.
  induction 1 as [| p q Hp IH Hfind]; [reflexivity |].
  destruct (Nat.le_gt_cases (length mm) 517) as [Hshort | Hlong].
  - (* the identifier is empty and is found at the end of the map *)
    apply mmap_find_Some in Hfind as [Hle _].
    assert (517 <= p \/ length mm <= p)%nat as Hp'.
    { clear -Hp Hshort. induction Hp as [| p q Hp IH Hfind]; [lia |].
      apply mmap_find_Some in Hfind as [Hle _]. lia. }
    rewrite !drop_ge by lia. reflexivity.
  - apply identifier_nonempty in Hlong as Hne.
    apply (mmap_find_Some_nonempty _ _ _ _ Hne) in Hfind as (Hle & Hlen & Ht).
    rewrite identifier_eq in Ht.
    assert (Hid : (1 <= length (take 8 (drop 517 mm)))%nat).
    { rewrite length_take, length_drop. lia. }
    transitivity (take 1 (take (length (take 8 (drop 517 mm))) (drop q mm))).
    + rewrite take_take. f_equal. lia.
    + rewrite Ht, take_take. reflexivity.
Qed.

(** Every scanned record starts with the first byte of the identifier. *)
Lemma scanned_type_byte (mm : list byte) (p : nat) :
  scanned mm p -> type_byte mm p = py_slice 0 1 (py_slice 517 525 mm).
Proof.
  intros Hs. apply scanned_first_byte in Hs as Hb.
  unfold type_byte, mmap_read. rewrite identifier_eq, !first_byte_eq, !take_take.
  exact Hb.
Qed.

Section LegacyScan.
Context {F State : Type} `{PyFloat F} `{Dicts F State}.

Ltac bind_cases :=
  repeat match goal with
  | |- context [mbind ?g (struct_unpack ?f ?b)] =>
      destruct (mbind g (struct_unpack f b)) as [? | ?];
      cbn [mbind result_bind]; [| discriminate]
  | p : (_ * _)%type |- _ => destruct p
  end.

Lemma aux_65_length (bytes : list byte) (a : list (pynum F)) :
  _aux_bytes_65_to_list_ndc bytes = Ok a -> length a = 4%nat.
Proof.
  unfold _aux_bytes_65_to_list_ndc.
  bind_cases. cbn [mret result_ret]. intros [= <-]. reflexivity.
Qed.

Lemma aux_74_length (bytes : list byte) (a : list (pynum F)) :
  _aux_bytes_74_to_list_ndc bytes = Ok a -> length a = 5%nat.
Proof.
  unfold _aux_bytes_74_to_list_ndc.
  bind_cases. cbn [mret result_ret]. intros [= <-]. reflexivity.
Qed.

Lemma read_ndc_record_aux (tb bytes : list byte)
    (output output' : list (MainRecord F State)) (aux aux' : list (list (pynum F))) :
  py_slice 0 1 bytes = tb -> aux_inv tb aux ->
  read_ndc_record bytes output aux = Ok (output', aux') ->
  aux_inv tb aux' /\ (tb = ["e"%byte] \/ tb = ["t"%byte] -> aux' <> []).
Proof.
  intros Htb (H65 & H74 & Hno). unfold read_ndc_record. rewrite Htb.
  case_bool_decide as HU; [| case_bool_decide as He; [| case_bool_decide as Ht]].
  - destruct (_bytes_to_list_ndc bytes) as [r |];
      cbn [mbind result_bind]; [| discriminate].
    unfold mret, result_ret. intros [= <- <-].
    split; [| intros [Hb | Hb]; rewrite HU in Hb; discriminate].
    split; [intros Hb; rewrite HU in Hb; discriminate |].
    split; [intros Hb; rewrite HU in Hb; discriminate |].
    intros _ _. apply Hno; rewrite HU; discriminate.
  - destruct (_aux_bytes_65_to_list_ndc bytes) as [a |] eqn:Ha;
      cbn [mbind result_bind]; [| discriminate].
    unfold mret, result_ret. intros [= <- <-]. split; [| intros _; destruct aux; discriminate].
    repeat split; try congruence.
    intros Hb. apply Forall_app. split; [apply H65; exact Hb |].
    repeat constructor. eapply aux_65_length. exact Ha.
  - destruct (_aux_bytes_74_to_list_ndc bytes) as [a |] eqn:Ha;
      cbn [mbind result_bind]; [| discriminate].
    unfold mret, result_ret. intros [= <- <-]. split; [| intros _; destruct aux; discriminate].
    repeat split; try congruence.
    intros Hb. apply Forall_app. split; [apply H74; exact Hb |].
    repeat constructor. eapply aux_74_length. exact Ha.
  - unfold mret, result_ret. intros [= <- <-].
    split; [| intros [? | ?]; contradiction].
    repeat split; assumption.
Qed.

Lemma read_ndc_loop_aux (mm : list byte) (fuel pos : nat)
    (output output' : list (MainRecord F State)) (aux aux' : list (list (pynum F))) :
  let tb := py_slice 0 1 (py_slice 517 525 mm) in
  scanned mm pos -> aux_inv tb aux ->
  read_ndc_loop fuel mm (py_slice 517 525 mm) (Some pos) output aux
    = Ok (output', aux') ->
  aux_inv tb aux' /\ (tb = ["e"%byte] \/ tb = ["t"%byte] -> aux' <> []).
Proof.
  cbv zeta. revert pos output aux.
  induction fuel as [| fuel IH]; intros pos output aux Hs Hinv Hloop;
    cbn [read_ndc_loop] in Hloop; [discriminate |].
  unfold mmap_seek in Hloop.
  destruct (pos <=? length mm)%nat; cbn [mbind result_bind] in Hloop; [| discriminate].
  destruct (read_ndc_record _ output aux) as [[o1 a1] |] eqn:Hrec;
    cbn [mbind result_bind] in Hloop; [| discriminate].
  apply (read_ndc_record_aux (py_slice 0 1 (py_slice 517 525 mm))) in Hrec
    as [Hinv1 Hne1]; [| apply (scanned_type_byte mm pos Hs) | exact Hinv].
  destruct (mmap_find mm _ (pos + 94)) as [q |] eqn:Hfind.
  - apply (IH q o1 a1); [| exact Hinv1 | exact Hloop].
    eapply scanned_next; eassumption.
  - destruct fuel; cbn [read_ndc_loop] in Hloop; injection Hloop as <- <-;
      split; assumption.
Qed.

Lemma fuel_safe_bind {A B} (m : result A) (f : A -> result B) :
  fuel_safe m -> (forall a, fuel_safe (f a)) -> fuel_safe (m ≫= f).
Proof.
  unfold fuel_safe. intros Hm Hf. destruct m as [a | e]; cbn; [apply Hf |].
  intros [= ->]. contradiction.
Qed.

Lemma fuel_safe_struct_unpack (fmt : string) (buf : list byte) :
  fuel_safe (struct_unpack (F := F) fmt buf).
Proof.
  unfold fuel_safe, struct_unpack. destruct (parse_format fmt); [| discriminate].
  destruct (_ =? _)%nat; discriminate.
Qed.

Lemma fuel_safe_ints1 (vs : list (pyval F)) : fuel_safe (ints1 vs).
Proof. unfold fuel_safe. destruct vs as [| [] [| ]]; discriminate. Qed.

Lemma fuel_safe_ints2 (vs : list (pyval F)) : fuel_safe (ints2 vs).
Proof. unfold fuel_safe. destruct vs as [| [] [| [] [| ]]]; discriminate. Qed.

Lemma fuel_safe_ints6 (vs : list (pyval F)) : fuel_safe (ints6 vs).
Proof.
  unfold fuel_safe.
  destruct vs as [| [] [| [] [| [] [| [] [| [] [| [] [| ]]]]]]]; discriminate.
Qed.

Lemma fuel_safe_dict_get {V} (d : gmap Z V) (k : Z) : fuel_safe (dict_get d k).
Proof. unfold fuel_safe, dict_get. destruct (d !! k); discriminate. Qed.

Lemma fuel_safe_py_datetime (Y M D h m s : Z) : fuel_safe (py_datetime Y M D h m s).
Proof. unfold fuel_safe, py_datetime. destruct (valid_date _ _ _ _ _ _); discriminate. Qed.

Ltac fuel_safe_step :=
  first
    [ apply fuel_safe_struct_unpack | apply fuel_safe_ints1 | apply fuel_safe_ints2
    | apply fuel_safe_ints6 | apply fuel_safe_dict_get | apply fuel_safe_py_datetime
    | apply fuel_safe_bind; [| intros; repeat case_match ]
    | discriminate ].

Lemma fuel_safe_read_ndc_record (bytes : list byte)
    (output : list (MainRecord F State)) (aux : list (list (pynum F))) :
  fuel_safe (read_ndc_record bytes output aux).
Proof.
  unfold read_ndc_record, _bytes_to_list_ndc, _aux_bytes_65_to_list_ndc,
    _aux_bytes_74_to_list_ndc.
  repeat case_bool_decide; repeat fuel_safe_step.
Qed.

(** With a non-empty identifier every search advances by a record length
    at least, and the loop does not run out of the fuel it is given by
    [read_ndc]. *)
Lemma read_ndc_loop_fuel (mm identifier : list byte) (fuel pos : nat)
    (output : list (MainRecord F State)) (aux : list (list (pynum F))) :
  identifier <> [] ->
  (length mm - pos < fuel)%nat ->
  fuel_safe (read_ndc_loop fuel mm identifier (Some pos) output aux).
Proof.
  intros Hne. revert pos output aux.
  induction fuel as [| fuel IH]; intros pos output aux Hfuel; [lia |].
  cbn [read_ndc_loop]. unfold mmap_seek.
  destruct (Nat.leb_spec pos (length mm)); cbn [mbind result_bind]; [| discriminate].
  apply fuel_safe_bind; [apply fuel_safe_read_ndc_record |].
  intros [o1 a1].
  destruct (mmap_find mm identifier (pos + 94)) as [q |] eqn:Hfind.
  - apply IH.
    apply (mmap_find_Some_nonempty _ _ _ _ Hne) in Hfind as (Hle & Hlen & _). lia.
  - destruct fuel; discriminate.
Qed.

(** On a file of exactly 517 bytes the identifier is empty, the search for
    it returns position 517 again, and the loop never ends: it runs out of
    any amount of fuel. *)
Lemma read_ndc_loop_diverges (mm : list byte) (fuel : nat)
    (output : list (MainRecord F State)) (aux : list (list (pynum F))) :
  length mm = 517%nat ->
  read_ndc_loop fuel mm (py_slice 517 525 mm) (Some 517%nat) output aux
  = Raise FuelExhausted.
Proof.
  intros Hlen. rewrite identifier_eq, drop_ge by lia. cbn [take].
  induction fuel as [| fuel IH]; [reflexivity |].
  cbn [read_ndc_loop]. unfold mmap_seek. rewrite Hlen. cbn [Nat.leb mbind result_bind].
  unfold mmap_read. rewrite drop_ge by lia.
  unfold read_ndc_record. cbn [take].
  assert (Hty : py_slice 0 1 (@nil byte) = []) by reflexivity. rewrite Hty.
  rewrite !bool_decide_eq_false_2 by discriminate.
  unfold mret, result_ret. cbn [mbind result_bind].
  assert (Hfind : mmap_find mm [] (517 + 94) = Some 517%nat).
  { unfold mmap_find. cbv zeta. rewrite Hlen.
    change (Nat.min (517 + 94) 517) with 517%nat.
    rewrite drop_ge by lia. reflexivity. }
  rewrite Hfind. exact IH.
Qed.

Lemma pd_DataFrame_uniform {A} (data : list (list A)) (columns : list string) :
  data <> [] -> Forall (fun row => length row = length columns) data ->
  exists rows,
    pd_DataFrame data columns = Ok (mk_DataFrame columns rows)
    /\ rows <> []
    /\ Forall (fun row => length row = length columns) rows.
Proof.
  intros Hne Hall. unfold pd_DataFrame.
  destruct data as [| row0 data]; [contradiction |].
  set (rows := row0 :: data) in *. cbv zeta.
  assert (Hw : foldr (fun row w => Nat.max (length row) w) 0%nat rows = length columns).
  { clearbody rows. induction Hall as [| row rest Hrow Hrest IH].
    - contradiction.
    - cbn [foldr]. destruct rest as [| row1 rest].
      + cbn [foldr]. rewrite Nat.max_0_r. exact Hrow.
      + rewrite IH by discriminate. rewrite Hrow. apply Nat.max_id. }
  rewrite Hw, Nat.eqb_refl. eexists. split; [reflexivity |].
  split; [unfold rows; discriminate |].
  apply Forall_fmap. eapply Forall_impl; [exact Hall |].
  intros row Hrow. cbn in Hrow |- *.
  rewrite length_app, length_fmap, length_replicate. lia.
Qed.

(** C8. The column set of the auxiliary table returned by [read_ndc] is
    determined by the auxiliary variant observed among the scanned records:
    with a variant-A (0x65) record the columns are Index, Aux, V, T; with a
    variant-B (0x74) record there is the additional column t; when no
    scanned record is an auxiliary record, the auxiliary table is the empty
    table. (All scanned records carry the type byte of the first one, since
    each is found by searching for the identifier, the first 8 bytes of the
    first record.) *)
Theorem read_ndc_aux_columns (file : list byte)
    (df : MainFrame F State) (aux_df : DataFrame (pynum F)) :
  read_ndc file = Ok (df, aux_df) ->
  ((exists p, scanned file p /\ type_byte file p = ["e"%byte]) ->
     df_columns aux_df = ["Index"; "Aux"; "V"; "T"]%string
     /\ df_rows aux_df <> []
     /\ Forall (fun row => length row = 4%nat) (df_rows aux_df))
  /\ ((exists p, scanned file p /\ type_byte file p = ["t"%byte]) ->
      df_columns aux_df = ["Index"; "Aux"; "V"; "T"; "t"]%string
      /\ df_rows aux_df <> []
      /\ Forall (fun row => length row = 5%nat) (df_rows aux_df))
  /\ ((forall p, scanned file p ->
         type_byte file p <> ["e"%byte] /\ type_byte file p <> ["t"%byte]) ->
      aux_df = empty_DataFrame).
Proof.
  unfold read_ndc, mmap_open.
  destruct file as [| b0 file0]; [discriminate |].
  set (file := b0 :: file0). cbn [mbind result_bind].
  set (tb := py_slice 0 1 (py_slice 517 525 file)).
  destruct (read_ndc_loop _ file _ _ [] []) as [[output aux] |] eqn:Hloop;
    cbn [mbind result_bind]; [| discriminate].
  apply read_ndc_loop_aux in Hloop as [(H65 & H74 & Hno) Hne];
    [| apply scanned_first
     | split; [intros _; constructor
              | split; [intros _; constructor | intros _ _; reflexivity]]].
  fold tb in H65, H74, Hno, Hne.
  assert (Htype : forall p, scanned file p -> type_byte file p = tb).
  { intros p Hp. apply (scanned_type_byte file p Hp). }
  intros Hres.
  split; [| split].
  - intros (p & Hp & Hty). rewrite (Htype p Hp) in Hty.
    rewrite Hty in Hres. rewrite bool_decide_eq_true_2 in Hres by reflexivity.
    destruct (pd_DataFrame_uniform aux ["Index"; "Aux"; "V"; "T"]%string)
      as (rows & Hdf & Hrows & Hall); [auto | auto |].
    rewrite Hdf in Hres. cbn in Hres. injection Hres as _ <-. cbn.
    repeat split; assumption.
  - intros (p & Hp & Hty). rewrite (Htype p Hp) in Hty.
    rewrite Hty in Hres. rewrite bool_decide_eq_false_2 in Hres by discriminate.
    rewrite bool_decide_eq_true_2 in Hres by reflexivity.
    destruct (pd_DataFrame_uniform aux ["Index"; "Aux"; "V"; "T"; "t"]%string)
      as (rows & Hdf & Hrows & Hall); [auto | auto |].
    rewrite Hdf in Hres. cbn in Hres. injection Hres as _ <-. cbn.
    repeat split; assumption.
  - intros Hnone. destruct (Hnone 517%nat (scanned_first file)) as [Hne65 Hne74].
    rewrite (Htype _ (scanned_first file)) in Hne65, Hne74.
    rewrite !bool_decide_eq_false_2 in Hres by assumption.
    cbn in Hres. injection Hres as _ <-. reflexivity.
Qed.

(** [read_ndc] returns or raises on every file that does not have exactly
    517 bytes. *)
Lemma read_ndc_fuel_safe (file : list byte) :
  length file <> 517%nat -> fuel_safe (read_ndc file).
Proof.
  intros Hlen. unfold read_ndc, mmap_open.
  destruct file as [| b0 file0]; [discriminate |].
  set (file := b0 :: file0) in *. cbn [mbind result_bind].
  destruct (Nat.le_gt_cases (length file) 517) as [Hshort | Hlong].
  - (* seeking to 517 fails *)
    assert (Hl : length file = S (length file0)) by reflexivity.
    rewrite Hl. cbn [read_ndc_loop]. unfold mmap_seek.
    rewrite (proj2 (Nat.leb_gt _ _)) by lia. discriminate.
  - apply fuel_safe_bind.
    + apply read_ndc_loop_fuel; [apply identifier_nonempty; exact Hlong | lia].
    + intros [output aux]. apply fuel_safe_bind; [| discriminate].
      unfold pd_DataFrame. repeat case_bool_decide; try discriminate;
        destruct aux; try discriminate; cbv zeta; case_match; discriminate.
Qed.

End LegacyScan.

Section LegacySample.
Import Binary64 Sample.

Lemma read_ndc_aux_columns_witness :
  exists (df : MainFrame spec_float string) aux_df,
    read_ndc aux_file = Ok (df, aux_df)
    /\ (exists p, scanned aux_file p /\ type_byte aux_file p = ["e"%byte])
    /\ df_columns aux_df = ["Index"; "Aux"; "V"; "T"]%string
    /\ df_rows aux_df <> []
    /\ Forall (fun row => length row = 4%nat) (df_rows aux_df).
Proof.
  eexists. eexists.
  assert (Hread : read_ndc (State := string) aux_file = Ok _) by (vm_compute; reflexivity).
  split; [exact Hread |].
  assert (Hs : exists p, scanned aux_file p /\ type_byte aux_file p = ["e"%byte]).
  { exists 517%nat. split; [constructor | vm_compute; reflexivity]. }
  split; [exact Hs |].
  exact (proj1 (read_ndc_aux_columns aux_file _ _ Hread) Hs).
Defined.

End LegacySample.

Section AssembleSample.
Import Binary64 Sample.

(** Four scanned records with Index 3, 1, 3, 2 (steps 10, 20, 30, 40):
    the second record with Index 3 is dropped and the rows are sorted. *)
Example assemble_main_sample :
  let mk i s := mk_MainRecord (F := spec_float) (State := string) i 1 s "Rest"%string
                  (float_of_int 0) (float_of_int 0) (PInt 0) (float_of_int 0)
                  (float_of_int 0) (float_of_int 0) (float_of_int 0)
                  (mk_datetime 2023 1 1 0 0 0) in
  (fun lr => (lr.1, rec_Index lr.2, rec_Step lr.2))
    <$> assemble_main [mk 3 10; mk 1 20; mk 3 30; mk 2 40]
  = [(0%nat, 1, 20); (1%nat, 2, 40); (2%nat, 3, 10)].
Proof. vm_compute. reflexivity. Qed.

End AssembleSample.

(** ** Version routing *)

Lemma py_int_char_range (c : ascii) (d : Z) : py_int_char c = Ok d -> 0 <= d <= 9.
Proof.
  unfold py_int_char, digit_of_ascii. cbv zeta.
  destruct (_ && _)%bool eqn:Hd; [| discriminate].
  intros [= <-]. apply andb_prop in Hd as [H1 H2].
  apply Nat.leb_le in H1, H2. lia.
Qed.

Section Routing.
Context {F State : Type} `{PyFloat F} `{Dicts F State} `{Platform} `{AuxJoin F State}.

(** C4. The reader routes on the single format-revision character
    [server[14]]: a revision up to 7 takes the legacy path on [data.ndc],
    revision 8 takes the fixed-block path, and a higher revision (that is,
    9) raises [NotImplementedError] when only [VersionInfo.xml] has been
    extracted: no data file is extracted, let alone decoded, and nothing
    else is tried. *)
Theorem read_ndax_routing (zf : Archive) (tmpdir tmpdir' : list string)
    (version_info : list byte) (server client : string) (revision : Z) :
  zf_extract zf "VersionInfo.xml" tmpdir = (Ok version_info, tmpdir') ->
  xml_versions version_info = Ok (server, client) ->
  str_index server 14 ≫= py_int_char = Ok revision ->
  0 <= revision <= 9
  /\ tmpdir' = tmpdir ++ ["VersionInfo.xml"%string]
  /\ (revision <= 7 ->
      read_ndax zf tmpdir
      = (data_file ← zf_extract zf "data.ndc"; read_ndax_legacy zf data_file) tmpdir')
  /\ (revision = 8 ->
      read_ndax zf tmpdir
      = (data_file ← zf_extract zf "data.ndc"; read_ndax_ndc8 zf data_file) tmpdir')
  /\ (8 < revision ->
      read_ndax zf tmpdir
      = (Raise (NotImplementedError (server ++ " is not yet supported!")), tmpdir')).
Proof.
  intros Hx Hv Hr.
  assert (Hrange : 0 <= revision <= 9).
  { destruct (str_index server 14) as [c |]; [| discriminate].
    apply (py_int_char_range c). exact Hr. }
  assert (Htmp : tmpdir' = tmpdir ++ ["VersionInfo.xml"%string]).
  { unfold zf_extract in Hx. destruct (List.find _ _); congruence. }
  split; [exact Hrange |]. split; [exact Htmp |].
  assert (Hread : read_ndax zf tmpdir
    = (if 8 <? revision then
         lift (Raise (NotImplementedError (server ++ " is not yet supported!")))
       else
         data_file ← zf_extract zf "data.ndc";
         if 7 <? revision then read_ndax_ndc8 zf data_file
         else read_ndax_legacy zf data_file) tmpdir').
  { unfold read_ndax. unfold mbind at 1, io_bind at 1. rewrite Hx.
    unfold mbind at 1, io_bind at 1. unfold lift at 1. rewrite Hv.
    unfold mbind at 1, io_bind at 1. unfold lift at 1. rewrite Hr.
    reflexivity. }
  rewrite Hread. repeat split.
  - intros Hle. rewrite (proj2 (Z.ltb_ge 8 revision)) by lia.
    unfold mbind, io_bind. destruct (zf_extract zf "data.ndc" tmpdir') as [[d |] t];
      [| reflexivity].
    rewrite (proj2 (Z.ltb_ge 7 revision)) by lia. reflexivity.
  - intros ->. reflexivity.
  - intros Hgt. rewrite (proj2 (Z.ltb_lt 8 revision)) by lia. reflexivity.
Qed.

End Routing.

Section RoutingSample.
Import Binary64 Sample.

Lemma read_ndax_routing_witness :
  read_ndax (F := spec_float) (State := string) archive_rev9 []
  = (Raise (NotImplementedError
              "BTSServer(R3)-9.0.0.1(2024.01.01)(R3) is not yet supported!"),
     ["VersionInfo.xml"%string]).
Proof.
  refine (proj2 (proj2 (proj2 (proj2
    (read_ndax_routing (F := spec_float) (State := string) archive_rev9 []
       ["VersionInfo.xml"%string]
       (bytes_of_string "BTSServer(R3)-9.0.0.1(2024.01.01)(R3)")
       "BTSServer(R3)-9.0.0.1(2024.01.01)(R3)" "" 9 _ _ _)))) _).
  - reflexivity.
  - vm_compute. reflexivity.
  - reflexivity.
  - lia.
Defined.

End RoutingSample.

(** ** Forward fill and interpolation *)

Lemma length_ffill_from {A} (last : option A) (xs : list (option A)) :
  length (ffill_from last xs) = length xs.
Proof.
  revert last. induction xs as [| [x |] xs IH]; intros last; cbn;
    [| rewrite IH ..]; reflexivity.
Qed.

Lemma ffill_from_lookup {A} (last : option A) (xs : list (option A)) (k : nat) (x : option A) :
  xs !! k = Some x ->
  ffill_from last xs !! k
  = Some match x with
         | Some v => Some v
         | None => match k with
                   | O => last
                   | S k' => default None (ffill_from last xs !! k')
                   end
         end.
Proof.
  revert last k. induction xs as [| y xs IH]; intros last k Hk; [discriminate |].
  destruct k as [| k].
  - cbn in Hk. injection Hk as ->. destruct x; reflexivity.
  - simpl in Hk. destruct y as [v |]; simpl.
    + rewrite (IH (Some v) k Hk). destruct x; [reflexivity |].
      destruct k; reflexivity.
    + rewrite (IH last k Hk). destruct x; [reflexivity |].
      destruct k; reflexivity.
Qed.

Lemma ffill_forward_filled {A} (xs : list (option A)) : forward_filled xs (ffill xs).
Proof.
  split; [apply length_ffill_from |].
  intros k x Hk. unfold ffill. rewrite (ffill_from_lookup None xs k x Hk). reflexivity.
Qed.

Lemma next_valid_Some {A} (ys : list (option A)) (d : nat) (b : A) :
  (forall d', (d' < d)%nat -> ys !! d' = Some None) ->
  ys !! d = Some (Some b) ->
  next_valid ys = Some (d, b).
Proof.
  revert d. induction ys as [| y ys IH]; intros d Hmiss Hd; [discriminate |].
  destruct d as [| d].
  - simpl in Hd. injection Hd as ->. reflexivity.
  - pose proof (Hmiss 0%nat ltac:(lia)) as H0. simpl in H0. injection H0 as ->.
    simpl. rewrite (IH d); [reflexivity | | exact Hd].
    intros d' Hd'. apply (Hmiss (S d')). lia.
Qed.

Lemma next_valid_None {A} (ys : list (option A)) :
  (forall d, (d < length ys)%nat -> ys !! d = Some None) ->
  next_valid ys = None.
Proof.
  induction ys as [| y ys IH]; intros Hmiss; [reflexivity |].
  pose proof (Hmiss 0%nat ltac:(cbn; lia)) as H0. simpl in H0. injection H0 as ->.
  simpl. rewrite IH; [reflexivity |].
  intros d Hd. apply (Hmiss (S d)). cbn. lia.
Qed.

Lemma prev_at_missing {A} (prev : option (nat * A)) (xs : list (option A)) (k : nat) :
  (forall k', (k' < k)%nat -> xs !! k' = Some None) ->
  prev_at prev xs k = (fun '(d, y) => ((d + k)%nat, y)) <$> prev.
Proof.
  revert prev xs. induction k as [| k IH]; intros prev xs Hmiss.
  - destruct prev as [[d y] |]; cbn; [rewrite Nat.add_0_r |]; destruct xs; reflexivity.
  - destruct xs as [| x xs].
    + specialize (Hmiss 0%nat ltac:(lia)). discriminate.
    + pose proof (Hmiss 0%nat ltac:(lia)) as H0. simpl in H0. injection H0 as ->.
      cbn [prev_at]. rewrite IH.
      * destruct prev as [[d y] |]; cbn; [| reflexivity]. do 2 f_equal. lia.
      * intros k' Hk'. apply (Hmiss (S k')). lia.
Qed.

Lemma prev_at_valid {A} (prev : option (nat * A)) (xs : list (option A))
    (i k : nat) (a : A) :
  xs !! i = Some (Some a) -> (i < k)%nat ->
  (forall k', (i < k' < k)%nat -> xs !! k' = Some None) ->
  prev_at prev xs k = Some ((k - i)%nat, a).
Proof.
  revert prev xs k. induction i as [| i IH]; intros prev xs k Hi Hik Hmiss.
  - destruct xs as [| x xs]; [discriminate |]. simpl in Hi. injection Hi as ->.
    destruct k as [| k]; [lia |]. cbn [prev_at].
    rewrite prev_at_missing by (intros k' Hk'; apply (Hmiss (S k')); lia).
    cbn. repeat f_equal; lia.
  - destruct xs as [| x xs]; [discriminate |]. simpl in Hi.
    destruct k as [| k]; [lia |].
    assert (Hrec : forall p, prev_at p xs k = Some ((k - i)%nat, a)).
    { intros p. apply IH; [exact Hi | lia |].
      intros k' Hk'. apply (Hmiss (S k')). lia. }
    destruct x; cbn [prev_at]; rewrite Hrec; reflexivity.
Qed.

Section InterpolateFacts.
Context {A F : Type} `{PyFloat F} (to_float : A -> F).

Lemma length_interpolate_from (prev : option (nat * A)) (xs : list (option A)) :
  length (interpolate_from to_float prev xs) = length xs.
Proof.
  revert prev. induction xs as [| [x |] xs IH]; intros prev; cbn [interpolate_from].
  - reflexivity.
  - cbn. rewrite IH. reflexivity.
  - destruct prev as [[d y0] |]; cbn; rewrite IH; reflexivity.
Qed.

(** The interpolated column, cell by cell. *)
Lemma interpolate_from_lookup (prev : option (nat * A)) (xs : list (option A)) (k : nat) :
  interpolate_from to_float prev xs !! k
  = match xs !! k with
    | None => None
    | Some (Some a) => Some (Some (Exact a))
    | Some None =>
        Some match prev_at prev xs k with
             | None => None
             | Some (d, y0) =>
                 Some match next_valid (drop (S k) xs) with
                      | None => Exact y0
                      | Some (d', y1) => Approx (lerp to_float y0 y1 d (d + S d'))
                      end
             end
    end.
Proof.
  revert prev k. induction xs as [| x xs IH]; intros prev k.
  - destruct k; reflexivity.
  - destruct k as [| k].
    + destruct x as [a |]; [reflexivity |].
      destruct prev as [[d y0] |]; reflexivity.
    + destruct x as [a |]; cbn [interpolate_from prev_at].
      * simpl. apply IH.
      * destruct prev as [[d y0] |]; simpl; apply IH.
Qed.

Lemma interpolate_linearly_interpolated (xs : list (option A)) :
  linearly_interpolated to_float xs (interpolate to_float xs).
Proof.
  unfold interpolate. split; [apply length_interpolate_from |].
  split; [| split; [| split]].
  - intros k a Hk. rewrite interpolate_from_lookup, Hk. reflexivity.
  - intros i j a b k (Hij & Hi & Hj & Hmiss) Hk.
    rewrite interpolate_from_lookup, (Hmiss k Hk).
    rewrite (prev_at_valid None xs i k a Hi); [| lia |].
    2:{ intros k' Hk'. apply Hmiss. lia. }
    rewrite (next_valid_Some (drop (S k) xs) (j - S k) b).
    + do 4 f_equal. lia.
    + intros d' Hd'. rewrite lookup_drop. apply Hmiss. lia.
    + rewrite lookup_drop. replace (S k + (j - S k))%nat with j by lia. exact Hj.
  - intros i a k Hi Hk Hmiss.
    rewrite interpolate_from_lookup, (Hmiss k Hk).
    rewrite (prev_at_valid None xs i k a Hi); [| lia |].
    2:{ intros k' Hk'. apply Hmiss. lia. }
    rewrite next_valid_None; [reflexivity |].
    intros d Hd. rewrite length_drop in Hd. rewrite lookup_drop. apply Hmiss. lia.
  - intros k Hk Hmiss.
    rewrite interpolate_from_lookup, (Hmiss k (Nat.le_refl k)).
    rewrite prev_at_missing; [reflexivity |].
    intros k' Hk'. apply Hmiss. lia.
Qed.

End InterpolateFacts.

(** ** Merging the fixed-block tables *)

Lemma filter_find_unique {A} (key : A -> Z) (x : Z) (l : list A) :
  NoDup (key <$> l) ->
  List.filter (fun r => key r =? x) l
  = match List.find (fun r => key r =? x) l with
    | Some r => [r]
    | None => []
    end.
Proof.
  induction l as [| r l IH]; intros Hnd; [reflexivity |].
  cbn in Hnd. apply NoDup_cons in Hnd as [Hr Hnd]. cbn.
  destruct (Z.eqb_spec (key r) x) as [Hx | Hx].
  - f_equal. clear IH.
    induction l as [| r' l IH]; [reflexivity |]. cbn.
    destruct (Z.eqb_spec (key r') x) as [Hx' | Hx'].
    + exfalso. apply Hr. cbn. apply elem_of_cons. left. congruence.
    + apply IH.
      * intros Hin. apply Hr. cbn. apply elem_of_cons. right. exact Hin.
      * cbn in Hnd. apply NoDup_cons in Hnd as [_ Hnd]. exact Hnd.
  - apply IH. exact Hnd.
Qed.

Lemma find_ext_eq {A} (f g : A -> bool) (l : list A) :
  (forall a, f a = g a) -> List.find f l = List.find g l.
Proof.
  intros Hfg. induction l as [| a l IH]; [reflexivity |].
  cbn. rewrite Hfg, IH. reflexivity.
Qed.

Section MergeFacts.
Context {F State : Type} `{PyFloat F} `{Platform}.

Lemma astype_int_column_Forall2 (cs : list (option (cell Z F))) (zs : list Z) :
  astype_int_column cs = Ok zs -> Forall2 (fun c z => astype_int c = Ok z) cs zs.
Proof.
  revert zs. induction cs as [| c cs IH]; intros zs Hz; cbn in Hz.
  - injection Hz as <-. constructor.
  - destruct (astype_int c) as [z |] eqn:Hc; cbn in Hz; [| discriminate].
    destruct (astype_int_column cs) as [zs' |]; cbn in Hz; [| discriminate].
    injection Hz as <-. constructor; [exact Hc | apply IH; reflexivity].
Qed.

Lemma fill_rows_columns (joined : list (JoinedRow F)) (Step : list (option Z))
    (Time : list (option F)) (Timestamp : list datetime) :
  length Step = length joined -> length Time = length joined ->
  length Timestamp = length joined ->
  f_Index <$> fill_rows joined Step Time Timestamp = j_Index <$> joined
  /\ f_Voltage <$> fill_rows joined Step Time Timestamp = j_Voltage <$> joined
  /\ f_Current <$> fill_rows joined Step Time Timestamp = j_Current <$> joined
  /\ f_Step <$> fill_rows joined Step Time Timestamp = Step
  /\ f_Time <$> fill_rows joined Step Time Timestamp = Time
  /\ f_Timestamp <$> fill_rows joined Step Time Timestamp = Timestamp.
Proof.
  unfold fill_rows. revert Step Time Timestamp.
  induction joined as [| r joined IH]; intros [| s Step] [| t Time] [| ts Timestamp];
    cbn [length]; intros HS HT HTs; try discriminate.
  - repeat split.
  - injection HS as HS. injection HT as HT. injection HTs as HTs.
    destruct (IH Step Time Timestamp HS HT HTs) as (H1 & H2 & H3 & H4 & H5 & H6).
    cbn. rewrite H1, H2, H3, H4, H5, H6. repeat split.
Qed.

(** With distinct run-info Index values the left join has one row per
    main sample. *)
Lemma merge_runInfo_left_unique (kept : list (SampleRow F)) (runInfo_df : list (RunInfoRow F)) :
  NoDup (ri_Index <$> runInfo_df) ->
  merge_runInfo_left kept runInfo_df
  = (fun l =>
       let info := List.find (fun ri => ri_Index ri =? smp_Index l) runInfo_df in
       mk_JoinedRow (smp_Voltage l) (smp_Current l) (smp_Index l)
         (ri_Time <$> info) (ri_Timestamp <$> info) (ri_Step <$> info)) <$> kept.
Proof.
  intros Hnd. unfold merge_runInfo_left.
  induction kept as [| l kept IH]; [reflexivity |].
  rewrite bind_cons, IH, fmap_cons.
  rewrite (filter_find_unique ri_Index (smp_Index l) runInfo_df Hnd).
  destruct (List.find _ runInfo_df); reflexivity.
Qed.

Lemma merge_step_left_unique (filled : list (FilledRow F)) (step_df : list (StepRow State)) :
  NoDup (st_Step <$> step_df) ->
  merge_step_left filled step_df
  = (fun l =>
       let step := List.find (fun s => bool_decide (Some (st_Step s) = f_Step l)) step_df in
       mk_Ndc8Row (f_Voltage l) (f_Current l) (f_Index l) (f_Time l) (f_Timestamp l)
         (f_Step l) (st_Cycle <$> step) (st_Step_Index <$> step) (st_Status <$> step))
      <$> filled.
Proof.
  intros Hnd. unfold merge_step_left.
  induction filled as [| l filled IH]; [reflexivity |].
  rewrite bind_cons, IH, fmap_cons.
  change (?a :: ?b) with ([a] ++ b) at 2. f_equal.
  destruct (f_Step l) as [s |].
  - assert (Heq : forall r : StepRow State,
              bool_decide (Some (st_Step r) = Some s) = (st_Step r =? s)).
    { intros r. destruct (Z.eqb_spec (st_Step r) s) as [-> | Hne].
      - apply bool_decide_eq_true_2. reflexivity.
      - apply bool_decide_eq_false_2. congruence. }
    rewrite (filter_ext _ _ Heq), (find_ext_eq _ _ _ Heq).
    rewrite (filter_find_unique st_Step s step_df Hnd).
    destruct (List.find _ step_df); reflexivity.
  - assert (Heq : forall r : StepRow State,
              bool_decide (Some (st_Step r) = None) = false).
    { intros r. apply bool_decide_eq_false_2. discriminate. }
    rewrite (filter_ext _ _ Heq), (find_ext_eq _ _ _ Heq).
    replace (List.filter (fun _ => false) step_df) with (@nil (StepRow State))
      by (clear; induction step_df; [reflexivity | assumption]).
    replace (List.find (fun _ => false) step_df) with (@None (StepRow State))
      by (clear; induction step_df; [reflexivity | assumption]).
    reflexivity.
Qed.

End MergeFacts.

Section MergeClaims.
Context {F State : Type} `{PyFloat F} `{Platform}.

(** C2 (as amended). When the merge of lines 52-63 returns a table, that
    table is produced by: truncating the main samples to the rows whose
    Index is at most the last run-info Index; left-joining them with the
    run-info records on Index (one row per kept main sample, in order,
    when the run-info Index values are distinct); forward-filling the
    joined Step column; linearly interpolating the joined Time column;
    linearly interpolating the joined Timestamp column as epoch seconds,
    truncating to integers and converting back with
    [datetime.fromtimestamp]; and left-joining the step table on Step
    (one row per row when the step numbers are distinct). *)
Theorem merge_ndc8_spec (data_df : list (SampleRow F))
    (runInfo_df : list (RunInfoRow F)) (step_df : list (StepRow State))
    (filled : list (FilledRow F)) :
  merge_runInfo data_df runInfo_df = Ok filled ->
  exists last_index,
    last (ri_Index <$> runInfo_df) = Some last_index
    /\ let kept := List.filter (fun r => smp_Index r <=? last_index) data_df in
       let joined := merge_runInfo_left kept runInfo_df in
       (NoDup (ri_Index <$> runInfo_df) ->
          joined = (fun l =>
            let info := List.find (fun ri => ri_Index ri =? smp_Index l) runInfo_df in
            mk_JoinedRow (smp_Voltage l) (smp_Current l) (smp_Index l)
              (ri_Time <$> info) (ri_Timestamp <$> info) (ri_Step <$> info)) <$> kept)
       /\ f_Index <$> filled = j_Index <$> joined
       /\ f_Voltage <$> filled = j_Voltage <$> joined
       /\ f_Current <$> filled = j_Current <$> joined
       /\ forward_filled (j_Step <$> joined) (f_Step <$> filled)
       /\ (exists cells,
             linearly_interpolated id (j_Time <$> joined) cells
             /\ f_Time <$> filled = fmap (M := option) cell_float <$> cells)
       /\ (exists cells seconds,
             linearly_interpolated float_of_int (j_Timestamp <$> joined) cells
             /\ Forall2 (fun c z => astype_int c = Ok z) cells seconds
             /\ f_Timestamp <$> filled = fromtimestamp <$> seconds)
       /\ (NoDup (st_Step <$> step_df) ->
           merge_step_left filled step_df
           = (fun l =>
                let step := List.find
                              (fun s => bool_decide (Some (st_Step s) = f_Step l)) step_df in
                mk_Ndc8Row (f_Voltage l) (f_Current l) (f_Index l) (f_Time l)
                  (f_Timestamp l) (f_Step l)
                  (st_Cycle <$> step) (st_Step_Index <$> step) (st_Status <$> step))
               <$> filled).
Proof.
  unfold merge_runInfo, iat_last.
  destruct (last (ri_Index <$> runInfo_df)) as [last_index |];
    cbn [mbind result_bind]; [| discriminate].
  set (kept := List.filter (fun r => smp_Index r <=? last_index) data_df).
  set (joined := merge_runInfo_left kept runInfo_df).
  destruct (astype_int_column _) as [seconds |] eqn:Hsec;
    cbn [mbind result_bind]; [| discriminate].
  unfold mret, result_ret. intros [= <-].
  exists last_index. split; [reflexivity |]. cbv zeta. fold kept. fold joined.
  apply astype_int_column_Forall2 in Hsec.
  pose proof (interpolate_linearly_interpolated float_of_int (j_Timestamp <$> joined))
    as HTs.
  pose proof (interpolate_linearly_interpolated (F := F) id (j_Time <$> joined)) as HT.
  destruct (fill_rows_columns joined (ffill (j_Step <$> joined))
              (fmap (M := option) cell_float <$> interpolate id (j_Time <$> joined))
              (map_fromtimestamp seconds))
    as (H1 & H2 & H3 & H4 & H5 & H6).
  { unfold ffill. rewrite length_ffill_from, length_fmap. reflexivity. }
  { rewrite length_fmap. unfold interpolate.
    rewrite length_interpolate_from, length_fmap. reflexivity. }
  { unfold map_fromtimestamp. rewrite length_fmap.
    rewrite <- (Forall2_length _ _ _ Hsec). unfold interpolate.
    rewrite length_interpolate_from, length_fmap. reflexivity. }
  split; [apply merge_runInfo_left_unique |].
  split; [exact H1 |]. split; [exact H2 |]. split; [exact H3 |].
  split; [rewrite H4; apply ffill_forward_filled |].
  split; [eexists; split; [exact HT | exact H5] |].
  split; [eexists; eexists; split; [exact HTs | split; [exact Hsec | exact H6]] |].
  apply merge_step_left_unique.
Qed.

(** The step table of the reader numbers its rows 1, 2, 3, ...: the step
    numbers are distinct. *)
Lemma read_data_step_ndc8_steps `{Dicts F State} (file : list byte)
    (df : list (StepRow State)) :
  read_data_step_ndc8 (F := F) file = Ok df ->
  st_Step <$> df = seqZ 1 (Z.of_nat (length df)) /\ NoDup (st_Step <$> df).
Proof.
  rewrite read_data_step_ndc8_blocks.
  destruct (header <=? length file)%nat; [| discriminate].
  destruct (for_each _ step_rows) as [rec |]; cbn [mbind result_bind]; [| discriminate].
  unfold mret, result_ret. intros [= <-].
  assert (Hs : st_Step <$> imap (fun i '(cycle, step_index, status) =>
                 mk_StepRow (State := State) cycle step_index status (Z.of_nat i + 1)) rec
               = seqZ 1 (Z.of_nat (length rec))).
  { apply list_eq. intros i. rewrite list_lookup_fmap, list_lookup_imap.
    destruct (rec !! i) as [[[c si] st] |] eqn:Hi; cbn.
    - apply lookup_lt_Some in Hi. rewrite lookup_seqZ_lt by lia. f_equal. lia.
    - apply lookup_ge_None in Hi. rewrite lookup_seqZ_ge by lia. reflexivity. }
  rewrite length_imap, Hs. split; [reflexivity | apply NoDup_seqZ].
Qed.

(** When the first kept main sample has no run-info record, its Timestamp
    stays missing after the interpolation and the conversion to integers
    raises. *)
Lemma merge_runInfo_leading_gap (data_df : list (SampleRow F))
    (runInfo_df : list (RunInfoRow F)) (last_index : Z) (r : SampleRow F)
    (rest : list (SampleRow F)) :
  last (ri_Index <$> runInfo_df) = Some last_index ->
  List.filter (fun r => smp_Index r <=? last_index) data_df = r :: rest ->
  List.filter (fun ri => ri_Index ri =? smp_Index r) runInfo_df = [] ->
  merge_runInfo data_df runInfo_df = Raise IntCastingNaNError.
Proof.
  intros Hlast Hkept Hinfo. unfold merge_runInfo, iat_last. rewrite Hlast.
  cbn [mbind result_bind]. rewrite Hkept.
  unfold merge_runInfo_left. rewrite bind_cons, Hinfo. reflexivity.
Qed.

End MergeClaims.

Section MergeSample.
Import Binary64 Sample.

(** Main samples 1..10 and run-info records at 1, 5, 8: the merged table
    has the 8 rows with Index 1..8, Step is forward-filled, and Time and
    Timestamp lie on the lines between the bracketing run-info records. *)
Example merge_samples_1_5_8 :
  exists filled,
    merge_runInfo samples_1_10 runInfo_1_5_8 = Ok filled
    /\ f_Index <$> filled = [1; 2; 3; 4; 5; 6; 7; 8]
    /\ f_Step <$> filled = Some <$> [1; 1; 1; 1; 1; 1; 1; 2]
    /\ f_Time <$> filled = (fun t => Some (of_int t)) <$> [0; 10; 20; 30; 40; 50; 60; 70]
    /\ f_Timestamp <$> filled
       = (fun t => utc_fromtimestamp (1700000000 + t)) <$> [0; 10; 20; 30; 40; 50; 60; 70]
    /\ n8_Status <$> merge_step_left filled steps_1_2
       = Some <$> ["CC_Chg"; "CC_Chg"; "CC_Chg"; "CC_Chg"; "CC_Chg"; "CC_Chg";
                   "CC_Chg"; "Rest"]%string.
Proof.
  eexists. split; [vm_compute; reflexivity |].
  repeat split; vm_compute; reflexivity.
Qed.

Lemma merge_ndc8_spec_witness :
  exists filled last_index,
    merge_runInfo samples_1_10 runInfo_1_5_8 = Ok filled
    /\ last (ri_Index <$> runInfo_1_5_8) = Some last_index
    /\ f_Index <$> filled
       = j_Index <$> merge_runInfo_left
                       (List.filter (fun r => smp_Index r <=? last_index) samples_1_10)
                       runInfo_1_5_8
    /\ forward_filled
         (j_Step <$> merge_runInfo_left
                       (List.filter (fun r => smp_Index r <=? last_index) samples_1_10)
                       runInfo_1_5_8)
         (f_Step <$> filled).
Proof.
  assert (Hmerge : exists filled, merge_runInfo samples_1_10 runInfo_1_5_8 = Ok filled)
    by (eexists; vm_compute; reflexivity).
  destruct Hmerge as [filled Hmerge].
  destruct (merge_ndc8_spec (State := string) samples_1_10 runInfo_1_5_8 steps_1_2
              filled Hmerge)
    as (last_index & Hlast & Hrest).
  cbv zeta in Hrest. destruct Hrest as (_ & HI & _ & _ & HS & _).
  exists filled, last_index.
  split; [exact Hmerge |]. split; [exact Hlast |]. split; [exact HI | exact HS].
Defined.

(** Main samples 1..10 and run-info records at 2, 5, 8: the truncation
    keeps 8 of the 10 samples, and the sample with Index 1, which has no
    run-info record before it, makes the integer conversion of Timestamp
    raise: there is no merged table of 10 rows. *)
Lemma merge_samples_2_5_8_not_ten_rows :
  (smp_Index <$> samples_1_10 = seqZ 1 10
   /\ ri_Index <$> runInfo_2_5_8 = [2; 5; 8])
  /\ length (merge_runInfo_left
               (List.filter (fun r => smp_Index r <=? 8) samples_1_10)
               runInfo_2_5_8) = 8%nat
  /\ merge_runInfo samples_1_10 runInfo_2_5_8 = Raise IntCastingNaNError.
Proof. repeat split; vm_compute; reflexivity. Qed.

End MergeSample.

(* ================================================================== *)
(** * Part III: further properties of the decoders and readers        *)
(* ================================================================== *)

(** ** Record slices of any length *)

Lemma length_py_slice {A} (a b : Z) (l : list A) :
  0 <= a <= b ->
  length (py_slice a b l) = Nat.min (Z.to_nat (b - a)) (length l - Z.to_nat a).
Proof.
  intros Hab. rewrite py_slice_take_drop by assumption.
  rewrite length_take, length_drop. reflexivity.
Qed.

Lemma field_take (off w n : nat) (bs : list byte) :
  (off + w <= n)%nat -> field off w (take n bs) = field off w bs.
Proof.
  intros Hn. unfold field. rewrite skipn_firstn_comm, take_take. f_equal. lia.
Qed.

Lemma u_at_take (off w n : nat) (bs : list byte) :
  (off + w <= n)%nat -> u_at off w (take n bs) = u_at off w bs.
Proof. intros Hn. unfold u_at. rewrite field_take by assumption. reflexivity. Qed.

Lemma i_at_take (off w n : nat) (bs : list byte) :
  (off + w <= n)%nat -> i_at off w (take n bs) = i_at off w bs.
Proof. intros Hn. unfold i_at. rewrite field_take by assumption. reflexivity. Qed.

(** One [struct.unpack] at the head of a decoder: either the slice has the
    size of the format and the decoder goes on, or [struct.error] is
    raised. *)
Ltac unpack_head :=
  lazymatch goal with
  | |- mbind _ (mbind _ (struct_unpack ?fmt ?buf)) = _ =>
      let its := eval vm_compute in (parse_format fmt) in
      lazymatch its with
      | Some ?items =>
          let Hok := fresh "Hok" in
          destruct (Nat.eq_dec (length buf) (calcsize items)) as [Hok | Hok];
          [ rewrite (struct_unpack_ok fmt items buf eq_refl Hok);
            cbn [mbind result_bind unpack_items unpack_item item_size
                 ints1 ints2 ints6]
          | rewrite (struct_unpack_short fmt items buf eq_refl Hok); reflexivity ]
      end
  end.

Ltac short_slice :=
  lazymatch goal with
  | Hok : length (py_slice ?a ?b ?l) = _ |- _ =>
      exfalso; rewrite (length_py_slice a b l) in Hok by lia;
      cbn [calcsize item_size foldr] in Hok; lia
  end.

Section DecoderLengths.
Context {F State : Type} `{PyFloat F} `{Dicts F State}.

Lemma bytes_to_list_ndc_short (bytes : list byte) :
  (length bytes < 86)%nat -> _bytes_to_list_ndc bytes = Raise StructError.
Proof.
  intros Hlen. unfold _bytes_to_list_ndc.
  do 8 unpack_head. unpack_head. short_slice.
Qed.

Lemma bytes_to_list_ndc_not_struct_error (bytes : list byte) :
  (86 <= length bytes)%nat -> _bytes_to_list_ndc bytes <> Raise StructError.
Proof.
  intros Hlen. rewrite bytes_to_list_ndc_unfold by assumption.
  unfold dict_get, py_datetime.
  destruct (multiplier_dict !! _); cbn [mbind result_bind]; [| discriminate].
  destruct (state_dict !! _); cbn [mbind result_bind]; [| discriminate].
  destruct (valid_date _ _ _ _ _ _); discriminate.
Qed.

Lemma bytes_to_list_ndc_Index_range (bytes : list byte) (r : MainRecord F State) :
  _bytes_to_list_ndc bytes = Ok r -> 0 <= rec_Index r < 2 ^ 32.
Proof.
  intros Hr.
  destruct (Nat.lt_ge_cases (length bytes) 86) as [Hlen | Hlen].
  { rewrite bytes_to_list_ndc_short in Hr by assumption. discriminate. }
  rewrite bytes_to_list_ndc_unfold in Hr by assumption.
  unfold dict_get, py_datetime in Hr.
  destruct (multiplier_dict !! _); cbn [mbind result_bind] in Hr; [| discriminate].
  destruct (state_dict !! _); cbn [mbind result_bind] in Hr; [| discriminate].
  destruct (valid_date _ _ _ _ _ _); cbn [mbind result_bind] in Hr; [| discriminate].
  unfold mret, result_ret in Hr. injection Hr as <-. cbn [rec_Index].
  pose proof (le_unsigned_range (field 8 4 bytes)) as HI.
  rewrite field_length in HI by lia. exact HI.
Qed.

(** X1. The main-record decoder reads bytes 8 to 85 of the slice it is given.
    A slice shorter than 86 bytes (the last record of a file cut short)
    raises [struct.error], whatever the tables hold; a slice of 86 bytes
    or more never does, and the bytes after the first 86 play no role. *)
Theorem bytes_to_list_ndc_length (bytes : list byte) :
  if (length bytes <? 86)%nat
  then _bytes_to_list_ndc bytes = Raise StructError
  else _bytes_to_list_ndc bytes <> Raise StructError
       /\ _bytes_to_list_ndc bytes = _bytes_to_list_ndc (take 86 bytes).
Proof.
  destruct (Nat.ltb_spec (length bytes) 86) as [Hlen | Hlen].
  - apply bytes_to_list_ndc_short. exact Hlen.
  - split; [apply bytes_to_list_ndc_not_struct_error; exact Hlen |].
    rewrite (bytes_to_list_ndc_unfold bytes) by assumption.
    rewrite (bytes_to_list_ndc_unfold (take 86 bytes))
      by (rewrite length_take; lia).
    rewrite !u_at_take, !i_at_take by lia. reflexivity.
Qed.

(** X2. A decoded main record has an Index below 2^32, a Cycle between 1 and
    2^32 (the stored cycle plus one: never 0), a Step below 256, and a
    valid calendar date and time of day. *)
Theorem bytes_to_list_ndc_ranges (bytes : list byte) (r : MainRecord F State) :
  _bytes_to_list_ndc bytes = Ok r ->
  0 <= rec_Index r < 2 ^ 32 /\ 1 <= rec_Cycle r <= 2 ^ 32 /\ 0 <= rec_Step r < 2 ^ 8
  /\ let d := rec_Timestamp r in
     1 <= dt_year d <= 9999 /\ 1 <= dt_month d <= 12
     /\ 1 <= dt_day d <= days_in_month (dt_year d) (dt_month d)
     /\ 0 <= dt_hour d <= 23 /\ 0 <= dt_minute d <= 59 /\ 0 <= dt_second d <= 59.
Proof.
  intros Hr.
  destruct (Nat.lt_ge_cases (length bytes) 86) as [Hlen | Hlen].
  { rewrite bytes_to_list_ndc_short in Hr by assumption. discriminate. }
  rewrite bytes_to_list_ndc_unfold in Hr by assumption.
  unfold dict_get, py_datetime in Hr.
  destruct (multiplier_dict !! _); cbn [mbind result_bind] in Hr; [| discriminate].
  destruct (state_dict !! _); cbn [mbind result_bind] in Hr; [| discriminate].
  destruct (valid_date _ _ _ _ _ _) eqn:Hv; cbn [mbind result_bind] in Hr;
    [| discriminate].
  unfold mret, result_ret in Hr. injection Hr as <-.
  cbn [rec_Index rec_Cycle rec_Step rec_Timestamp]. cbv zeta.
  cbn [dt_year dt_month dt_day dt_hour dt_minute dt_second].
  pose proof (le_unsigned_range (field 8 4 bytes)) as HI.
  pose proof (le_unsigned_range (field 12 4 bytes)) as HC.
  pose proof (le_unsigned_range (field 16 1 bytes)) as HS.
  rewrite field_length in HI, HC, HS by lia.
  change (8 * Z.of_nat 4) with 32 in HI, HC. change (8 * Z.of_nat 1) with 8 in HS.
  fold (u_at 8 4 bytes) in HI. fold (u_at 12 4 bytes) in HC.
  fold (u_at 16 1 bytes) in HS.
  unfold valid_date in Hv. rewrite !andb_true_iff in Hv.
  destruct Hv as (((((((((((H1 & H2) & H3) & H4) & H5) & H6) & H7) & H8) & H9)
                     & H10) & H11) & H12).
  repeat split; lia.
Qed.

(** X3. Packed date fields that are no valid date (a zero month, say, as in a
    record of zero bytes) make the decoder raise [ValueError] once both
    table lookups have succeeded. *)
Theorem bytes_to_list_ndc_invalid_date (bytes : list byte) :
  (86 <= length bytes)%nat ->
  is_Some (multiplier_dict !! i_at 82 4 bytes) ->
  is_Some (state_dict !! u_at 17 1 bytes) ->
  valid_date (u_at 75 2 bytes) (u_at 77 1 bytes) (u_at 78 1 bytes)
             (u_at 79 1 bytes) (u_at 80 1 bytes) (u_at 81 1 bytes) = false ->
  _bytes_to_list_ndc bytes = Raise ValueError.
Proof.
  intros Hlen [m Hm] [st Hst] Hv.
  rewrite bytes_to_list_ndc_unfold by assumption.
  unfold dict_get, py_datetime. rewrite Hm, Hst, Hv. reflexivity.
Qed.

(** X4. The variant-A auxiliary decoder reads a channel number at offset 3, an
    index at offset 8, a raw voltage at offset 31 and a raw temperature at
    offset 41, and scales the last two by 1/10000 and 1/10. It needs the
    first 43 bytes of the slice only, and raises [struct.error] on a
    shorter slice. *)
Theorem aux_bytes_65_layout (bytes : list byte) :
  _aux_bytes_65_to_list_ndc bytes
  = if (43 <=? length bytes)%nat
    then Ok [PInt (u_at 8 4 bytes); PInt (u_at 3 1 bytes);
             PFloat (int_truediv (i_at 31 4 bytes) 10000);
             PFloat (int_truediv (i_at 41 2 bytes) 10)]
    else Raise StructError.
Proof.
  unfold _aux_bytes_65_to_list_ndc.
  destruct (Nat.leb_spec 43 (length bytes)) as [Hlen | Hlen].
  - unpack_slice "<B"%string 3 4.
    unpack_slice "<I"%string 8 12.
    unpack_slice "<h"%string 41 43.
    unpack_slice "<i"%string 31 35.
    fields_norm. reflexivity.
  - do 2 unpack_head. unpack_head. short_slice.
Qed.

(** X5. The variant-B auxiliary decoder reads the same fields and a second
    16-bit value at offset 43, scaled by 1/10; it needs the first 45 bytes
    of the slice. *)
Theorem aux_bytes_74_layout (bytes : list byte) :
  _aux_bytes_74_to_list_ndc bytes
  = if (45 <=? length bytes)%nat
    then Ok [PInt (u_at 8 4 bytes); PInt (u_at 3 1 bytes);
             PFloat (int_truediv (i_at 31 4 bytes) 10000);
             PFloat (int_truediv (i_at 41 2 bytes) 10);
             PFloat (int_truediv (i_at 43 2 bytes) 10)]
    else Raise StructError.
Proof.
  unfold _aux_bytes_74_to_list_ndc.
  destruct (Nat.leb_spec 45 (length bytes)) as [Hlen | Hlen].
  - unpack_slice "<B"%string 3 4.
    unpack_slice "<I"%string 8 12.
    unpack_slice "<i"%string 31 35.
    unpack_slice "<hh"%string 41 45.
    fields_norm. reflexivity.
  - do 3 unpack_head. unpack_head. short_slice.
Qed.

End DecoderLengths.

(** ** The legacy scan on whole files *)

Lemma take1_drop_lookup {A} (l : list A) (n : nat) :
  take 1 (drop n l) = option_list (l !! n).
Proof.
  revert n. induction l as [| x l IH]; intros [| n]; cbn; try reflexivity.
  apply IH.
Qed.

Lemma identifier_type_byte (mm : list byte) :
  py_slice 0 1 (py_slice 517 525 mm) = option_list (mm !! 517%nat).
Proof.
  rewrite identifier_eq, first_byte_eq, take_take.
  change (Nat.min 1 8) with 1%nat. apply take1_drop_lookup.
Qed.

Lemma mmap_open_nonempty (file : list byte) :
  (0 < length file)%nat -> mmap_open file = Ok file.
Proof. destruct file; cbn; [lia | reflexivity]. Qed.

Lemma find_in_here (needle hay : list byte) (pos : nat) :
  take (length needle) hay = needle -> find_in needle hay pos = Some pos.
Proof.
  intros Ht. destruct hay; cbn [find_in]; rewrite bool_decide_eq_true_2 by exact Ht;
    reflexivity.
Qed.

Lemma length_concat_uniform {A} (m : nat) (ls : list (list A)) :
  Forall (fun l => length l = m) ls -> length (concat ls) = (m * length ls)%nat.
Proof.
  induction 1 as [| l ls Hl _ IH]; cbn [concat length]; [lia |].
  rewrite length_app, IH, Hl. lia.
Qed.

Section LegacyFiles.
Context {F State : Type} `{PyFloat F} `{Dicts F State}.

(** *** Files that are too short *)

Lemma read_ndc_short_file (file : list byte) :
  (length file < 517)%nat -> read_ndc file = Raise ValueError.
Proof.
  intros Hlen. unfold read_ndc, mmap_open.
  destruct file as [| b0 file0]; [reflexivity |].
  set (file := b0 :: file0) in *. cbn [mbind result_bind].
  assert (Hl : length file = S (length file0)) by reflexivity.
  rewrite Hl. cbn [read_ndc_loop]. unfold mmap_seek.
  rewrite (proj2 (Nat.leb_gt _ _)) by lia. reflexivity.
Qed.

(** X7. A file of fewer than 517 bytes cannot be scanned: mapping an empty
    file or seeking to offset 517 raises [ValueError]. On a file of more
    than 517 bytes the scanning loop ends: every search for the identifier
    moves on by a record length at least. *)
Theorem read_ndc_file_length (file : list byte) :
  ((length file < 517)%nat -> read_ndc file = Raise ValueError)
  /\ ((517 < length file)%nat -> fuel_safe (read_ndc file)).
Proof.
  split.
  - apply read_ndc_short_file.
  - intros Hlen. apply read_ndc_fuel_safe. lia.
Qed.

(** X8. On a file of exactly 517 bytes the scan never ends. The identifier
    [mm[517:525]] is empty, the record read at offset 517 is empty and of
    unknown type, and the search for the empty identifier from offset 611,
    which is clamped to the end of the map, returns 517 again. *)
Theorem read_ndc_header_only_file (file : list byte) :
  length file = 517%nat ->
  py_slice 517 525 file = []
  /\ mmap_find file [] (517 + 94) = Some 517%nat
  /\ forall fuel output aux,
       read_ndc_loop fuel file (py_slice 517 525 file) (Some 517%nat) output aux
       = Raise FuelExhausted.
Proof.
  intros Hlen. split; [| split].
  - rewrite identifier_eq, drop_ge by lia. reflexivity.
  - unfold mmap_find. cbv zeta. rewrite Hlen.
    change (Nat.min (517 + 94) 517) with 517%nat.
    rewrite drop_ge by lia. reflexivity.
  - intros fuel output aux. apply read_ndc_loop_diverges. exact Hlen.
Qed.

(** *** Records of another type *)

Lemma read_ndc_record_unknown (bytes : list byte)
    (output : list (MainRecord F State)) (aux : list (list (pynum F))) :
  py_slice 0 1 bytes <> ["U"%byte] -> py_slice 0 1 bytes <> ["e"%byte] ->
  py_slice 0 1 bytes <> ["t"%byte] ->
  read_ndc_record bytes output aux = Ok (output, aux).
Proof.
  intros HU He Ht. unfold read_ndc_record.
  rewrite !bool_decide_eq_false_2 by assumption. reflexivity.
Qed.

Lemma read_ndc_loop_unknown (mm : list byte) (fuel pos : nat)
    (output : list (MainRecord F State)) (aux : list (list (pynum F))) :
  let tb := py_slice 0 1 (py_slice 517 525 mm) in
  tb <> ["U"%byte] -> tb <> ["e"%byte] -> tb <> ["t"%byte] ->
  py_slice 517 525 mm <> [] ->
  scanned mm pos -> (pos <= length mm)%nat -> (length mm - pos < fuel)%nat ->
  read_ndc_loop fuel mm (py_slice 517 525 mm) (Some pos) output aux = Ok (output, aux).
Proof.
  cbv zeta. intros HU He Ht Hne. revert pos.
  induction fuel as [| fuel IH]; intros pos Hs Hpos Hfuel; [lia |].
  cbn [read_ndc_loop]. unfold mmap_seek.
  rewrite (proj2 (Nat.leb_le _ _)) by assumption. cbn [mbind result_bind].
  pose proof (scanned_type_byte mm pos Hs) as Hty. unfold type_byte in Hty.
  rewrite read_ndc_record_unknown by (rewrite Hty; assumption).
  cbn [mbind result_bind].
  destruct (mmap_find mm _ (pos + 94)) as [q |] eqn:Hfind.
  - pose proof (scanned_next mm pos q Hs Hfind) as Hq.
    apply (mmap_find_Some_nonempty _ _ _ _ Hne) in Hfind as (Hle & Hlen & _).
    apply IH; [exact Hq | lia | lia].
  - destruct fuel; reflexivity.
Qed.

(** X9. When the record at offset 517 has a type byte other than 0x55, 0x65
    and 0x74, every record the scan visits has that type byte: the scan
    only logs warnings, raises no error, and returns two empty tables. *)
Theorem read_ndc_unknown_type (file : list byte) (b : byte) :
  file !! 517%nat = Some b ->
  b <> "U"%byte -> b <> "e"%byte -> b <> "t"%byte ->
  read_ndc file = Ok ([], empty_DataFrame).
Proof.
  intros Hb HU He Ht.
  assert (Hlen : (517 < length file)%nat) by (eapply lookup_lt_Some; exact Hb).
  assert (Htb : py_slice 0 1 (py_slice 517 525 file) = [b]).
  { rewrite identifier_type_byte, Hb. reflexivity. }
  unfold read_ndc. rewrite mmap_open_nonempty by lia. cbn [mbind result_bind].
  rewrite read_ndc_loop_unknown;
    [| rewrite Htb; congruence ..
     | apply identifier_nonempty; exact Hlen
     | constructor | lia | lia].
  cbn [mbind result_bind]. rewrite Htb.
  rewrite !bool_decide_eq_false_2 by congruence. reflexivity.
Qed.

Lemma read_ndc_record_no_main (bytes : list byte)
    (output output' : list (MainRecord F State)) (aux aux' : list (list (pynum F))) :
  py_slice 0 1 bytes <> ["U"%byte] ->
  read_ndc_record bytes output aux = Ok (output', aux') -> output' = output.
Proof.
  intros HU. unfold read_ndc_record.
  rewrite bool_decide_eq_false_2 by assumption.
  case_bool_decide; [| case_bool_decide].
  - destruct (_aux_bytes_65_to_list_ndc bytes) as [a |]; cbn [mbind result_bind];
      [| discriminate].
    unfold mret, result_ret. intros [= <- _]. reflexivity.
  - destruct (_aux_bytes_74_to_list_ndc bytes) as [a |]; cbn [mbind result_bind];
      [| discriminate].
    unfold mret, result_ret. intros [= <- _]. reflexivity.
  - unfold mret, result_ret. intros [= <- _]. reflexivity.
Qed.

Lemma read_ndc_loop_no_main (mm : list byte) (fuel pos : nat)
    (output output' : list (MainRecord F State)) (aux aux' : list (list (pynum F))) :
  py_slice 0 1 (py_slice 517 525 mm) <> ["U"%byte] ->
  scanned mm pos ->
  read_ndc_loop fuel mm (py_slice 517 525 mm) (Some pos) output aux
    = Ok (output', aux') ->
  output' = output.
Proof.
  intros HU. revert pos output aux.
  induction fuel as [| fuel IH]; intros pos output aux Hs Hloop;
    cbn [read_ndc_loop] in Hloop; [discriminate |].
  unfold mmap_seek in Hloop.
  destruct (pos <=? length mm)%nat; cbn [mbind result_bind] in Hloop; [| discriminate].
  destruct (read_ndc_record _ output aux) as [[o1 a1] |] eqn:Hrec;
    cbn [mbind result_bind] in Hloop; [| discriminate].
  apply read_ndc_record_no_main in Hrec;
    [| pose proof (scanned_type_byte mm pos Hs) as Hty; unfold type_byte in Hty;
       rewrite Hty; exact HU].
  subst o1.
  destruct (mmap_find mm _ (pos + 94)) as [q |] eqn:Hfind.
  - apply (IH q output a1); [| exact Hloop]. eapply scanned_next; eassumption.
  - destruct fuel; cbn [read_ndc_loop] in Hloop; injection Hloop as <- _; reflexivity.
Qed.

(** X10. A file whose first record is not a main record (an auxiliary-channel
    file, say) contributes no row to the main table: every record the
    scan visits has the type byte of the first one. *)
Theorem read_ndc_main_rows_need_main_type (file : list byte)
    (df : MainFrame F State) (aux_df : DataFrame (pynum F)) :
  read_ndc file = Ok (df, aux_df) ->
  file !! 517%nat <> Some "U"%byte ->
  df = [].
Proof.
  intros Hread Hb.
  assert (HU : py_slice 0 1 (py_slice 517 525 file) <> ["U"%byte]).
  { rewrite identifier_type_byte. destruct (file !! 517%nat); cbn; congruence. }
  unfold read_ndc in Hread.
  destruct (mmap_open file) as [mm |] eqn:Hmm; cbn [mbind result_bind] in Hread;
    [| discriminate].
  assert (mm = file) as -> by (destruct file; cbn in Hmm; congruence).
  destruct (read_ndc_loop _ file _ _ [] []) as [[output aux] |] eqn:Hloop;
    cbn [mbind result_bind] in Hread; [| discriminate].
  apply read_ndc_loop_no_main in Hloop; [| exact HU | constructor]. subst output.
  destruct (if bool_decide _ then _ else _) as [a |]; cbn [mbind result_bind] in Hread;
    [| discriminate].
  unfold mret, result_ret in Hread. injection Hread as <- _. reflexivity.
Qed.

End LegacyFiles.

(** *** Files of contiguous records *)

Lemma mapM_result_Forall2 {A B} (f : A -> result B) (l : list A) (k : list B) :
  mapM f l = Ok k -> Forall2 (fun x y => f x = Ok y) l k.
Proof.
  revert k. induction l as [| x l IH]; intros k Hk; cbn [mapM] in Hk.
  - injection Hk as <-. constructor.
  - destruct (f x) as [y |] eqn:Hy; cbn [mbind result_bind] in Hk; [| discriminate].
    destruct (mapM f l) as [k' |]; cbn [mbind result_bind] in Hk; [| discriminate].
    injection Hk as <-. constructor; [exact Hy | apply IH; reflexivity].
Qed.

Lemma pd_DataFrame_exact {A} (data : list (list A)) (columns : list string) :
  data <> [] -> Forall (fun row => length row = length columns) data ->
  pd_DataFrame data columns
  = Ok (mk_DataFrame columns ((fun row : list A => Some <$> row) <$> data)).
Proof.
  intros Hne Hall. unfold pd_DataFrame.
  destruct data as [| row0 data]; [contradiction |].
  set (rows := row0 :: data) in *. cbv zeta.
  assert (Hw : foldr (fun row w => Nat.max (length row) w) 0%nat rows = length columns).
  { clearbody rows. induction Hall as [| row rest Hrow Hrest IH].
    - contradiction.
    - cbn [foldr]. destruct rest as [| row1 rest].
      + cbn [foldr]. rewrite Nat.max_0_r. exact Hrow.
      + rewrite IH by discriminate. rewrite Hrow. apply Nat.max_id. }
  rewrite Hw, Nat.eqb_refl. do 2 f_equal.
  apply Forall_fmap_ext_1. eapply Forall_impl; [exact Hall |].
  intros row Hrow. cbn in Hrow |- *.
  rewrite Hrow, Nat.sub_diag. apply app_nil_r.
Qed.

Lemma find_in_shift (needle hay : list byte) (pos : nat) :
  find_in needle hay pos = (fun k => (pos + k)%nat) <$> find_in needle hay 0.
Proof.
  revert pos. induction hay as [| b hay IH]; intros pos; cbn [find_in];
    case_bool_decide; cbn; try (f_equal; lia); try reflexivity.
  rewrite (IH (S pos)), (IH 1%nat). rewrite <- option_fmap_compose.
  apply option_fmap_ext. intros k. cbn. lia.
Qed.

Lemma find_in_nil (needle : list byte) (pos : nat) :
  needle <> [] -> find_in needle [] pos = None.
Proof.
  intros Hne. cbn [find_in]. rewrite take_nil.
  rewrite bool_decide_eq_false_2 by congruence. reflexivity.
Qed.

Section ContiguousRecords.
Context {F State : Type} `{PyFloat F} `{Dicts F State}.

Lemma drop_header_records (hdr tail : list byte) (done rest : list (list byte)) :
  length hdr = 517%nat -> Forall (fun x => length x = 94%nat) done ->
  drop (517 + 94 * length done) (hdr ++ concat (done ++ rest) ++ tail)
  = concat rest ++ tail.
Proof.
  intros Hh Hd. rewrite concat_app, <- (app_assoc (concat done)), app_assoc.
  apply drop_app_length'. rewrite length_app, (length_concat_uniform 94) by assumption.
  lia.
Qed.

(** The end of the scan: the search in the bytes after the last whole
    record. *)
Lemma read_ndc_loop_tail (mm ident tail : list byte) (base fuel : nat)
    (output : list (MainRecord F State)) (aux : list (list (pynum F))) :
  length ident = 8%nat -> (length tail < 94)%nat ->
  (base <= length mm)%nat -> drop base mm = tail ->
  (0 < fuel)%nat ->
  read_ndc_loop fuel mm ident (mmap_find mm ident base) output aux
  = scan_records (tail_record ident tail) output aux.
Proof.
  intros Hid Htail Hbase Hdrop Hfuel.
  assert (Hne : ident <> []) by (destruct ident; [discriminate | congruence]).
  assert (Hmm : length mm = (base + length tail)%nat).
  { rewrite <- Hdrop, length_drop. lia. }
  unfold mmap_find. cbv zeta. rewrite Nat.min_l by exact Hbase.
  rewrite Hdrop, find_in_shift. unfold tail_record.
  destruct (find_in ident tail 0) as [k |] eqn:Hk; cbn [fmap option_fmap option_map].
  - apply find_in_Some in Hk as [_ Hk]. rewrite Nat.sub_0_r in Hk.
    assert (Hlen : (k + 8 <= length tail)%nat).
    { apply (f_equal length) in Hk. rewrite length_take, length_drop in Hk. lia. }
    destruct fuel as [| fuel]; [lia |].
    cbn [read_ndc_loop scan_records]. unfold mmap_seek.
    rewrite (proj2 (Nat.leb_le _ _)) by lia. cbn [mbind result_bind].
    unfold mmap_read. rewrite <- drop_drop, Hdrop.
    rewrite take_ge by (rewrite length_drop; lia).
    destruct (read_ndc_record _ output aux) as [[o a] |];
      cbn [mbind result_bind]; [| reflexivity].
    unfold mmap_find. cbv zeta. rewrite Nat.min_r by lia.
    rewrite drop_all, find_in_nil by exact Hne.
    destruct fuel; reflexivity.
  - destruct fuel; reflexivity.
Qed.

Lemma read_ndc_loop_contiguous (hdr ident tail : list byte) (all : list (list byte))
    (rest done : list (list byte)) (r : list byte) (fuel : nat)
    (output : list (MainRecord F State)) (aux : list (list (pynum F))) :
  length hdr = 517%nat -> length ident = 8%nat -> (length tail < 94)%nat ->
  Forall (fun x => length x = 94%nat /\ take 8 x = ident) all ->
  all = done ++ r :: rest ->
  (S (length rest) < fuel)%nat ->
  read_ndc_loop fuel (hdr ++ concat all ++ tail) ident
    (Some (517 + 94 * length done)%nat) output aux
  = scan_records (r :: rest ++ tail_record ident tail) output aux.
Proof.
  intros Hh Hid Htail Hall. revert done r fuel output aux.
  induction rest as [| r1 rest IH]; intros done r fuel output aux Hsplit Hfuel;
    (destruct fuel as [| fuel]; [cbn in Hfuel; lia |]); subst all.
  all: assert (Hlens : Forall (fun x => length x = 94%nat) (done ++ r :: _))
         by (eapply Forall_impl; [exact Hall | intros ? [? _]; assumption]).
  all: pose proof (length_concat_uniform 94 _ Hlens) as Hcat.
  all: apply Forall_app in Hlens as [Hdone Hrest];
       apply Forall_cons in Hrest as [Hr Hrest].
  all: rewrite length_app in Hcat; cbn [length] in Hcat.
  all: cbn [read_ndc_loop scan_records app]; unfold mmap_seek;
       rewrite (proj2 (Nat.leb_le _ _)) by (rewrite !length_app, Hcat, Hh; lia);
       cbn [mbind result_bind].
  all: unfold mmap_read; rewrite drop_header_records by assumption;
       cbn [concat]; rewrite <- app_assoc, take_app_length' by (symmetry; exact Hr).
  all: destruct (read_ndc_record r output aux) as [[o a] |];
       cbn [mbind result_bind]; [| reflexivity].
  all: replace (517 + 94 * length done + 94)%nat
         with (517 + 94 * length (done ++ [r]))%nat
         by (rewrite length_app; cbn [length]; lia).
  - apply read_ndc_loop_tail; [exact Hid | exact Htail | | | cbn in Hfuel; lia].
    + rewrite !length_app, Hcat, Hh. cbn [length]. lia.
    + rewrite <- (app_nil_r (done ++ [r])) at 2.
      rewrite drop_header_records; [reflexivity | exact Hh |].
      apply Forall_app; split; [exact Hdone | repeat constructor; exact Hr].
  - assert (Hd : drop (517 + 94 * length (done ++ [r]))
                   (hdr ++ concat (done ++ r :: r1 :: rest) ++ tail)
                 = concat (r1 :: rest) ++ tail).
    { replace (done ++ r :: r1 :: rest) with ((done ++ [r]) ++ r1 :: rest)
        by (rewrite <- app_assoc; reflexivity).
      apply drop_header_records; [exact Hh |].
      apply Forall_app; split; [exact Hdone | repeat constructor; exact Hr]. }
    unfold mmap_find. cbv zeta.
    rewrite Nat.min_l by (rewrite !length_app, Hcat, Hh; cbn [length]; lia).
    rewrite Hd. clear Hd.
    apply Forall_cons in Hrest as [Hr1 Hrest].
    apply Forall_app in Hall as [_ Hall]. apply Forall_cons in Hall as [_ Hall].
    apply Forall_cons in Hall as [[_ Hid1] _].
    cbn [concat]. rewrite <- app_assoc.
    rewrite find_in_here by (rewrite Hid, take_app_le by lia; exact Hid1).
    apply IH; [rewrite <- app_assoc; reflexivity | cbn [length] in Hfuel; lia].
Qed.

Lemma scan_records_main (recs : list (list byte))
    (output : list (MainRecord F State)) (aux : list (list (pynum F))) :
  Forall (fun r => py_slice 0 1 r = ["U"%byte]) recs ->
  scan_records recs output aux
  = (rows ← mapM _bytes_to_list_ndc recs; Ok (output ++ rows, aux)).
Proof.
  intros Hall. revert output.
  induction Hall as [| r recs Hr _ IH]; intros output; cbn [scan_records mapM].
  - cbn. rewrite app_nil_r. reflexivity.
  - unfold read_ndc_record. rewrite bool_decide_eq_true_2 by exact Hr.
    destruct (_bytes_to_list_ndc r) as [y |]; cbn [mbind result_bind]; [| reflexivity].
    unfold mret at 1, result_ret at 1. cbn [mbind result_bind]. rewrite IH.
    destruct (mapM _ recs) as [k |]; cbn [mbind result_bind]; [| reflexivity].
    unfold mret, result_ret. cbn [mbind result_bind].
    rewrite <- app_assoc. reflexivity.
Qed.

Lemma scan_records_aux_65 (recs : list (list byte))
    (output : list (MainRecord F State)) (aux : list (list (pynum F))) :
  Forall (fun r => py_slice 0 1 r = ["e"%byte]) recs ->
  scan_records recs output aux
  = (rows ← mapM _aux_bytes_65_to_list_ndc recs; Ok (output, aux ++ rows)).
Proof.
  intros Hall. revert aux.
  induction Hall as [| r recs Hr _ IH]; intros aux; cbn [scan_records mapM].
  - cbn. rewrite app_nil_r. reflexivity.
  - unfold read_ndc_record. rewrite Hr.
    rewrite bool_decide_eq_false_2 by discriminate.
    rewrite bool_decide_eq_true_2 by reflexivity.
    destruct (_aux_bytes_65_to_list_ndc r) as [y |]; cbn [mbind result_bind];
      [| reflexivity].
    unfold mret at 1, result_ret at 1. cbn [mbind result_bind]. rewrite IH.
    destruct (mapM _ recs) as [k |]; cbn [mbind result_bind]; [| reflexivity].
    unfold mret, result_ret. cbn [mbind result_bind].
    rewrite <- app_assoc. reflexivity.
Qed.

Lemma scan_records_aux_74 (recs : list (list byte))
    (output : list (MainRecord F State)) (aux : list (list (pynum F))) :
  Forall (fun r => py_slice 0 1 r = ["t"%byte]) recs ->
  scan_records recs output aux
  = (rows ← mapM _aux_bytes_74_to_list_ndc recs; Ok (output, aux ++ rows)).
Proof.
  intros Hall. revert aux.
  induction Hall as [| r recs Hr _ IH]; intros aux; cbn [scan_records mapM].
  - cbn. rewrite app_nil_r. reflexivity.
  - unfold read_ndc_record. rewrite Hr.
    rewrite !bool_decide_eq_false_2 by discriminate.
    rewrite bool_decide_eq_true_2 by reflexivity.
    destruct (_aux_bytes_74_to_list_ndc r) as [y |]; cbn [mbind result_bind];
      [| reflexivity].
    unfold mret at 1, result_ret at 1. cbn [mbind result_bind]. rewrite IH.
    destruct (mapM _ recs) as [k |]; cbn [mbind result_bind]; [| reflexivity].
    unfold mret, result_ret. cbn [mbind result_bind].
    rewrite <- app_assoc. reflexivity.
Qed.

(** The records of a file made of a 517-byte header, 94-byte records that
    all start with the same 8 bytes, and fewer than 94 further bytes. *)
Section File.
Variables (hdr r0 tail : list byte) (recs : list (list byte)).
Hypothesis Hhdr : length hdr = 517%nat.
Hypothesis Hr0 : length r0 = 94%nat.
Hypothesis Hrecs : Forall (fun r => length r = 94%nat /\ take 8 r = take 8 r0) recs.
Hypothesis Htail : (length tail < 94)%nat.

Let file := hdr ++ concat (r0 :: recs) ++ tail.
Let records := r0 :: recs ++ tail_record (take 8 r0) tail.

Lemma contiguous_all :
  Forall (fun r => length r = 94%nat /\ take 8 r = take 8 r0) (r0 :: recs).
Proof. constructor; [split; [exact Hr0 | reflexivity] | exact Hrecs]. Qed.

Lemma contiguous_length :
  length file = (517 + 94 * S (length recs) + length tail)%nat.
Proof.
  unfold file. rewrite !length_app, (length_concat_uniform 94), Hhdr; [cbn [length]; lia |].
  eapply Forall_impl; [exact contiguous_all | intros ? [? _]; assumption].
Qed.

Lemma contiguous_identifier : py_slice 517 525 file = take 8 r0.
Proof.
  rewrite identifier_eq. unfold file.
  rewrite drop_app_length' by (symmetry; exact Hhdr).
  cbn [concat]. rewrite <- !app_assoc. apply take_app_le. lia.
Qed.

Lemma contiguous_type_bytes :
  Forall (fun r => py_slice 0 1 r = take 1 r0) records.
Proof.
  assert (Hty : forall r, take 8 r = take 8 r0 -> py_slice 0 1 r = take 1 r0).
  { intros r Hr. rewrite first_byte_eq.
    transitivity (take 1 (take 8 r)); [rewrite take_take; reflexivity |].
    rewrite Hr, take_take. reflexivity. }
  unfold records. rewrite app_comm_cons. apply Forall_app. split.
  - eapply Forall_impl; [exact contiguous_all |]. intros r [_ Hr]. apply Hty, Hr.
  - unfold tail_record.
    destruct (find_in (take 8 r0) tail 0) as [k |] eqn:Hk; constructor; [| constructor].
    apply Hty. apply find_in_Some in Hk as [_ Hk].
    rewrite Nat.sub_0_r, length_take, Nat.min_l in Hk by lia. exact Hk.
Qed.

Lemma contiguous_read_ndc :
  read_ndc (F := F) (State := State) file
  = ('(output, aux) ← scan_records records [] [];
     let df := assemble_main output in
     let df := (fun lr => (lr.1, dtype_cast lr.2)) <$> df in
     aux_df ← (if bool_decide (take 1 r0 = ["e"%byte]) then
                 pd_DataFrame aux ["Index"; "Aux"; "V"; "T"]%string
               else if bool_decide (take 1 r0 = ["t"%byte]) then
                 pd_DataFrame aux ["Index"; "Aux"; "V"; "T"; "t"]%string
               else Ok empty_DataFrame);
     mret (df, aux_df)).
Proof.
  unfold read_ndc.
  rewrite mmap_open_nonempty by (rewrite contiguous_length; lia).
  cbn [mbind result_bind]. rewrite contiguous_identifier.
  replace (Some 517%nat) with (Some (517 + 94 * length (@nil (list byte)))%nat)
    by reflexivity.
  unfold file at 2.
  rewrite (read_ndc_loop_contiguous hdr (take 8 r0) tail (r0 :: recs) recs [] r0);
    [| exact Hhdr | rewrite length_take; lia | exact Htail | exact contiguous_all
     | reflexivity | rewrite contiguous_length; lia].
  rewrite first_byte_eq, take_take. reflexivity.
Qed.

End File.

(** X11. On a main-data file made of a 517-byte header, whole 94-byte records
    that start with the 8 bytes of the first one and have the type byte
    0x55, and fewer than 94 further bytes, the scan visits exactly those
    records, in order, and then what remains from the first occurrence of
    the 8 identifier bytes in the further bytes on, if there is one. The
    main table is assembled from their decodings; the first decoding
    error, if any, is the error of the scan (a cut-off last record of
    fewer than 86 bytes raises [struct.error]); the auxiliary table is
    empty. *)
Theorem read_ndc_main_file (hdr r0 tail : list byte) (recs : list (list byte)) :
  length hdr = 517%nat ->
  length r0 = 94%nat ->
  take 1 r0 = ["U"%byte] ->
  Forall (fun r => length r = 94%nat /\ take 8 r = take 8 r0) recs ->
  (length tail < 94)%nat ->
  read_ndc (hdr ++ concat (r0 :: recs) ++ tail)
  = (output ← mapM _bytes_to_list_ndc (r0 :: recs ++ tail_record (take 8 r0) tail);
     Ok ((fun lr => (lr.1, dtype_cast lr.2)) <$> assemble_main output,
         empty_DataFrame)).
Proof.
  intros Hhdr Hr0 HU Hrecs Htail.
  rewrite contiguous_read_ndc by assumption.
  rewrite scan_records_main
    by (rewrite <- HU; eapply contiguous_type_bytes; eassumption).
  destruct (mapM _bytes_to_list_ndc _) as [output |];
    cbn [mbind result_bind]; [| reflexivity].
  rewrite HU. rewrite !bool_decide_eq_false_2 by discriminate. reflexivity.
Qed.

(** X12. On an auxiliary-channel file made of a 517-byte header, whole
    94-byte records that start with the 8 bytes of the first one, and
    fewer than 94 further bytes, the main table is empty and the auxiliary
    table has one row per record visited, in order, with every cell
    present: four columns for type byte 0x65, five for type byte 0x74.
    The first decoding error, if any, is the error of the scan. *)
Theorem read_ndc_aux_file (hdr r0 tail : list byte) (recs : list (list byte)) :
  length hdr = 517%nat ->
  length r0 = 94%nat ->
  Forall (fun r => length r = 94%nat /\ take 8 r = take 8 r0) recs ->
  (length tail < 94)%nat ->
  (take 1 r0 = ["e"%byte] ->
   read_ndc (State := State) (hdr ++ concat (r0 :: recs) ++ tail)
   = (aux ← mapM _aux_bytes_65_to_list_ndc
              (r0 :: recs ++ tail_record (take 8 r0) tail);
      Ok ([], mk_DataFrame ["Index"; "Aux"; "V"; "T"]%string
                ((fun row : list (pynum F) => Some <$> row) <$> aux))))
  /\ (take 1 r0 = ["t"%byte] ->
      read_ndc (State := State) (hdr ++ concat (r0 :: recs) ++ tail)
      = (aux ← mapM _aux_bytes_74_to_list_ndc
                 (r0 :: recs ++ tail_record (take 8 r0) tail);
         Ok ([], mk_DataFrame ["Index"; "Aux"; "V"; "T"; "t"]%string
                   ((fun row : list (pynum F) => Some <$> row) <$> aux)))).
Proof.
  intros Hhdr Hr0 Hrecs Htail. split; intros Hty.
  - rewrite contiguous_read_ndc by assumption.
    rewrite scan_records_aux_65
      by (rewrite <- Hty; eapply contiguous_type_bytes; eassumption).
    destruct (mapM _aux_bytes_65_to_list_ndc _) as [aux |] eqn:Haux;
      cbn [mbind result_bind]; [| reflexivity].
    rewrite Hty, bool_decide_eq_true_2 by reflexivity.
    apply mapM_result_Forall2 in Haux.
    rewrite pd_DataFrame_exact; [reflexivity | |].
    + inversion Haux. discriminate.
    + clear -Haux. induction Haux as [| r a rs rows Ha _ IH]; constructor; [| exact IH].
      apply aux_65_length in Ha. exact Ha.
  - rewrite contiguous_read_ndc by assumption.
    rewrite scan_records_aux_74
      by (rewrite <- Hty; eapply contiguous_type_bytes; eassumption).
    destruct (mapM _aux_bytes_74_to_list_ndc _) as [aux |] eqn:Haux;
      cbn [mbind result_bind]; [| reflexivity].
    rewrite Hty, bool_decide_eq_false_2 by discriminate.
    rewrite bool_decide_eq_true_2 by reflexivity.
    apply mapM_result_Forall2 in Haux.
    rewrite pd_DataFrame_exact; [reflexivity | |].
    + inversion Haux. discriminate.
    + clear -Haux. induction Haux as [| r a rs rows Ha _ IH]; constructor; [| exact IH].
      apply aux_74_length in Ha. exact Ha.
Qed.

End ContiguousRecords.

(** *** The Index column of the returned table *)

Section ReturnedIndex.
Context {F State : Type} `{PyFloat F} `{Dicts F State}.

(** Every main record collected by the scan has an Index that fits an
    unsigned 32-bit integer. *)
Lemma read_ndc_record_Index_range (bytes : list byte)
    (output output' : list (MainRecord F State)) (aux aux' : list (list (pynum F))) :
  Forall (fun r => 0 <= rec_Index r < 2 ^ 32) output ->
  read_ndc_record bytes output aux = Ok (output', aux') ->
  Forall (fun r => 0 <= rec_Index r < 2 ^ 32) output'.
Proof.
  intros Hall. unfold read_ndc_record.
  case_bool_decide; [| case_bool_decide; [| case_bool_decide]].
  - destruct (_bytes_to_list_ndc bytes) as [r |] eqn:Hr; cbn [mbind result_bind];
      [| discriminate].
    unfold mret, result_ret. intros [= <- _].
    apply Forall_app. split; [exact Hall |]. repeat constructor.
    + apply (bytes_to_list_ndc_Index_range bytes r Hr).
    + apply (bytes_to_list_ndc_Index_range bytes r Hr).
  - destruct (_aux_bytes_65_to_list_ndc bytes) as [a |]; cbn [mbind result_bind];
      [| discriminate].
    unfold mret, result_ret. intros [= <- _]. exact Hall.
  - destruct (_aux_bytes_74_to_list_ndc bytes) as [a |]; cbn [mbind result_bind];
      [| discriminate].
    unfold mret, result_ret. intros [= <- _]. exact Hall.
  - unfold mret, result_ret. intros [= <- _]. exact Hall.
Qed.

Lemma read_ndc_loop_Index_range (mm identifier : list byte) (fuel : nat)
    (header : option nat)
    (output output' : list (MainRecord F State)) (aux aux' : list (list (pynum F))) :
  Forall (fun r => 0 <= rec_Index r < 2 ^ 32) output ->
  read_ndc_loop fuel mm identifier header output aux = Ok (output', aux') ->
  Forall (fun r => 0 <= rec_Index r < 2 ^ 32) output'.
Proof.
  revert header output aux.
  induction fuel as [| fuel IH]; intros [pos |] output aux Hall Hloop;
    cbn [read_ndc_loop] in Hloop; try discriminate;
    try (injection Hloop as <- _; exact Hall).
  unfold mmap_seek in Hloop.
  destruct (pos <=? length mm)%nat; cbn [mbind result_bind] in Hloop; [| discriminate].
  destruct (read_ndc_record _ output aux) as [[o1 a1] |] eqn:Hrec;
    cbn [mbind result_bind] in Hloop; [| discriminate].
  eapply IH; [| exact Hloop].
  eapply read_ndc_record_Index_range; eassumption.
Qed.

Lemma assemble_main_Forall (P : MainRecord F State -> Prop)
    (output : list (MainRecord F State)) :
  Forall P output -> Forall (fun lr => P lr.2) (assemble_main output).
Proof.
  intros Hall.
  assert (Hrows : Forall P (snd <$> assemble_main output)).
  { rewrite assemble_main_rows. apply Forall_fmap, Forall_forall.
    intros lr Hin. apply drop_duplicates_from_elem in Hin as [Hin _].
    rewrite Forall_forall in Hall. apply Hall.
    rewrite <- (main_DataFrame_rows output).
    apply list_elem_of_fmap_2. exact Hin. }
  rewrite Forall_fmap in Hrows. exact Hrows.
Qed.

(** X13. The Index values of the main table returned by [read_ndc] are
    strictly increasing, whenever the column type cast leaves an Index
    that fits an unsigned 32-bit integer unchanged (as a cast of the Index
    column to unsigned 32 bits, or to any wider integer type, does): every
    Index of the table was read from an unsigned 32-bit field. *)
Theorem read_ndc_main_index (file : list byte)
    (df : MainFrame F State) (aux_df : DataFrame (pynum F)) :
  (forall r : MainRecord F State,
     0 <= rec_Index r < 2 ^ 32 -> rec_Index (dtype_cast r) = rec_Index r) ->
  read_ndc file = Ok (df, aux_df) ->
  StronglySorted Z.lt ((fun lr => rec_Index lr.2) <$> df).
Proof.
  intros Hcast. unfold read_ndc.
  destruct (mmap_open file) as [mm |]; cbn [mbind result_bind]; [| discriminate].
  destruct (read_ndc_loop _ mm _ _ [] []) as [[output aux] |] eqn:Hloop;
    cbn [mbind result_bind]; [| discriminate].
  destruct (if bool_decide _ then _ else _) as [a |]; cbn [mbind result_bind];
    [| discriminate].
  unfold mret, result_ret. intros [= <- _].
  apply read_ndc_loop_Index_range in Hloop; [| constructor].
  apply (assemble_main_Forall (fun r => 0 <= rec_Index r < 2 ^ 32)) in Hloop.
  rewrite <- list_fmap_compose.
  rewrite (Forall_fmap_ext_1 _ (fun lr : nat * MainRecord F State => rec_Index lr.2)).
  - apply (assemble_main_sorted output).
  - eapply Forall_impl; [exact Hloop |]. intros lr Hlr. cbn. apply Hcast. exact Hlr.
Qed.

End ReturnedIndex.

(** ** The fixed-block readers in closed form *)

Lemma for_each_fmap {A B R} (g : A -> B) (xs : list A) (body : B -> result (list R)) :
  for_each (g <$> xs) body = for_each xs (fun x => body (g x)).
Proof.
  induction xs as [| x xs IH]; [reflexivity |].
  rewrite fmap_cons. cbn [for_each]. rewrite IH. reflexivity.
Qed.

Lemma for_each_ext {A R} (xs : list A) (f g : A -> result (list R)) :
  (forall x, x ∈ xs -> f x = g x) -> for_each xs f = for_each xs g.
Proof.
  induction xs as [| x xs IH]; intros Hfg; [reflexivity |].
  cbn [for_each]. rewrite (Hfg x) by (apply elem_of_cons; left; reflexivity).
  rewrite IH; [reflexivity |].
  intros y Hy. apply Hfg. apply elem_of_cons. right. exact Hy.
Qed.

Lemma for_each_bind {A B R} (h : A -> list B) (xs : list A) (body : B -> result (list R)) :
  for_each (xs ≫= h) body = for_each xs (fun x => for_each (h x) body).
Proof.
  induction xs as [| x xs IH]; [reflexivity |].
  rewrite bind_cons, for_each_app. cbn [for_each]. rewrite IH. reflexivity.
Qed.

Lemma for_each_pure {A R} (xs : list A) (g : A -> list R) :
  for_each xs (fun x => Ok (g x)) = Ok (xs ≫= g).
Proof.
  induction xs as [| x xs IH]; [reflexivity |].
  cbn [for_each]. rewrite IH. reflexivity.
Qed.

Lemma bind_singleton_fmap {A B} (g : A -> B) (xs : list A) :
  xs ≫= (fun x => [g x]) = g <$> xs.
Proof. induction xs as [| x xs IH]; [reflexivity |]. rewrite bind_cons, IH. reflexivity. Qed.

Lemma list_bind_ext_in {A B} (f g : A -> list B) (xs : list A) :
  (forall x, x ∈ xs -> f x = g x) -> xs ≫= f = xs ≫= g.
Proof.
  induction xs as [| x xs IH]; intros Hfg; [reflexivity |].
  rewrite !bind_cons. rewrite (Hfg x) by (apply elem_of_cons; left; reflexivity).
  rewrite IH; [reflexivity |].
  intros y Hy. apply Hfg. apply elem_of_cons. right. exact Hy.
Qed.

Lemma py_slice_tail {A} (a c : Z) (l : list A) :
  0 <= a -> 0 < c ->
  py_slice a (- c) l
  = take (length l - Z.to_nat (a + c)) (drop (Z.to_nat a) l).
Proof.
  intros Ha Hc. unfold py_slice, clamp_index. cbv zeta.
  destruct (Z.ltb_spec a 0); [lia |].
  destruct (Z.ltb_spec (- c) 0); [| lia].
  destruct (Z.le_gt_cases (Z.of_nat (length l)) a) as [Hla | Hla].
  - rewrite (drop_ge l (Z.to_nat a)) by lia.
    rewrite drop_ge by lia. rewrite !take_nil. reflexivity.
  - f_equal; [lia | f_equal; lia].
Qed.

Lemma take_drop_take {A} (w o n : nat) (l : list A) :
  (o + w <= n)%nat -> take w (drop o (take n l)) = take w (drop o l).
Proof.
  intros Hn. rewrite skipn_firstn_comm, take_take. f_equal. lia.
Qed.

Section BlockBodies.
Context {F : Type} `{PyFloat F}.

Lemma unpack_chunks_seq (n size : nat) (items : list fmt_item) (buf : list byte) :
  unpack_chunks (F := F) n size items buf
  = (fun j => unpack_items items (take size (drop (j * size) buf))) <$> seq 0 n.
Proof.
  apply list_eq. intros i. rewrite list_lookup_fmap.
  destruct (Nat.lt_ge_cases i n) as [Hi | Hi].
  - rewrite unpack_chunks_nth by assumption.
    rewrite lookup_seq_lt by assumption. reflexivity.
  - rewrite lookup_seq_ge by assumption.
    apply lookup_ge_None_2. rewrite length_unpack_chunks. exact Hi.
Qed.

(** The loop over [struct.iter_unpack(fmt, bytes[132:stop])], [stop]
    negative, on a whole block: one iteration per sub-record of the
    payload. *)
Lemma block_body {R} (fmt : string) (items : list fmt_item) (stop : Z) (size per : nat)
    (f : list (pyval F) -> result (list R)) (b : list byte) :
  parse_format fmt = Some items -> calcsize items = size -> size <> 0%nat ->
  stop < 0 -> (132 + Z.to_nat (- stop) + per * size = record_len)%nat ->
  length b = record_len ->
  (items ← struct_iter_unpack fmt (py_slice 132 stop b); for_each items f)
  = for_each ((fun j => take size (drop (132 + j * size) b)) <$> seq 0 per)
      (fun sub => f (unpack_items items sub)).
Proof.
  intros Hp Hsz Hnz Hc Hrl Hb.
  replace stop with (- (- stop)) by lia.
  assert (Hpay : length (py_slice 132 (- (- stop)) b) = (per * size)%nat).
  { rewrite (length_py_slice_tail 132 (- stop)) by lia. lia. }
  rewrite (struct_iter_unpack_ok fmt items); [| exact Hp | lia |].
  2:{ rewrite Hpay, Hsz. apply Nat.Div0.mod_mul. }
  rewrite Hpay, Hsz, Nat.div_mul by exact Hnz. cbn [mbind result_bind].
  rewrite unpack_chunks_seq, !for_each_fmap.
  apply for_each_ext. intros j Hj. apply elem_of_seq in Hj. f_equal. f_equal.
  rewrite (py_slice_tail 132 (- stop)) by lia.
  rewrite take_drop_take by nia. rewrite drop_drop. reflexivity.
Qed.

(** The loop of a reader over the blocks of a file of [k] whole blocks:
    one iteration per sub-record, in file order. *)
Lemma blocks_body {R} (fmt : string) (items : list fmt_item) (stop : Z) (size per : nat)
    (f : list (pyval F) -> result (list R)) (file : list byte) (k : nat) :
  parse_format fmt = Some items -> calcsize items = size -> size <> 0%nat ->
  stop < 0 -> (132 + Z.to_nat (- stop) + per * size = record_len)%nat ->
  length file = (header + k * record_len)%nat ->
  for_each (blocks_from file header)
    (fun b => items ← struct_iter_unpack fmt (py_slice 132 stop b); for_each items f)
  = for_each (sub_records size per k file) (fun sub => f (unpack_items items sub)).
Proof.
  intros Hp Hsz Hnz Hc Hrl Hlen.
  rewrite (blocks_from_whole file k) by exact Hlen.
  unfold sub_records. rewrite for_each_bind.
  unfold whole_blocks. rewrite for_each_fmap.
  apply for_each_ext. intros i Hi. apply elem_of_seq in Hi.
  rewrite (block_body fmt items stop size per); try assumption.
  2:{ rewrite length_take, length_drop. nia. }
  f_equal. apply list_fmap_ext. intros n j Hj.
  apply lookup_seq in Hj as [-> Hn]. unfold sub_record, field.
  rewrite take_drop_take by nia. rewrite drop_drop.
  rewrite !Nat.add_assoc. reflexivity.
Qed.

Lemma sub_records_length (size per k : nat) (c : nat) (file : list byte) (sub : list byte) :
  (132 + c + per * size = record_len)%nat ->
  length file = (header + k * record_len)%nat ->
  sub ∈ sub_records size per k file -> length sub = size.
Proof.
  intros Hrl Hlen Hsub. unfold sub_records in Hsub.
  apply list_elem_of_bind in Hsub as (i & Hsub & Hi).
  apply list_elem_of_fmap in Hsub as (j & -> & Hj).
  apply elem_of_seq in Hi, Hj. unfold sub_record.
  apply field_length. nia.
Qed.

End BlockBodies.

Section ClosedForms.
Context {F State : Type} `{PyFloat F} `{Dicts F State}.

(** X14. On a file of [k] whole blocks after the header, the main-sample
    reader returns one row for each of the 495 8-byte sub-records of each
    block, in file order: sub-record [j] of block [i] lies at byte offset
    4096 + 4096 i + 132 + 8 j of the file, its voltage is the binary32
    value in its first four bytes divided by 10000, its current the
    binary32 value in its last four bytes. *)
Theorem read_ndc_8_closed_form (file : list byte) (k : nat) :
  length file = (header + k * record_len)%nat ->
  read_ndc_8 file
  = Ok (imap (fun i '(v, c) => mk_SampleRow v c (Z.of_nat i + 1))
          (sample_of <$> sub_records 8 495 k file)).
Proof.
  intros Hlen. rewrite read_ndc_8_blocks.
  rewrite (proj2 (Nat.leb_le _ _)) by lia.
  unfold ndc8_rows.
  rewrite (blocks_body "<ff" [FmtFloat; FmtFloat] (-4) 8 495 _ file k);
    [| reflexivity | reflexivity | discriminate | lia | reflexivity | exact Hlen].
  rewrite (for_each_ext _ _ (fun sub => Ok [sample_of sub])).
  - rewrite for_each_pure, bind_singleton_fmap. reflexivity.
  - intros sub Hsub.
    apply (sub_records_length 8 495 k 4 file) in Hsub; [| reflexivity | exact Hlen].
    cbn [unpack_items unpack_item item_size item_float lookup list_lookup
         mbind result_bind].
    change (take 4 sub) with (field 0 4 sub).
    change (take 4 (drop 4 sub)) with (field 4 4 sub).
    rewrite !lu_uint_field. reflexivity.
Qed.

(** X15. On a file of [k] whole blocks after the header, the run-info reader
    keeps, of the 83 47-byte sub-records of each block in file order, those
    with a non-zero index: time is the signed 32-bit integer at offset 0
    of the sub-record divided by 1000, timestamp, raw step and index are
    the signed 32-bit integers at offsets 33, 37 and 41. The raw steps are
    then replaced by their change counter. *)
Theorem read_data_runInfo_ndc8_closed_form (file : list byte) (k : nat) :
  length file = (header + k * record_len)%nat ->
  read_data_runInfo_ndc8 file
  = Ok (let rec := sub_records 47 83 k file ≫= runInfo_of in
        set_Step rec (_count_changes (ri_Step <$> rec))).
Proof.
  intros Hlen. rewrite read_data_runInfo_ndc8_blocks.
  rewrite (proj2 (Nat.leb_le _ _)) by lia.
  unfold runInfo_rows.
  rewrite (blocks_body "<i29siii2s"
             [FmtInt true 4; FmtBytes 29; FmtInt true 4; FmtInt true 4;
              FmtInt true 4; FmtBytes 2] (-63) 47 83 _ file k);
    [| reflexivity | reflexivity | discriminate | lia | reflexivity | exact Hlen].
  rewrite (for_each_ext _ _ (fun sub => Ok (runInfo_of sub))).
  - rewrite for_each_pure. reflexivity.
  - intros sub Hsub.
    apply (sub_records_length 47 83 k 63 file) in Hsub; [| reflexivity | exact Hlen].
    cbn [unpack_items unpack_item item_size item_int lookup list_lookup
         mbind result_bind].
    rewrite !drop_drop. cbn [Nat.add].
    change (take 4 sub) with (field 0 4 sub).
    change (take 4 (drop 33 sub)) with (field 33 4 sub).
    change (take 4 (drop 37 sub)) with (field 37 4 sub).
    change (take 4 (drop 41 sub)) with (field 41 4 sub).
    rewrite !lu_int_field by lia. reflexivity.
Qed.

(** X16. On a file of [k] whole blocks after the header, the step reader goes
    through the 107 37-byte sub-records of each block in file order: a
    sub-record with step index zero (the signed 32-bit integer at offset
    4) is skipped; for any other one the status byte at offset 24 is
    looked up, which stops the reader with [KeyError] when it has no entry,
    and the row holds the cycle (the signed 32-bit integer at offset 0,
    plus one), the step index and the state. The rows are numbered from 1
    in the Step column. *)
Theorem read_data_step_ndc8_closed_form (file : list byte) (k : nat) :
  length file = (header + k * record_len)%nat ->
  read_data_step_ndc8 file
  = (rec ← for_each (sub_records 37 107 k file) step_of;
     Ok (imap (fun i '(cycle, step_index, status) =>
                 mk_StepRow cycle step_index status (Z.of_nat i + 1)) rec)).
Proof.
  intros Hlen. rewrite read_data_step_ndc8_blocks.
  rewrite (proj2 (Nat.leb_le _ _)) by lia.
  unfold step_rows.
  rewrite (blocks_body "<ii16sb12s"
             [FmtInt true 4; FmtInt true 4; FmtBytes 16; FmtInt true 1; FmtBytes 12]
             (-5) 37 107 _ file k);
    [| reflexivity | reflexivity | discriminate | lia | reflexivity | exact Hlen].
  rewrite (for_each_ext _ _ step_of); [reflexivity |].
  intros sub Hsub.
  apply (sub_records_length 37 107 k 5 file) in Hsub; [| reflexivity | exact Hlen].
  cbn [unpack_items unpack_item item_size item_int lookup list_lookup
       mbind result_bind].
  rewrite !drop_drop. cbn [Nat.add].
  change (take 4 sub) with (field 0 4 sub).
  change (take 4 (drop 4 sub)) with (field 4 4 sub).
  change (take 1 (drop 24 sub)) with (field 24 1 sub).
  rewrite !lu_int_field by lia. reflexivity.
Qed.

End ClosedForms.

(** ** Errors of the fixed-block readers *)

Lemma for_each_Raise_inv {A R} (xs : list A) (body : A -> result (list R)) (e : pyexc) :
  for_each xs body = Raise e -> exists x, x ∈ xs /\ body x = Raise e.
Proof.
  induction xs as [| x xs IH]; cbn [for_each]; [discriminate |].
  destruct (body x) as [rows |] eqn:Hx; cbn [mbind result_bind].
  - destruct (for_each xs body) as [rest |]; cbn [mbind result_bind]; [discriminate |].
    intros [= <-]. destruct IH as (y & Hy & Hby); [reflexivity |].
    exists y. split; [apply elem_of_cons; right; exact Hy | exact Hby].
  - intros [= <-]. exists x. split; [apply elem_of_cons; left; reflexivity | exact Hx].
Qed.

Section ReaderErrors.
Context {F State : Type} `{PyFloat F} `{Dicts F State}.

(** A loop over [struct.iter_unpack] raises [struct.error] or an error of
    its body. *)
Lemma iter_body_errors {R} (fmt : string) (items : list fmt_item)
    (f : list (pyval F) -> result (list R)) (P : pyexc -> Prop)
    (b : list byte) (e : pyexc) :
  parse_format fmt = Some items ->
  (forall sub e', f (unpack_items items sub) = Raise e' -> P e') ->
  (items ← struct_iter_unpack fmt b; for_each items f) = Raise e ->
  e = StructError \/ P e.
Proof.
  intros Hp Hf. unfold struct_iter_unpack. rewrite Hp. cbv zeta.
  destruct (calcsize items =? 0)%nat; [intros [= <-]; left; reflexivity |].
  destruct (_ mod _ =? 0)%nat; [| intros [= <-]; left; reflexivity].
  cbn [mbind result_bind]. rewrite unpack_chunks_seq, for_each_fmap.
  intros He. apply for_each_Raise_inv in He as (j & _ & Hj).
  right. eapply Hf. exact Hj.
Qed.

Lemma ndc8_rows_errors (b : list byte) (e : pyexc) :
  ndc8_rows b = Raise e -> e = StructError.
Proof.
  intros He. unfold ndc8_rows in He.
  apply (iter_body_errors "<ff" [FmtFloat; FmtFloat] _ (fun _ => False)) in He
    as [He | []]; [exact He | reflexivity |].
  intros sub e'. cbn. discriminate.
Qed.

Lemma runInfo_rows_errors (b : list byte) (e : pyexc) :
  runInfo_rows b = Raise e -> e = StructError.
Proof.
  intros He. unfold runInfo_rows in He.
  apply (iter_body_errors "<i29siii2s"
           [FmtInt true 4; FmtBytes 29; FmtInt true 4; FmtInt true 4;
            FmtInt true 4; FmtBytes 2] _ (fun _ => False)) in He
    as [He | []]; [exact He | reflexivity |].
  intros sub e'. cbn. discriminate.
Qed.

Lemma step_rows_errors (b : list byte) (e : pyexc) :
  step_rows b = Raise e -> e = StructError \/ e = KeyError.
Proof.
  intros He. unfold step_rows in He.
  apply (iter_body_errors "<ii16sb12s"
           [FmtInt true 4; FmtInt true 4; FmtBytes 16; FmtInt true 1; FmtBytes 12]
           _ (fun e => e = KeyError)) in He; [exact He | reflexivity |].
  intros sub e'.
  cbn [unpack_items unpack_item item_size item_int lookup list_lookup
       mbind result_bind].
  destruct (_ =? 0); [discriminate |].
  unfold dict_get. destruct (state_dict !! _); cbn [mbind result_bind];
    [discriminate | intros [= <-]; reflexivity].
Qed.

(** X17. The errors of the three fixed-block readers. A file shorter than the
    4096-byte header raises [ValueError] (an empty file cannot be mapped,
    and seeking to the end of the header fails). On any other file the
    scanning loop ends, and the only errors are [struct.error], from a
    payload that is no whole number of sub-records, and for the step
    reader [KeyError], from a status byte without an entry in the state
    table. *)
Theorem fixed_block_reader_errors (file : list byte) :
  ((length file < header)%nat ->
     read_ndc_8 file = Raise ValueError
     /\ read_data_runInfo_ndc8 file = Raise ValueError
     /\ read_data_step_ndc8 file = Raise ValueError)
  /\ ((header <= length file)%nat ->
      (forall e, read_ndc_8 file = Raise e -> e = StructError)
      /\ (forall e, read_data_runInfo_ndc8 file = Raise e -> e = StructError)
      /\ (forall e, read_data_step_ndc8 file = Raise e ->
            e = StructError \/ e = KeyError)).
Proof.
  rewrite read_ndc_8_blocks, read_data_runInfo_ndc8_blocks, read_data_step_ndc8_blocks.
  split; intros Hlen.
  - rewrite (proj2 (Nat.leb_gt _ _)) by exact Hlen. repeat split.
  - rewrite (proj2 (Nat.leb_le _ _)) by exact Hlen.
    split; [| split]; intros e He.
    + destruct (for_each _ ndc8_rows) as [rec |] eqn:Hrec; [discriminate |].
      injection He as <-.
      apply for_each_Raise_inv in Hrec as (b & _ & Hb).
      eapply ndc8_rows_errors. exact Hb.
    + destruct (for_each _ runInfo_rows) as [rec |] eqn:Hrec; [discriminate |].
      injection He as <-.
      apply for_each_Raise_inv in Hrec as (b & _ & Hb).
      eapply runInfo_rows_errors. exact Hb.
    + destruct (for_each _ step_rows) as [rec |] eqn:Hrec; [discriminate |].
      injection He as <-.
      apply for_each_Raise_inv in Hrec as (b & _ & Hb).
      eapply step_rows_errors. exact Hb.
Qed.

End ReaderErrors.

(** ** Merging the fixed-block tables: errors and exact cases *)

Lemma ffill_from_all_valid {A} (last : option A) (xs : list A) :
  ffill_from last (Some <$> xs) = Some <$> xs.
Proof.
  revert last. induction xs as [| x xs IH]; intros last; [reflexivity |].
  rewrite fmap_cons. cbn [ffill_from]. rewrite IH. reflexivity.
Qed.

Lemma interpolate_from_all_valid {A F} `{PyFloat F} (to_float : A -> F)
    (prev : option (nat * A)) (xs : list A) :
  interpolate_from to_float prev (Some <$> xs) = (fun x => Some (Exact x)) <$> xs.
Proof.
  revert prev. induction xs as [| x xs IH]; intros prev; [reflexivity |].
  rewrite !fmap_cons. cbn [interpolate_from]. rewrite IH. reflexivity.
Qed.

Lemma find_numbered {State} (df : list (StepRow State)) (a : Z) (o : option Z) :
  st_Step <$> df = seqZ a (Z.of_nat (length df)) ->
  List.find (fun s => bool_decide (Some (st_Step s) = o)) df
  = o ≫= fun s => if a <=? s then df !! Z.to_nat (s - a) else None.
Proof.
  revert a. induction df as [| r df IH]; intros a Hseq.
  - destruct o as [s |]; cbn; [destruct (a <=? s) |]; reflexivity.
  - cbn [length] in Hseq. rewrite seqZ_cons in Hseq by lia.
    rewrite fmap_cons in Hseq. injection Hseq as Hr Hseq.
    replace (Z.pred (Z.of_nat (S (length df)))) with (Z.of_nat (length df)) in Hseq by lia.
    cbn [List.find]. case_bool_decide as Ho.
    + subst o. cbn. rewrite Hr, Z.leb_refl, Z.sub_diag. reflexivity.
    + rewrite (IH (Z.succ a) Hseq). destruct o as [s |]; [| reflexivity]. cbn.
      assert (s <> a) by congruence.
      destruct (Z.leb_spec (Z.succ a) s), (Z.leb_spec a s); try lia; [| reflexivity].
      replace (Z.to_nat (s - a)) with (S (Z.to_nat (s - Z.succ a))) by lia.
      reflexivity.
Qed.

Section MergeExtras.
Context {F State : Type} `{PyFloat F} `{Platform}.

Lemma astype_int_column_errors (cs : list (option (cell Z F))) (e : pyexc) :
  astype_int_column cs = Raise e -> e = IntCastingNaNError.
Proof.
  induction cs as [| c cs IH]; cbn [astype_int_column]; [discriminate |].
  destruct (astype_int c) as [z |] eqn:Hc; cbn [mbind result_bind].
  - destruct (astype_int_column cs); cbn [mbind result_bind]; [discriminate |].
    intros [= <-]. apply IH. reflexivity.
  - intros [= <-]. unfold astype_int in Hc.
    destruct c as [[z | f] |]; [discriminate | destruct (float_to_int f) |];
      congruence.
Qed.

Lemma astype_int_column_exact (zs : list Z) :
  astype_int_column ((fun z => Some (Exact (F := F) z)) <$> zs) = Ok zs.
Proof.
  induction zs as [| z zs IH]; [reflexivity |].
  rewrite fmap_cons. cbn [astype_int_column astype_int mbind result_bind].
  rewrite IH. reflexivity.
Qed.

(** X18. The errors of the merge of lines 52-59. An empty run-info table has no
    last index: [IndexError]. Otherwise the only error is the one of the
    integer conversion of the interpolated Timestamp column, and it is
    raised in particular when the first main sample that is kept has no
    run-info record, since its Timestamp then stays missing. *)
Theorem merge_runInfo_errors (data_df : list (SampleRow F))
    (runInfo_df : list (RunInfoRow F)) :
  (runInfo_df = [] -> merge_runInfo data_df runInfo_df = Raise IndexError)
  /\ (forall e, merge_runInfo data_df runInfo_df = Raise e ->
        (e = IndexError /\ runInfo_df = []) \/ e = IntCastingNaNError)
  /\ (forall last_index r rest,
        last (ri_Index <$> runInfo_df) = Some last_index ->
        List.filter (fun r => smp_Index r <=? last_index) data_df = r :: rest ->
        List.filter (fun ri => ri_Index ri =? smp_Index r) runInfo_df = [] ->
        merge_runInfo data_df runInfo_df = Raise IntCastingNaNError).
Proof.
  split; [| split].
  - intros ->. reflexivity.
  - intros e. unfold merge_runInfo, iat_last.
    destruct (last (ri_Index <$> runInfo_df)) as [last_index |] eqn:Hlast;
      cbn [mbind result_bind].
    + destruct (astype_int_column _) as [seconds |] eqn:Hsec;
        cbn [mbind result_bind]; [discriminate |].
      intros [= <-]. right. eapply astype_int_column_errors. exact Hsec.
    + intros [= <-]. left. split; [reflexivity |].
      apply last_None in Hlast. destruct runInfo_df; [reflexivity | discriminate].
  - intros last_index r rest. apply merge_runInfo_leading_gap.
Qed.

Lemma find_present (runInfo_df : list (RunInfoRow F)) (x : Z) :
  x ∈ ri_Index <$> runInfo_df ->
  exists ri, List.find (fun ri => ri_Index ri =? x) runInfo_df = Some ri.
Proof.
  intros Hx. apply list_elem_of_fmap in Hx as (ri & -> & Hri).
  destruct (List.find _ runInfo_df) as [ri' |] eqn:Hfind; [eexists; reflexivity |].
  apply list_elem_of_In in Hri.
  apply (List.find_none _ _ Hfind ri) in Hri.
  rewrite Z.eqb_refl in Hri. discriminate.
Qed.

Lemma fill_rows_complete (kept : list (SampleRow F)) (infos : list (RunInfoRow F)) :
  length kept = length infos ->
  let joined := zip_with (fun l ri =>
                  mk_JoinedRow (smp_Voltage l) (smp_Current l) (smp_Index l)
                    (Some (ri_Time ri)) (Some (ri_Timestamp ri)) (Some (ri_Step ri)))
                  kept infos in
  j_Step <$> joined = Some <$> (ri_Step <$> infos)
  /\ j_Time <$> joined = Some <$> (ri_Time <$> infos)
  /\ j_Timestamp <$> joined = Some <$> (ri_Timestamp <$> infos)
  /\ fill_rows joined (Some <$> (ri_Step <$> infos))
       (fmap (M := option) cell_float
          <$> ((fun x => Some (Exact (F := F) x)) <$> (ri_Time <$> infos)))
       (map_fromtimestamp (ri_Timestamp <$> infos))
     = zip_with (fun l ri =>
         mk_FilledRow (smp_Voltage l) (smp_Current l) (smp_Index l)
           (Some (ri_Time ri)) (fromtimestamp (ri_Timestamp ri)) (Some (ri_Step ri)))
         kept infos.
Proof.
  cbv zeta. revert infos. induction kept as [| l kept IH]; intros [| ri infos] Hlen;
    try discriminate.
  - repeat split.
  - injection Hlen as Hlen. destruct (IH infos Hlen) as (H1 & H2 & H3 & H4).
    cbn [zip_with]. rewrite !fmap_cons, H1, H2, H3.
    repeat split. unfold fill_rows, map_fromtimestamp in H4 |- *.
    rewrite !fmap_cons. cbn [zip zip_with]. rewrite H4. reflexivity.
Qed.

(** X19. When the run-info Index values are distinct and every main sample that
    is kept has a run-info record, nothing is filled in: every sample is
    returned with the Step and the Time of its record, unchanged, and with
    the calendar time of the record's integer Timestamp. *)
Theorem merge_runInfo_complete (data_df : list (SampleRow F))
    (runInfo_df : list (RunInfoRow F)) (last_index : Z) :
  NoDup (ri_Index <$> runInfo_df) ->
  last (ri_Index <$> runInfo_df) = Some last_index ->
  let kept := List.filter (fun r => smp_Index r <=? last_index) data_df in
  Forall (fun l => smp_Index l ∈ ri_Index <$> runInfo_df) kept ->
  exists infos,
    Forall2 (fun l ri =>
               List.find (fun ri => ri_Index ri =? smp_Index l) runInfo_df = Some ri)
            kept infos
    /\ merge_runInfo data_df runInfo_df
       = Ok (zip_with (fun l ri =>
               mk_FilledRow (smp_Voltage l) (smp_Current l) (smp_Index l)
                 (Some (ri_Time ri)) (fromtimestamp (ri_Timestamp ri))
                 (Some (ri_Step ri)))
               kept infos).
Proof.
  intros Hnd Hlast kept Hall.
  assert (Hinfos : exists infos,
            Forall2 (fun l ri =>
                       List.find (fun ri => ri_Index ri =? smp_Index l) runInfo_df
                       = Some ri) kept infos).
  { clear -Hall. induction Hall as [| l kept Hl _ [infos IH]].
    - exists []. constructor.
    - destruct (find_present runInfo_df (smp_Index l) Hl) as [ri Hri].
      exists (ri :: infos). constructor; assumption. }
  destruct Hinfos as [infos Hinfos]. exists infos. split; [exact Hinfos |].
  unfold merge_runInfo, iat_last. rewrite Hlast. cbn [mbind result_bind]. fold kept.
  rewrite (merge_runInfo_left_unique kept runInfo_df Hnd).
  assert (Hjoined :
    (fun l =>
       let info := List.find (fun ri => ri_Index ri =? smp_Index l) runInfo_df in
       mk_JoinedRow (smp_Voltage l) (smp_Current l) (smp_Index l)
         (ri_Time <$> info) (ri_Timestamp <$> info) (ri_Step <$> info)) <$> kept
    = zip_with (fun l ri =>
        mk_JoinedRow (smp_Voltage l) (smp_Current l) (smp_Index l)
          (Some (ri_Time ri)) (Some (ri_Timestamp ri)) (Some (ri_Step ri)))
        kept infos).
  { clear -Hinfos. induction Hinfos as [| l ri kept infos Hri _ IH]; [reflexivity |].
    rewrite fmap_cons, IH. cbn [zip_with]. cbv zeta. rewrite Hri. reflexivity. }
  rewrite Hjoined.
  destruct (fill_rows_complete kept infos (Forall2_length _ _ _ Hinfos))
    as (H1 & H2 & H3 & H4).
  rewrite H1, H2, H3. unfold ffill, interpolate.
  rewrite ffill_from_all_valid, !interpolate_from_all_valid, astype_int_column_exact.
  cbn [mbind result_bind]. unfold mret, result_ret. f_equal. exact H4.
Qed.

(** X20. The step table of the step reader numbers its rows 1, 2, 3, ..., so
    the final left join on Step neither drops nor duplicates a row: a row
    whose Step is [s] receives the cycle, the step index and the state of
    row [s] of the step table, and a row with a missing Step, or with a
    Step beyond the step table, receives missing cells. *)
Theorem merge_step_by_number `{Dicts F State} (file : list byte)
    (step_df : list (StepRow State)) (filled : list (FilledRow F)) :
  read_data_step_ndc8 (F := F) file = Ok step_df ->
  merge_step_left filled step_df
  = (fun l =>
       let step := f_Step l ≫= fun s =>
                     if 1 <=? s then step_df !! Z.to_nat (s - 1) else None in
       mk_Ndc8Row (f_Voltage l) (f_Current l) (f_Index l) (f_Time l) (f_Timestamp l)
         (f_Step l) (st_Cycle <$> step) (st_Step_Index <$> step) (st_Status <$> step))
      <$> filled.
Proof.
  intros Hread. apply read_data_step_ndc8_steps in Hread as [Hseq Hnd].
  rewrite (merge_step_left_unique filled step_df Hnd).
  apply list_fmap_ext. intros i l _. cbv zeta.
  rewrite (find_numbered step_df 1 (f_Step l) Hseq). reflexivity.
Qed.

Lemma filter_seqZ_le {A} (key : A -> Z) (l : list A) (a b : Z) :
  key <$> l = seqZ a (Z.of_nat (length l)) ->
  key <$> List.filter (fun r => key r <=? b) l
  = seqZ a (Z.min (Z.of_nat (length l)) (b - a + 1)).
Proof.
  revert a. induction l as [| r l IH]; intros a Hseq.
  - rewrite seqZ_nil by (cbn [length]; lia). reflexivity.
  - cbn [length] in Hseq. rewrite seqZ_cons in Hseq by lia.
    rewrite fmap_cons in Hseq. injection Hseq as Hr Hseq.
    replace (Z.pred (Z.of_nat (S (length l)))) with (Z.of_nat (length l)) in Hseq by lia.
    specialize (IH (Z.succ a) Hseq).
    cbn [List.filter length]. rewrite Hr.
    destruct (Z.leb_spec a b) as [Hab | Hab].
    + rewrite fmap_cons, IH, Hr.
      rewrite (seqZ_cons a) by lia. f_equal. f_equal. lia.
    + rewrite IH.
      rewrite !(seqZ_nil) by lia. reflexivity.
Qed.

(** X21. The Index column of the merged table, when the run-info Index values
    are distinct: the main-sample reader numbers its [N] rows 1..N, the
    merge keeps those up to the last run-info Index, one row each, so the
    merged table has the rows 1..min(N, last index) and is never longer
    than the last run-info Index. *)
Theorem merge_index_column `{Dicts F State} (file : list byte)
    (data_df : list (SampleRow F)) (runInfo_df : list (RunInfoRow F))
    (filled : list (FilledRow F)) :
  read_ndc_8 file = Ok data_df ->
  NoDup (ri_Index <$> runInfo_df) ->
  merge_runInfo data_df runInfo_df = Ok filled ->
  exists last_index,
    last (ri_Index <$> runInfo_df) = Some last_index
    /\ f_Index <$> filled
       = seqZ 1 (Z.min (Z.of_nat (length data_df)) last_index).
Proof.
  intros Hread Hnd. unfold merge_runInfo, iat_last.
  destruct (last (ri_Index <$> runInfo_df)) as [last_index |];
    cbn [mbind result_bind]; [| discriminate].
  set (kept := List.filter (fun r => smp_Index r <=? last_index) data_df).
  set (joined := merge_runInfo_left kept runInfo_df).
  destruct (astype_int_column _) as [seconds |] eqn:Hsec;
    cbn [mbind result_bind]; [| discriminate].
  unfold mret, result_ret. intros [= <-].
  exists last_index. split; [reflexivity |].
  apply astype_int_column_Forall2 in Hsec.
  destruct (fill_rows_columns joined (ffill (j_Step <$> joined))
              (fmap (M := option) cell_float <$> interpolate id (j_Time <$> joined))
              (map_fromtimestamp seconds))
    as (HIndex & _).
  { unfold ffill. rewrite length_ffill_from, length_fmap. reflexivity. }
  { rewrite length_fmap. unfold interpolate.
    rewrite length_interpolate_from, length_fmap. reflexivity. }
  { unfold map_fromtimestamp. rewrite length_fmap.
    rewrite <- (Forall2_length _ _ _ Hsec). unfold interpolate.
    rewrite length_interpolate_from, length_fmap. reflexivity. }
  rewrite HIndex. unfold joined.
  rewrite (merge_runInfo_left_unique kept runInfo_df Hnd).
  rewrite <- list_fmap_compose.
  change (j_Index ∘ _) with (smp_Index (F := F)).
  assert (Hidx : smp_Index <$> data_df = seqZ 1 (Z.of_nat (length data_df))).
  { rewrite read_ndc_8_blocks in Hread.
    destruct (header <=? length file)%nat; [| discriminate].
    destruct (for_each _ ndc8_rows) as [rec |]; [| discriminate].
    cbn in Hread. injection Hread as <-.
    rewrite length_imap. apply sample_rows_index. }
  unfold kept. rewrite (filter_seqZ_le smp_Index data_df 1 last_index Hidx).
  f_equal. lia.
Qed.

End MergeExtras.

(** ** The archive: member names and the version check *)

Lemma skip_digits_split (cs : list ascii) :
  exists ds, cs = ds ++ skip_digits cs
             /\ Forall (fun c => is_Some (digit_of_ascii c)) ds.
Proof.
  induction cs as [| c cs [ds [Hcs Hds]]]; [exists []; split; [reflexivity | constructor] |].
  cbn [skip_digits]. destruct (digit_of_ascii c) as [d |] eqn:Hc.
  - exists (c :: ds). split; [cbn; f_equal; exact Hcs |].
    constructor; [rewrite Hc; eexists; reflexivity | exact Hds].
  - exists []. split; [reflexivity | constructor].
Qed.

Lemma skip_digits_app (ds rest : list ascii) :
  Forall (fun c => is_Some (digit_of_ascii c)) ds ->
  head rest ≫= digit_of_ascii = None ->
  skip_digits (ds ++ rest) = rest.
Proof.
  intros Hds Hrest. induction Hds as [| c ds [d Hc] _ IH].
  - destruct rest as [| c rest]; [reflexivity |].
    cbn in Hrest |- *. rewrite Hrest. reflexivity.
  - cbn [app skip_digits]. rewrite Hc. exact IH.
Qed.

Lemma digits_dot_ndc_spec (cs : list ascii) :
  digits_dot_ndc cs = true
  <-> exists ds post,
        cs = ds ++ list_ascii_of_string ".ndc" ++ post
        /\ ds <> [] /\ Forall (fun c => is_Some (digit_of_ascii c)) ds.
Proof.
  split.
  - destruct cs as [| c rest]; [discriminate |]. cbn [digits_dot_ndc].
    destruct (digit_of_ascii c) as [d |] eqn:Hc; [| discriminate].
    intros Ht. apply bool_decide_eq_true_1 in Ht.
    destruct (skip_digits_split rest) as (ds & Hrest & Hds).
    exists (c :: ds), (drop 4 (skip_digits rest)).
    split; [| split; [discriminate |]].
    + cbn [app]. f_equal. rewrite <- Ht, take_drop. exact Hrest.
    + constructor; [rewrite Hc; eexists; reflexivity | exact Hds].
  - intros (ds & post & -> & Hne & Hds).
    destruct Hds as [| c ds [d Hc] Hds]; [contradiction |].
    cbn [app digits_dot_ndc]. rewrite Hc.
    rewrite skip_digits_app by (exact Hds || reflexivity).
    apply bool_decide_eq_true_2. reflexivity.
Qed.

(** X22. The pattern [".*_([0-9]+)[.]ndc"] is searched anywhere in a member
    name: a name matches exactly when it contains an underscore followed
    by one or more decimal digits and the four characters [.ndc]. *)
Theorem aux_name_match_spec (f : string) :
  aux_name_match f = true
  <-> exists pre ds post,
        list_ascii_of_string f
        = pre ++ "_"%char :: ds ++ list_ascii_of_string ".ndc" ++ post
        /\ ds <> [] /\ Forall (fun c => is_Some (digit_of_ascii c)) ds.
Proof.
  unfold aux_name_match. generalize (list_ascii_of_string f) as cs. clear f.
  intros cs. split.
  - induction cs as [| c cs IH]; [discriminate |]. cbn [search_aux_name].
    intros Hm. apply orb_true_iff in Hm as [Hm | Hm].
    + apply andb_true_iff in Hm as [Hc Hd]. apply Ascii.eqb_eq in Hc. subst c.
      apply digits_dot_ndc_spec in Hd as (ds & post & -> & Hne & Hds).
      exists [], ds, post. repeat split; assumption.
    + destruct (IH Hm) as (pre & ds & post & -> & Hne & Hds).
      exists (c :: pre), ds, post. repeat split; assumption.
  - intros (pre & ds & post & -> & Hne & Hds).
    induction pre as [| c pre IH]; cbn [app search_aux_name].
    + rewrite Ascii.eqb_refl. cbn [andb].
      rewrite (proj2 (digits_dot_ndc_spec _)); [reflexivity |].
      exists ds, post. repeat split; assumption.
    + rewrite IH. apply orb_true_r.
Qed.

Section ArchiveExtras.
Context {F State : Type} `{PyFloat F} `{Dicts F State} `{Platform} `{AuxJoin F State}.

Lemma read_aux_files_none (zf : Archive) (names : list string)
    (aux_df : DataFrame (pynum F)) (tmpdir : list string) :
  Forall (fun n => aux_name_match n = false) names ->
  read_aux_files (State := State) zf names aux_df tmpdir = (Ok aux_df, tmpdir).
Proof.
  induction 1 as [| n names Hn _ IH]; [reflexivity |].
  cbn [read_aux_files]. rewrite Hn. exact IH.
Qed.

(** X23. On the legacy path, when no member name of the archive matches the
    auxiliary-file pattern, no further member is extracted and the result
    is the main table of [data.ndc] as [read_ndc] returns it. *)
Theorem read_ndax_legacy_no_aux (zf : Archive) (data_file : list byte)
    (tmpdir : list string) :
  Forall (fun m : string * list byte => aux_name_match m.1 = false) zf ->
  read_ndax_legacy zf data_file tmpdir
  = (match read_ndc data_file with
     | Ok (data_df, _) => Ok (TableLegacy data_df)
     | Raise e => Raise e
     end, tmpdir).
Proof.
  intros Hzf. unfold read_ndax_legacy.
  unfold mbind at 1, io_bind at 1, lift at 1.
  destruct (read_ndc data_file) as [[data_df aux] |]; [| reflexivity].
  unfold mbind at 1, io_bind at 1.
  rewrite read_aux_files_none by (apply Forall_fmap; exact Hzf).
  reflexivity.
Qed.

Lemma zf_extract_missing (zf : Archive) (name : string) (tmpdir : list string) :
  Forall (fun m : string * list byte => m.1 <> name) zf ->
  zf_extract zf name tmpdir = (Raise KeyError, tmpdir).
Proof.
  intros Hzf. unfold zf_extract.
  destruct (List.find _ (reverse zf)) as [m |] eqn:Hfind; [| reflexivity].
  apply List.find_some in Hfind as [Hin Hm].
  apply list_elem_of_In in Hin. rewrite elem_of_reverse in Hin.
  rewrite Forall_forall in Hzf. apply Hzf in Hin.
  apply String.eqb_eq in Hm. contradiction.
Qed.

(** X24. Errors of the version check of [read_ndax]. Without a member
    [VersionInfo.xml] the reader raises [KeyError] and extracts nothing.
    Otherwise that member is the only one extracted when the version
    information cannot be read, when the server version has no character
    at position 14 ([IndexError]), or when that character is no decimal
    digit ([ValueError]): no data file is extracted. *)
Theorem read_ndax_version_errors (zf : Archive) (tmpdir : list string) :
  (Forall (fun m : string * list byte => m.1 <> "VersionInfo.xml"%string) zf ->
     read_ndax zf tmpdir = (Raise KeyError, tmpdir))
  /\ (forall version_info tmpdir',
        zf_extract zf "VersionInfo.xml" tmpdir = (Ok version_info, tmpdir') ->
        tmpdir' = tmpdir ++ ["VersionInfo.xml"%string]
        /\ match xml_versions version_info with
           | Raise e => read_ndax zf tmpdir = (Raise e, tmpdir')
           | Ok (server, _) =>
               match String.get 14 server with
               | None => read_ndax zf tmpdir = (Raise IndexError, tmpdir')
               | Some c =>
                   digit_of_ascii c = None ->
                   read_ndax zf tmpdir = (Raise ValueError, tmpdir')
               end
           end).
Proof.
  split.
  - intros Hzf. unfold read_ndax. unfold mbind at 1, io_bind at 1.
    rewrite zf_extract_missing by exact Hzf. reflexivity.
  - intros version_info tmpdir' Hx. split.
    { unfold zf_extract in Hx. destruct (List.find _ _); congruence. }
    destruct (xml_versions version_info) as [[server client] | e] eqn:Hv.
    + destruct (String.get 14 server) as [c |] eqn:Hg; [intros Hc |].
      all: unfold read_ndax; unfold mbind at 1, io_bind at 1; rewrite Hx.
      all: unfold mbind at 1, io_bind at 1, lift at 1; rewrite Hv.
      all: unfold mbind at 1, io_bind at 1, lift at 1; unfold str_index; rewrite Hg.
      * cbn [mbind result_bind]. unfold py_int_char. rewrite Hc. reflexivity.
      * reflexivity.
    + unfold read_ndax. unfold mbind at 1, io_bind at 1. rewrite Hx.
      unfold mbind at 1, io_bind at 1, lift at 1. rewrite Hv. reflexivity.
Qed.

End ArchiveExtras.

(** ** The statements of this part on sample files *)

Section ExtraSamples.
Import Binary64 Sample SampleFiles.

Lemma read_ndc_header_only_file_witness :
  py_slice 517 525 (zeros 517) = []
  /\ mmap_find (zeros 517) [] (517 + 94) = Some 517%nat
  /\ forall fuel (output : list (MainRecord spec_float string)) aux,
       read_ndc_loop fuel (zeros 517) (py_slice 517 525 (zeros 517)) (Some 517%nat)
         output aux
       = Raise FuelExhausted.
Proof.
  apply (read_ndc_header_only_file (F := spec_float) (State := string) (zeros 517)).
  reflexivity.
Defined.

Lemma read_ndc_unknown_type_witness :
  read_ndc (F := spec_float) (State := string) (zeros 600) = Ok ([], empty_DataFrame).
Proof.
  apply (read_ndc_unknown_type (zeros 600) "000"%byte);
    [reflexivity | discriminate ..].
Defined.

Lemma read_ndc_main_rows_need_main_type_witness :
  exists aux_df,
    read_ndc (F := spec_float) (State := string) aux_file = Ok ([], aux_df).
Proof.
  assert (Hread : exists df aux_df,
            read_ndc (F := spec_float) (State := string) aux_file = Ok (df, aux_df))
    by (eexists; eexists; vm_compute; reflexivity).
  destruct Hread as (df & aux_df & Hread).
  exists aux_df. rewrite Hread. do 2 f_equal.
  apply (read_ndc_main_rows_need_main_type aux_file df aux_df Hread).
  vm_compute. discriminate.
Defined.

(** Two whole records followed by the first 50 bytes of a third one: the
    cut-off record is visited and cannot be decoded. *)
Lemma read_ndc_main_file_witness :
  read_ndc (F := spec_float) (State := string) (main_file_with (take 50 main_slice))
  = (output ← mapM _bytes_to_list_ndc
                 (main_slice :: [main_slice_2]
                    ++ tail_record (take 8 main_slice) (take 50 main_slice));
     Ok ((fun lr => (lr.1, dtype_cast lr.2)) <$> assemble_main output,
         empty_DataFrame)).
Proof.
  apply (read_ndc_main_file (zeros 517) main_slice (take 50 main_slice) [main_slice_2]).
  - reflexivity.
  - reflexivity.
  - reflexivity.
  - repeat constructor.
  - vm_compute. lia.
Defined.

Lemma read_ndc_aux_file_witness :
  read_ndc (F := spec_float) (State := string)
    (zeros 517 ++ concat (aux_record_1 :: [aux_record_2]) ++ [])
  = (aux ← mapM _aux_bytes_65_to_list_ndc
             (aux_record_1 :: [aux_record_2] ++ tail_record (take 8 aux_record_1) []);
     Ok ([], mk_DataFrame ["Index"; "Aux"; "V"; "T"]%string
               ((fun row : list (pynum spec_float) => Some <$> row) <$> aux))).
Proof.
  refine (proj1 (read_ndc_aux_file (F := spec_float) (State := string)
                   (zeros 517) aux_record_1 [] [aux_record_2] _ _ _ _) _).
  - reflexivity.
  - reflexivity.
  - repeat constructor.
  - cbn. lia.
  - reflexivity.
Defined.

Lemma read_ndc_8_closed_form_witness :
  read_ndc_8 (F := spec_float) zero_block_file
  = Ok (imap (fun i '(v, c) => mk_SampleRow v c (Z.of_nat i + 1))
          (sample_of <$> sub_records 8 495 1 zero_block_file)).
Proof. apply (read_ndc_8_closed_form zero_block_file 1). reflexivity. Defined.

Lemma read_data_runInfo_ndc8_closed_form_witness :
  read_data_runInfo_ndc8 (F := spec_float) runInfo_file
  = Ok (let rec := sub_records 47 83 1 runInfo_file ≫= runInfo_of in
        set_Step rec (_count_changes (ri_Step <$> rec))).
Proof. apply (read_data_runInfo_ndc8_closed_form runInfo_file 1). reflexivity. Defined.

Lemma read_data_step_ndc8_closed_form_witness :
  read_data_step_ndc8 (F := spec_float) (State := string) step_file
  = (rec ← for_each (sub_records 37 107 1 step_file) step_of;
     Ok (imap (fun i '(cycle, step_index, status) =>
                 mk_StepRow cycle step_index status (Z.of_nat i + 1)) rec)).
Proof. apply (read_data_step_ndc8_closed_form step_file 1). reflexivity. Defined.

Lemma merge_runInfo_complete_witness :
  exists infos,
    Forall2 (fun l ri =>
               List.find (fun ri => ri_Index ri =? smp_Index l) runInfo_1_2_3 = Some ri)
            (List.filter (fun r => smp_Index r <=? 3) samples_1_10) infos
    /\ merge_runInfo samples_1_10 runInfo_1_2_3
       = Ok (zip_with (fun l ri =>
               mk_FilledRow (smp_Voltage l) (smp_Current l) (smp_Index l)
                 (Some (ri_Time ri)) (fromtimestamp (ri_Timestamp ri))
                 (Some (ri_Step ri)))
               (List.filter (fun r => smp_Index r <=? 3) samples_1_10) infos).
Proof.
  apply (merge_runInfo_complete samples_1_10 runInfo_1_2_3 3).
  - apply (bool_decide_unpack _). vm_compute. exact I.
  - reflexivity.
  - apply (bool_decide_unpack _). vm_compute. exact I.
Defined.

Lemma merge_step_by_number_witness :
  exists step_df,
    read_data_step_ndc8 (F := spec_float) (State := string) step_file = Ok step_df
    /\ n8_Status <$> merge_step_left filled_2_5 step_df = [Some "Rest"%string; None].
Proof.
  assert (Hread : exists step_df,
            read_data_step_ndc8 (F := spec_float) (State := string) step_file
            = Ok step_df) by (eexists; vm_compute; reflexivity).
  destruct Hread as [step_df Hread]. exists step_df. split; [exact Hread |].
  rewrite (merge_step_by_number step_file step_df filled_2_5 Hread).
  revert Hread. vm_compute. intros [= <-]. reflexivity.
Defined.

Lemma read_ndax_legacy_no_aux_witness :
  read_ndax_legacy (F := spec_float) (State := string) legacy_archive main_file []
  = (match read_ndc main_file with
     | Ok (data_df, _) => Ok (TableLegacy data_df)
     | Raise e => Raise e
     end, []).
Proof.
  apply (read_ndax_legacy_no_aux legacy_archive main_file []).
  repeat constructor.
Defined.

Lemma bytes_to_list_ndc_ranges_witness :
  exists r : MainRecord spec_float string,
    _bytes_to_list_ndc main_slice = Ok r
    /\ 0 <= rec_Index r < 2 ^ 32 /\ 1 <= rec_Cycle r <= 2 ^ 32
    /\ 0 <= rec_Step r < 2 ^ 8.
Proof.
  assert (Hr : exists r : MainRecord spec_float string,
            _bytes_to_list_ndc main_slice = Ok r) by (eexists; vm_compute; reflexivity).
  destruct Hr as [r Hr]. exists r. split; [exact Hr |].
  destruct (bytes_to_list_ndc_ranges main_slice r Hr) as (HI & HC & HS & _).
  repeat split; [apply HI | apply HI | apply HC | apply HC | apply HS | apply HS].
Defined.

(** A record with status 1 and range 0 whose date bytes are zero. *)
Lemma bytes_to_list_ndc_invalid_date_witness :
  _bytes_to_list_ndc (F := spec_float) (State := string)
    (encode_main_record 1 0 1 1 1000 36000 500 7200 0 3600 0 0 0 0 0 0 0 0)
  = Raise ValueError.
Proof.
  apply bytes_to_list_ndc_invalid_date.
  - vm_compute. lia.
  - vm_compute. eexists. reflexivity.
  - vm_compute. eexists. reflexivity.
  - vm_compute. reflexivity.
Defined.

Lemma encode_main_record_decodes_witness :
  _bytes_to_list_ndc (F := spec_float) (State := string)
    (encode_main_record 2 0 1 1 2000 36010 (-500) 7200 0 3600 0 2023 1 2 3 4 6 1)
  = Ok (mk_MainRecord 2 (0 + 1) 1 "CC_Chg"%string
          (int_truediv 2000 1000) (int_truediv 36010 10000)
          (py_int_mul (-500) (PFloat (truediv 1 1000)))
          (py_truediv (py_int_mul 7200 (PFloat (truediv 1 1000))) 3600)
          (py_truediv (py_int_mul 0 (PFloat (truediv 1 1000))) 3600)
          (py_truediv (py_int_mul 3600 (PFloat (truediv 1 1000))) 3600)
          (py_truediv (py_int_mul 0 (PFloat (truediv 1 1000))) 3600)
          (mk_datetime 2023 1 2 3 4 6)).
Proof.
  apply encode_main_record_decodes; try lia; reflexivity.
Defined.

(** The scan of the sample file under a cast that stores Index as an
    unsigned 32-bit integer. *)
Lemma read_ndc_main_index_witness :
  exists (df : MainFrame spec_float string) aux_df,
    @read_ndc spec_float string binary64 uint32_dicts main_file = Ok (df, aux_df)
    /\ StronglySorted Z.lt ((fun lr => rec_Index lr.2) <$> df).
Proof.
  assert (Hread : exists (df : MainFrame spec_float string) aux_df,
            @read_ndc spec_float string binary64 uint32_dicts main_file
            = Ok (df, aux_df))
    by (eexists; eexists; vm_compute; reflexivity).
  destruct Hread as (df & aux_df & Hread). exists df, aux_df.
  split; [exact Hread |].
  apply (@read_ndc_main_index spec_float string binary64 uint32_dicts
           main_file df aux_df); [| exact Hread].
  intros r Hr. cbn. apply Z.mod_small. exact Hr.
Defined.

(** The cut-off third record of the sample file makes the scan fail. *)
Example main_file_cut_short :
  read_ndc (F := spec_float) (State := string) (main_file_with (take 50 main_slice))
  = Raise StructError.
Proof. vm_compute. reflexivity. Qed.

Lemma merge_index_column_witness :
  exists filled last_index,
    merge_runInfo (F := spec_float)
      (imap (fun i '(v, c) => mk_SampleRow v c (Z.of_nat i + 1))
         (sample_of <$> sub_records 8 495 1 zero_block_file))
      runInfo_1_2_3 = Ok filled
    /\ last (ri_Index <$> runInfo_1_2_3) = Some last_index
    /\ f_Index <$> filled = seqZ 1 (Z.min 495 last_index).
Proof.
  assert (Hread : read_ndc_8 (F := spec_float) zero_block_file
                  = Ok (imap (fun i '(v, c) => mk_SampleRow v c (Z.of_nat i + 1))
                          (sample_of <$> sub_records 8 495 1 zero_block_file)))
    by (vm_compute; reflexivity).
  assert (Hmerge : exists filled,
            merge_runInfo (F := spec_float)
              (imap (fun i '(v, c) => mk_SampleRow v c (Z.of_nat i + 1))
                 (sample_of <$> sub_records 8 495 1 zero_block_file))
              runInfo_1_2_3 = Ok filled)
    by (eexists; vm_compute; reflexivity).
  destruct Hmerge as [filled Hmerge].
  destruct (merge_index_column (State := string) zero_block_file _ runInfo_1_2_3 filled
              Hread) as (last_index & Hlast & Hidx).
  - apply (bool_decide_unpack _). vm_compute. exact I.
  - exact Hmerge.
  - exists filled, last_index. split; [exact Hmerge |]. split; [exact Hlast |].
    rewrite Hidx. f_equal.
Defined.

End ExtraSamples.
